(** * ctbpR: the identifier-reset tool, four source variants

    The repository holds four stand-alone C++ programs that do the same job:
    [ctbpR.cpp], [ctbpR-2.cpp], [ctbpR-3.cpp] and [ctbpR-4.cpp].  Each one
    locates a JSON storage file, backs it up, loads it, overwrites three
    identifier fields with fresh random values and writes it back.

    Every variant is embedded in a module of its own ([CtbpR], [CtbpR2],
    [CtbpR3], [CtbpR4]) whose definitions keep the names of the C++
    functions.  The C++ standard library, Boost.Filesystem, libuuid and
    nlohmann::json are not part of the repository; their operations are
    modelled once, in the first half of the file, at the level of their
    documented behaviour. *)

From stdpp Require Import base gmap strings list fin_maps sorting.
From Stdlib Require Import ZArith Ascii Lia.

#[local] Set Warnings "-register-all".
#[local] Open Scope Z_scope.

(* ===================================================================== *)
(** * Characters and stream buffers *)
(* ===================================================================== *)

(** A [std::stringstream] is modelled by the list of characters written to
    it so far; [ss.str()] turns the buffer into a string. *)
Definition buffer := list ascii.

Definition str (ss : buffer) : string := String.string_of_list_ascii ss.
Definition chars (s : string) : list ascii := String.list_ascii_of_string s.

Definition in_range (lo hi c : ascii) : bool :=
  (nat_of_ascii lo <=? nat_of_ascii c)%nat && (nat_of_ascii c <=? nat_of_ascii hi)%nat.

(** The character class [[0-9a-f]]. *)
Definition is_lower_hex (c : ascii) : bool :=
  in_range "0" "9" c || in_range "a" "f" c.

(** The character class [[89ab]]. *)
Definition is_variant (c : ascii) : bool :=
  in_range "8" "9" c || in_range "a" "b" c.

Definition is_char (x c : ascii) : bool := bool_decide (x = c).

(** A pattern is a sequence of character classes, one per position; a
    string matches when it has that many characters and each one lies in the
    class of its position.  This is all the regular expressions of the
    specification need: they are anchored and have fixed repetition counts. *)
Fixpoint matches (pat : list (ascii → bool)) (s : list ascii) : bool :=
  match pat, s with
  | [], [] => true
  | p :: pat', c :: s' => p c && matches pat' s'
  | _, _ => false
  end.

(** [^[0-9a-f]{8}-[0-9a-f]{4}-[0-9a-f]{4}-[0-9a-f]{4}-[0-9a-f]{12}$] *)
Definition canonical_uuid_pattern : list (ascii → bool) :=
  replicate 8 is_lower_hex ++ [is_char "-"] ++
  replicate 4 is_lower_hex ++ [is_char "-"] ++
  replicate 4 is_lower_hex ++ [is_char "-"] ++
  replicate 4 is_lower_hex ++ [is_char "-"] ++
  replicate 12 is_lower_hex.

(** [^[0-9a-f]{8}-[0-9a-f]{4}-4[0-9a-f]{3}-[89ab][0-9a-f]{3}-[0-9a-f]{12}$] *)
Definition uuid_v4_pattern : list (ascii → bool) :=
  replicate 8 is_lower_hex ++ [is_char "-"] ++
  replicate 4 is_lower_hex ++ [is_char "-"] ++
  [is_char "4"] ++ replicate 3 is_lower_hex ++ [is_char "-"] ++
  [is_variant] ++ replicate 3 is_lower_hex ++ [is_char "-"] ++
  replicate 12 is_lower_hex.

(* ===================================================================== *)
(** * Formatted output of integers: [ss << std::hex << n] *)
(* ===================================================================== *)

Definition hex_digit (d : Z) : ascii :=
  match d with
  | 0 => "0" | 1 => "1" | 2 => "2" | 3 => "3" | 4 => "4" | 5 => "5"
  | 6 => "6" | 7 => "7" | 8 => "8" | 9 => "9" | 10 => "a" | 11 => "b"
  | 12 => "c" | 13 => "d" | 14 => "e" | _ => "f"
  end%char.

(** Digits of a non-negative number, most significant first, no leading
    zero; [fuel] bounds the number of digits. *)
Fixpoint hex_digits (fuel : nat) (n : Z) (acc : list ascii) : list ascii :=
  match fuel with
  | O => acc
  | S fuel' =>
      let acc' := hex_digit (n mod 16) :: acc in
      if n / 16 =? 0 then acc' else hex_digits fuel' (n / 16) acc'
  end.

(** With [std::hex] an [int] is printed as the 32-bit unsigned value with the
    same bits: lowercase digits, no prefix, no leading zeros. *)
Definition hex_of_int (n : Z) : list ascii :=
  hex_digits 8 (n mod 2 ^ 32) [].

(** [std::setw(w)] with [std::setfill(c)]: the field is padded on the left up
    to [w] characters (the default adjustment is right); a longer field is
    not cut.  The width applies to the next insertion only, which is why the
    sources set it inside the loop. *)
Definition pad_left (w : nat) (fill : ascii) (field : list ascii) : list ascii :=
  replicate (w - length field)%nat fill ++ field.

(* ===================================================================== *)
(** * Random sources *)
(* ===================================================================== *)

(** A random engine is a stream of raw words together with a read position.
    Nothing is assumed about the words, so a statement proved for every [Rng]
    holds for whatever [std::random_device], [std::mt19937] or [rand()]
    deliver. *)
Record Rng := mkRng { raw : nat → Z; pos : nat }.

Definition next_raw (g : Rng) : Z * Rng :=
  (raw g (pos g), mkRng (raw g) (S (pos g))).

(** [std::uniform_int_distribution<>(a, b)(gen)]: a value of the closed range
    [a..b], obtained here by reducing one raw word. *)
Definition uniform_int_distribution (a b : Z) (gen : Rng) : Z * Rng :=
  let (r, gen') := next_raw gen in (a + r mod (b - a + 1), gen').

Definition RAND_MAX : Z := 2147483647.

(** [rand()]: a value of the range [0..RAND_MAX]. *)
Definition rand (gen : Rng) : Z * Rng :=
  let (r, gen') := next_raw gen in (r mod (RAND_MAX + 1), gen').

(** A [for] loop that runs [n] times, each time inserting one formatted draw
    into the stream [ss]; [fmt_draw] is the loop body. *)
Fixpoint insert_draws (fmt_draw : Rng → list ascii * Rng)
    (n : nat) (ss : buffer) (gen : Rng) : buffer * Rng :=
  match n with
  | O => (ss, gen)
  | S n' =>
      let (field, gen') := fmt_draw gen in
      insert_draws fmt_draw n' (ss ++ field) gen'
  end.

(** The loop body shared by most generators: [ss << std::hex << dis(gen)]
    with [dis] uniform over [0..15]. *)
Definition hex_nibble (gen : Rng) : list ascii * Rng :=
  let (d, gen') := uniform_int_distribution 0 15 gen in (hex_of_int d, gen').

(* ===================================================================== *)
(** * Exceptions and outcomes *)
(* ===================================================================== *)

(** The exceptions the programs throw or receive.  All of them derive from
    [std::exception]; [CursorResetError] is the class [ctbpR.cpp] declares. *)
Inductive exn :=
| CursorResetError (message : string)
| runtime_error (message : string)
| filesystem_error (message : string)
| json_parse_error
| json_type_error (id : Z).

(** [e.what()].  The texts of the library exceptions are the libraries'
    business; the ones below are stand-ins that keep the error number. *)
Definition what (e : exn) : string :=
  match e with
  | CursorResetError m => m
  | runtime_error m => m
  | filesystem_error m => "filesystem error: " +:+ m
  | json_parse_error => "[json.exception.parse_error.101] parse error"
  | json_type_error id =>
      if id =? 302 then "[json.exception.type_error.302] type must be string"
      else if id =? 305 then
        "[json.exception.type_error.305] cannot use operator[] with a string argument"
      else if id =? 306 then "[json.exception.type_error.306] cannot use value()"
      else "[json.exception.type_error.307] cannot use erase()"
  end.

(** What evaluating a piece of C++ leads to: a value, a thrown exception, or
    undefined behaviour (here: building a path from a null [char*]). *)
Inductive outcome (A : Type) :=
| Ret (a : A)
| Throw (e : exn)
| Undefined.
Arguments Ret {A} a.
Arguments Throw {A} e.
Arguments Undefined {A}.

(* ===================================================================== *)
(** * nlohmann::json values *)
(* ===================================================================== *)

(** A [json] value.  An object is a [std::map] from keys to values, hence a
    finite map with unique keys. *)
Inductive json :=
| JNull
| JBool (b : bool)
| JInt (n : Z)
| JFloat (repr : string)   (* a float, kept as its text *)
| JStr (s : string)
| JArr (l : list json)
| JObj (m : gmap string json).

(** [json::object()] *)
Definition json_object : json := JObj ∅.

(** [j.contains(key)]: false on anything that is not an object. *)
Definition contains (key : string) (j : json) : bool :=
  match j with
  | JObj m => bool_decide (is_Some (m !! key))
  | _ => false
  end.

(** [j[key]] on a non-const value, followed by an action [f] on the element
    the reference designates.  [null] silently becomes an empty object; a
    missing key is inserted with value [null]; any other type throws
    [type_error.305]. *)
Definition subscript_modify (key : string) (f : json → outcome json) (j : json)
    : outcome json :=
  match j with
  | JNull =>
      match f JNull with
      | Ret v => Ret (JObj {[ key := v ]})
      | Throw e => Throw e
      | Undefined => Undefined
      end
  | JObj m =>
      match f (default JNull (m !! key)) with
      | Ret v => Ret (JObj (<[ key := v ]> m))
      | Throw e => Throw e
      | Undefined => Undefined
      end
  | _ => Throw (json_type_error 305)
  end.

(** [j[key] = v] *)
Definition subscript_assign (key : string) (v : json) (j : json) : outcome json :=
  subscript_modify key (λ _, Ret v) j.

(** [j[key]] read as a value. *)
Definition subscript_read (key : string) (j : json) : outcome json :=
  match j with
  | JNull => Ret JNull
  | JObj m => Ret (default JNull (m !! key))
  | _ => Throw (json_type_error 305)
  end.

(** [j.value(key, default_value)] with a string default: only objects have
    it ([type_error.306] otherwise), and a value found under the key is
    converted to [std::string], which throws [type_error.302] unless it is a
    string. *)
Definition value (key : string) (default_value : string) (j : json)
    : outcome string :=
  match j with
  | JObj m =>
      match m !! key with
      | None => Ret default_value
      | Some (JStr s) => Ret s
      | Some _ => Throw (json_type_error 302)
      end
  | _ => Throw (json_type_error 306)
  end.

(** [j.erase(key)]: objects only. *)
Definition erase (key : string) (j : json) : outcome json :=
  match j with
  | JObj m => Ret (JObj (delete key m))
  | _ => Throw (json_type_error 307)
  end.

(** Reading and writing JSON text is nlohmann::json's work.  The programs
    are embedded over any parser and serialiser: [parse] answers [None] where
    the library throws [json::parse_error], and [dump indent j] is
    [j.dump(indent)], the same text [out << std::setw(indent) << j] writes. *)
Class JsonText := {
  parse : string → option json;
  dump : nat → json → string
}.

(* ===================================================================== *)
(** * The world a run acts on *)
(* ===================================================================== *)

Inductive Platform := Windows | Darwin | Linux | Unknown.

#[global] Instance Platform_eq_dec : EqDecision Platform.
Proof. solve_decision. Defined.

(** The places where a run asks the operating system for something that can
    be refused for reasons outside the program (permissions, a full disk,
    no descriptors left). *)
Inductive io_site :=
| MkDirs        (* fs::create_directories *)
| BackupCopy    (* the copy that makes the backup *)
| OpenRead      (* std::ifstream on the storage file *)
| OpenWrite     (* std::ofstream on the storage file *)
| WriteData     (* the bytes written through the open std::ofstream *)
| RestoreCopy.  (* the copy back from the backup *)

Record World := mkWorld {
  env : gmap string string;     (* environment variables *)
  files : gmap string string;   (* regular files: path to content *)
  timestamp : string;           (* local time as %Y%m%d_%H%M%S *)
  refused : io_site → bool;     (* requests the system turns down *)
  short_write : nat;            (* bytes that arrive when WriteData is refused *)
  entropy : Rng;
  cout : list string;
  cerr : list string
}.

Definition set_files (f : gmap string string → gmap string string) (w : World) : World :=
  mkWorld (env w) (f (files w)) (timestamp w) (refused w) (short_write w)
          (entropy w) (cout w) (cerr w).
Definition set_entropy (g : Rng) (w : World) : World :=
  mkWorld (env w) (files w) (timestamp w) (refused w) (short_write w)
          g (cout w) (cerr w).
Definition add_cout (line : string) (w : World) : World :=
  mkWorld (env w) (files w) (timestamp w) (refused w) (short_write w)
          (entropy w) (cout w ++ [line]) (cerr w).
Definition add_cerr (line : string) (w : World) : World :=
  mkWorld (env w) (files w) (timestamp w) (refused w) (short_write w)
          (entropy w) (cout w) (cerr w ++ [line]).

(** Computations: state passing over the world, with exceptions.  Effects
    made before an exception is thrown stay. *)
Definition M (A : Type) : Type := World → outcome A * World.

Definition ret {A} (a : A) : M A := λ w, (Ret a, w).
Definition throw {A} (e : exn) : M A := λ w, (Throw e, w).
Definition undefined_behaviour {A} : M A := λ w, (Undefined, w).

Definition bind {A B} (m : M A) (k : A → M B) : M B :=
  λ w, match m w with
       | (Ret a, w') => k a w'
       | (Throw e, w') => (Throw e, w')
       | (Undefined, w') => (Undefined, w')
       end.

Notation "'do' x <- m ; k" := (bind m (λ x, k))
  (at level 10, x name, m at level 100, k at level 200,
   format "'[v' 'do'  x  <-  m ; '/' k ']'").
Notation "m ;; k" := (bind m (λ _, k))
  (at level 100, k at level 200, right associativity).

(** [try { body } catch (...) { handler }] for handlers that take every
    exception of the model. *)
Definition try_catch {A} (body : M A) (handler : exn → M A) : M A :=
  λ w, match body w with
       | (Throw e, w') => handler e w'
       | r => r
       end.

(** A pure json operation used as a statement. *)
Definition lift {A} (r : outcome A) : M A := λ w, (r, w).

(** A generator call: it draws from the world's entropy. *)
Definition draw {A} (f : Rng → A * Rng) : M A :=
  λ w, let (a, g) := f (entropy w) in (Ret a, set_entropy g w).

Definition print (line : string) : M unit := λ w, (Ret tt, add_cout line w).
Definition eprint (line : string) : M unit := λ w, (Ret tt, add_cerr line w).

(** [getenv(name)]: a null pointer when the variable is not set. *)
Definition getenv (name : string) : M (option string) :=
  λ w, (Ret (env w !! name), w).

(** [fs::path(p)] for a [char*]: undefined when the pointer is null. *)
Definition path_of (p : option string) : M string :=
  match p with
  | Some s => ret s
  | None => undefined_behaviour
  end.

(** [localtime] and [put_time]/[strftime] with ["%Y%m%d_%H%M%S"]. *)
Definition local_timestamp : M string := λ w, (Ret (timestamp w), w).

(** [fs::exists(p)] *)
Definition exists_ (p : string) : M bool :=
  λ w, (Ret (bool_decide (is_Some (files w !! p))), w).

(** [fs::create_directories(p)].  Directories are not tracked; the call
    either works or throws. *)
Definition create_directories (p : string) : M unit :=
  λ w, if refused w MkDirs
       then (Throw (filesystem_error "cannot create directories"), w)
       else (Ret tt, w).

(** [fs::copy_file(from, to)], with or without the option that lets it
    replace an existing [to].  Without it an existing target is an error. *)
Definition copy_file (site : io_site) (from to : string) (overwrite : bool) : M unit :=
  λ w, if refused w site
       then (Throw (filesystem_error "cannot copy file"), w)
       else match files w !! from with
            | None => (Throw (filesystem_error "cannot copy file: no such file"), w)
            | Some content =>
                if bool_decide (is_Some (files w !! to)) && negb overwrite
                then (Throw (filesystem_error "cannot copy file: file exists"), w)
                else (Ret tt, set_files <[ to := content ]> w)
            end.

(** [std::ifstream in(p)]: [Some content] when the stream is open. *)
Definition ifstream (p : string) : M (option string) :=
  λ w, if refused w OpenRead then (Ret None, w) else (Ret (files w !! p), w).

(** [std::ofstream out(p)]: opening creates the file or empties it, and
    answers whether the stream is open.  A refused open leaves the file as
    it was. *)
Definition ofstream (p : string) : M bool :=
  λ w, if refused w OpenWrite then (Ret false, w)
       else (Ret true, set_files <[ p := "" ]> w).

(** [out << text] on a stream opened by [ofstream]; on a closed stream the
    insertion does nothing.  When the system refuses the data, only the
    first [short_write] bytes arrive. *)
Definition insert_text (p : string) (is_open : bool) (text : string) : M unit :=
  λ w, if is_open
       then let arrived :=
              if refused w WriteData
              then str (take (short_write w) (chars text)) else text in
            (Ret tt, set_files (λ fs, <[ p := default "" (fs !! p) +:+ arrived ]> fs) w)
       else (Ret tt, w).

(** Paths.  [preferred_separator] is a backslash on Windows. *)
Section Paths.
Context (platform : Platform).

Definition preferred_separator : ascii :=
  match platform with Windows => "\" | _ => "/" end%char.

Definition is_separator (c : ascii) : bool :=
  bool_decide (c = "/"%char) ||
  (bool_decide (platform = Windows) && bool_decide (c = "\"%char)).

(** [p / q] for a relative [q]: a separator is put in between unless [p]
    is empty or already ends with one. *)
Definition path_append (p q : string) : string :=
  match last (chars p) with
  | None => q
  | Some c =>
      if is_separator c then p +:+ q
      else p +:+ String preferred_separator q
  end.

Fixpoint drop_while (f : ascii → bool) (l : list ascii) : list ascii :=
  match l with
  | [] => []
  | c :: l' => if f c then drop_while f l' else l
  end.

(** [p.parent_path()]: the path without its last component. *)
Definition parent_path (p : string) : string :=
  let without_name := drop_while (λ c, negb (is_separator c)) (reverse (chars p)) in
  let without_sep := drop_while is_separator without_name in
  match without_sep, without_name with
  | [], c :: _ => String c ""
  | _, _ => str (reverse without_sep)
  end.
End Paths.

(** [out << p] for a path prints it between double quotes. *)
Definition quoted (p : string) : string :=
  String (ascii_of_nat 34) (p +:+ String (ascii_of_nat 34) "").

Definition endl : string := String (ascii_of_nat 10) "".

(** Sequencing of pure json operations. *)
Definition and_then {A B} (r : outcome A) (k : A → outcome B) : outcome B :=
  match r with
  | Ret a => k a
  | Throw e => Throw e
  | Undefined => Undefined
  end.

Notation "'let*' x := r 'in' k" := (and_then r (λ x, k))
  (at level 10, x name, r at level 100, k at level 200,
   format "'[v' 'let*'  x  :=  r  'in' '/' k ']'").

(** [in >> data]: the text is parsed, a parse error is thrown as
    [json::parse_error]. *)
Definition read_json {json_text : JsonText} (content : string) : M json :=
  match parse content with
  | Some j => ret j
  | None => throw json_parse_error
  end.

(** The three identifier fields, under the names the variants give them. *)
Definition nested_id_keys : list string :=
  ["machineId"; "macMachineId"; "devDeviceId"].
Definition flat_id_keys : list string :=
  ["telemetry.machineId"; "telemetry.macMachineId"; "telemetry.devDeviceId"].
Definition trial_keys : list string :=
  ["cursor.trialStartDate"; "cursor.trialReminderShown"; "cursor.trialExpired"].

(* ===================================================================== *)
(** * ctbpR.cpp *)
(* ===================================================================== *)

Module CtbpR.
Section Program.
Context (platform : Platform) {json_text : JsonText}.
Local Notation "p // q" := (path_append platform p q) (at level 40, left associativity).

(** [generateRandomHex]: the stream is put in hex mode with fill character
    ['0'], and every draw is written with [std::setw(2)]. *)
Definition generateRandomHex (length : nat) (gen : Rng) : string * Rng :=
  let body g :=
    let (d, g') := uniform_int_distribution 0 15 g in
    (pad_left 2 "0" (hex_of_int d), g') in
  let (ss, gen') := insert_draws body length [] gen in
  (str ss, gen').

(** [generateUUID] *)
Definition generateUUID (gen : Rng) : string * Rng :=
  let ss := [] in
  let (ss, gen) := insert_draws hex_nibble 8 ss gen in
  let ss := ss ++ chars "-" in
  let (ss, gen) := insert_draws hex_nibble 4 ss gen in
  let ss := ss ++ chars "-4" in
  let (ss, gen) := insert_draws hex_nibble 3 ss gen in
  let ss := ss ++ chars "-" in
  let (v, gen) := uniform_int_distribution 8 11 gen in
  let ss := ss ++ hex_of_int v in
  let (ss, gen) := insert_draws hex_nibble 3 ss gen in
  let ss := ss ++ chars "-" in
  let (ss, gen) := insert_draws hex_nibble 12 ss gen in
  (str ss, gen).

(** [getStorageFile].  The [#ifdef] chain picks [system]; on a platform it
    does not know the initialiser is the [throw]. *)
Definition getStorageFile : M string :=
  do system <-
    match platform with
    | Windows => ret "Windows"
    | Darwin => ret "Darwin"
    | Linux => ret "Linux"
    | Unknown => throw (CursorResetError "Unsupported operating system")
    end;
  do base_path <-
    (if bool_decide (system = "Windows") then
       do appdata <- getenv "APPDATA";
       do p <- path_of appdata;
       ret (p // "Cursor")
     else if bool_decide (system = "Darwin") then
       do home <- getenv "HOME";
       do p <- path_of home;
       ret (p // "Library" // "Application Support" // "Cursor")
     else if bool_decide (system = "Linux") then
       do home <- getenv "HOME";
       do p <- path_of home;
       ret (p // ".config" // "Cursor")
     else ret "");
  ret (base_path // "User" // "globalStorage" // "storage.json").

(** [backupFile]: the empty path when there is nothing to back up. *)
Definition backupFile (file_path : string) : M string :=
  do present <- exists_ file_path;
  if negb present then ret "" else
  do stamp <- local_timestamp;
  let backup_path := file_path +:+ ".backup_" +:+ stamp in
  copy_file BackupCopy file_path backup_path false;;
  print ("Created backup at: " +:+ quoted backup_path +:+ endl);;
  ret backup_path.

(** [generateNewIds] *)
Definition generateNewIds : M json :=
  let new_ids := JNull in
  do id <- draw (generateRandomHex 32);
  do new_ids <- lift (subscript_assign "machineId" (JStr id) new_ids);
  do id <- draw (generateRandomHex 32);
  do new_ids <- lift (subscript_assign "macMachineId" (JStr id) new_ids);
  do id <- draw generateUUID;
  do new_ids <- lift (subscript_assign "devDeviceId" (JStr id) new_ids);
  ret new_ids.

(** [resetCursorId], lines 118 to 123: the identifiers go under the
    ["telemetry"] object, which is created when the document has none. *)
Definition update_ids (new_ids data : json) : outcome json :=
  let* data :=
    (if negb (contains "telemetry" data)
     then subscript_assign "telemetry" json_object data else Ret data) in
  let* v := subscript_read "machineId" new_ids in
  let* data := subscript_modify "telemetry" (subscript_assign "machineId" v) data in
  let* v := subscript_read "macMachineId" new_ids in
  let* data := subscript_modify "telemetry" (subscript_assign "macMachineId" v) data in
  let* v := subscript_read "devDeviceId" new_ids in
  subscript_modify "telemetry" (subscript_assign "devDeviceId" v) data.

(** [resetCursorId], lines 108 to 115. *)
Definition load (storage_file : string) : M json :=
  do present <- exists_ storage_file;
  if present then
    do in_file <- ifstream storage_file;
    match in_file with
    | Some content => read_json content
    | None => ret JNull
    end
  else ret JNull.

(** [resetCursorId], lines 125 to 133. *)
Definition persist (storage_file backup_path : string) (data : json) : M unit :=
  do is_open <- ofstream storage_file;
  (if negb is_open then
     (if negb (bool_decide (backup_path = ""))
      then copy_file RestoreCopy backup_path storage_file false else ret tt);;
     throw (CursorResetError "Failed to write storage file")
   else ret tt);;
  insert_text storage_file is_open (dump 2 data +:+ endl).

(** The body of the [try] block of [resetCursorId]. *)
Definition resetCursorId_body : M unit :=
  do storage_file <- getStorageFile;
  print ("Targeting storage file: " +:+ quoted storage_file +:+ endl);;
  create_directories (parent_path platform storage_file);;
  do backup_path <- backupFile storage_file;
  do data <- load storage_file;
  do new_ids <- generateNewIds;
  do data <- lift (update_ids new_ids data);
  persist storage_file backup_path data;;
  print ("🎉 Device IDs have been successfully reset!" +:+ endl);;
  print ("New device IDs:" +:+ endl);;
  print (dump 2 new_ids +:+ endl).

(** [resetCursorId]: both handlers report on [std::cerr] and rethrow. *)
Definition resetCursorId : M unit :=
  try_catch resetCursorId_body (λ e,
    match e with
    | CursorResetError _ =>
        eprint ("❌ Error: " +:+ what e +:+ endl);; throw e
    | _ =>
        eprint ("❌ Unexpected error occurred: " +:+ what e +:+ endl);; throw e
    end).

(** [main]: the exit status. *)
Definition main : M Z :=
  print ("Cursor Trial Reset Tool v2.0" +:+ endl);;
  print ("---------------------------" +:+ endl);;
  try_catch (resetCursorId;; ret 0)
    (λ _, eprint (endl +:+ "For more details, check program output" +:+ endl);;
          ret 1).

End Program.
End CtbpR.

(* ===================================================================== *)
(** * ctbpR-2.cpp *)
(* ===================================================================== *)

Module CtbpR2.
Section Program.
Context (platform : Platform) {json_text : JsonText}.
Local Notation "p // q" := (path_append platform p q) (at level 40, left associativity).

(** [backup_file]: Boost's [copy_file] with [overwrite_if_exists]. *)
Definition backup_file (file_path : string) : M string :=
  do present <- exists_ file_path;
  if present then
    do stamp <- local_timestamp;
    let backup_path := file_path +:+ ".backup_" +:+ stamp in
    copy_file BackupCopy file_path backup_path true;;
    print ("Backup created at: " +:+ quoted backup_path +:+ endl);;
    ret backup_path
  else ret "".

(** [get_storage_file]: on Windows without [APPDATA] control leaves the
    [if] chain and reaches the final [return fs::path()]. *)
Definition get_storage_file : M string :=
  let system :=
    match platform with
    | Windows => "Windows" | Darwin => "Darwin" | Linux => "Linux"
    | Unknown => "Unknown"
    end in
  if bool_decide (system = "Windows") then
    do appdata <- getenv "APPDATA";
    match appdata with
    | Some a => ret (a // "Cursor" // "User" // "globalStorage" // "storage.json")
    | None => ret ""
    end
  else if bool_decide (system = "Darwin") then
    do home <- getenv "HOME";
    do p <- path_of home;
    ret (p // "Library" // "Application Support" // "Cursor" // "User"
           // "globalStorage" // "storage.json")
  else if bool_decide (system = "Linux") then
    do home <- getenv "HOME";
    do p <- path_of home;
    ret (p // ".config" // "Cursor" // "User" // "globalStorage" // "storage.json")
  else throw (runtime_error ("Unsupported operating system: " +:+ system)).

(** [generate_random_hex]: [ss << std::hex << (rand() % 256)], with neither
    a width nor a fill character. *)
Definition generate_random_hex (length : nat) (gen : Rng) : string * Rng :=
  let body g :=
    let (r, g') := rand g in (hex_of_int (r mod 256), g') in
  let (ss, gen') := insert_draws body length [] gen in
  (str ss, gen').

(** [generate_uuid] hands the work to libuuid.  Modelled from that library's
    documentation: [uuid_generate_random] fills the sixteen bytes with random
    data and then sets the version to 4 and the variant to the DCE one, and
    [uuid_unparse] prints the bytes as two lowercase hex digits each, with
    hyphens after bytes 4, 6, 8 and 10. *)
Definition uuid_byte (i : nat) (gen : Rng) : list ascii * Rng :=
  let (r, gen') := next_raw gen in
  let b := r mod 256 in
  let b :=
    if (i =? 6)%nat then Z.lor (Z.land b 15) 64
    else if (i =? 8)%nat then Z.lor (Z.land b 63) 128
    else b in
  let sep :=
    if (i =? 4)%nat || (i =? 6)%nat || (i =? 8)%nat || (i =? 10)%nat
    then chars "-" else [] in
  (sep ++ pad_left 2 "0" (hex_of_int b), gen').

Fixpoint uuid_bytes (n i : nat) (ss : buffer) (gen : Rng) : buffer * Rng :=
  match n with
  | O => (ss, gen)
  | S n' =>
      let (field, gen') := uuid_byte i gen in
      uuid_bytes n' (S i) (ss ++ field) gen'
  end.

Definition generate_uuid (gen : Rng) : string * Rng :=
  let (ss, gen') := uuid_bytes 16 0 [] gen in (str ss, gen').

(** [reset_cursor_id], lines 101 to 105: the old values, read for the
    report before anything is changed. *)
Definition original_ids (data : json) : outcome (list (string * string)) :=
  let* a := value "telemetry.machineId" "Not set" data in
  let* b := value "telemetry.macMachineId" "Not set" data in
  let* c := value "telemetry.devDeviceId" "Not set" data in
  Ret [("machineId", a); ("macMachineId", b); ("devDeviceId", c)].

(** [reset_cursor_id], lines 108 to 115. *)
Definition update_ids (machine_id mac_machine_id dev_device_id : string)
    (data : json) : outcome json :=
  let* data := subscript_assign "telemetry.machineId" (JStr machine_id) data in
  let* data := subscript_assign "telemetry.macMachineId" (JStr mac_machine_id) data in
  let* data := subscript_assign "telemetry.devDeviceId" (JStr dev_device_id) data in
  let* data := erase "cursor.trialStartDate" data in
  let* data := erase "cursor.trialReminderShown" data in
  erase "cursor.trialExpired" data.

(** [reset_cursor_id], lines 86 to 93.  The stream is not tested: when it
    could not be opened, the parser meets the end of input at once. *)
Definition load (storage_file : string) : M json :=
  do present <- exists_ storage_file;
  if present then
    do file <- ifstream storage_file;
    do data <-
      match file with
      | Some content => read_json content
      | None => throw json_parse_error
      end;
    print ("Loading configuration from " +:+ quoted storage_file +:+ endl);;
    ret data
  else
    print ("Storage file not found at " +:+ quoted storage_file
           +:+ ". Creating new configuration." +:+ endl);;
    ret JNull.

Definition ids_object (machine_id mac_machine_id dev_device_id : string) : json :=
  JObj (<[ "machineId" := JStr machine_id ]>
       (<[ "macMachineId" := JStr mac_machine_id ]>
       (<[ "devDeviceId" := JStr dev_device_id ]> ∅))).

(** The body of the [try] block of [reset_cursor_id]. *)
Definition reset_cursor_id_body : M unit :=
  do storage_file <- get_storage_file;
  create_directories (parent_path platform storage_file);;
  do _ <- backup_file storage_file;
  do data <- load storage_file;
  do machine_id <- draw (generate_random_hex 32);
  do mac_machine_id <- draw (generate_random_hex 32);
  do dev_device_id <- draw generate_uuid;
  do original <- lift (original_ids data);
  do data <- lift (update_ids machine_id mac_machine_id dev_device_id data);
  do out_file <- ofstream storage_file;
  insert_text storage_file out_file (dump 2 data);;
  print ("Device IDs successfully reset" +:+ endl);;
  print (endl +:+ "🎉 Cursor v0.47.8 trial successfully reset!" +:+ endl +:+ endl);;
  print ("Original device IDs were:" +:+ endl);;
  print (dump 2 (JObj (list_to_map (prod_map id JStr <$> original))) +:+ endl);;
  print (endl +:+ "New device IDs are:" +:+ endl);;
  print (dump 2 (ids_object machine_id mac_machine_id dev_device_id) +:+ endl);;
  print (endl +:+ "✅ Additional trial parameters have been cleared" +:+ endl);;
  print ("✅ Restart Cursor to apply changes" +:+ endl).

(** [reset_cursor_id]: the handler reports and returns normally. *)
Definition reset_cursor_id : M unit :=
  try_catch reset_cursor_id_body (λ e,
    eprint ("Error resetting Cursor IDs: " +:+ what e +:+ endl);;
    eprint (endl +:+ "❌ Error: " +:+ what e +:+ endl);;
    eprint ("Please check the script and try again." +:+ endl)).

(** [main] *)
Definition main : M Z :=
  reset_cursor_id;; ret 0.

End Program.
End CtbpR2.

(* ===================================================================== *)
(** * ctbpR-3.cpp *)
(* ===================================================================== *)

Module CtbpR3.
Section Program.
Context (platform : Platform) {json_text : JsonText}.
Local Notation "p // q" := (path_append platform p q) (at level 40, left associativity).

(** [generateRandomHex] *)
Definition generateRandomHex (length : nat) (gen : Rng) : string * Rng :=
  let (ss, gen') := insert_draws hex_nibble length [] gen in
  (str ss, gen').

Definition uuidFormat : list nat := [8; 4; 4; 4; 12]%nat.

(** The range-based [for] over [uuidFormat]; [i] counts the groups already
    written, and a hyphen goes before every group but the first. *)
Fixpoint uuid_groups (groups : list nat) (i : nat) (ss : buffer) (gen : Rng)
    : buffer * Rng :=
  match groups with
  | [] => (ss, gen)
  | group :: rest =>
      let ss := if (0 <? i)%nat then ss ++ chars "-" else ss in
      let (ss, gen) := insert_draws hex_nibble group ss gen in
      uuid_groups rest (S i) ss gen
  end.

(** [generateUUID] *)
Definition generateUUID (gen : Rng) : string * Rng :=
  let (ss, gen') := uuid_groups uuidFormat 0 [] gen in
  (str ss, gen').

(** [getStorageFile] *)
Definition getStorageFile : M string :=
  match platform with
  | Windows =>
      do appdata <- getenv "APPDATA";
      match appdata with
      | None => throw (runtime_error "Failed to get APPDATA path.")
      | Some a => ret (a // "Cursor" // "User" // "globalStorage" // "storage.json")
      end
  | Darwin =>
      do home <- getenv "HOME";
      do p <- path_of home;
      ret (p // "Library" // "Application Support" // "Cursor" // "User"
             // "globalStorage" // "storage.json")
  | Linux =>
      do home <- getenv "HOME";
      do p <- path_of home;
      ret (p // ".config" // "Cursor" // "User" // "globalStorage" // "storage.json")
  | Unknown => throw (runtime_error "Unsupported operating system")
  end.

(** [backupFile]: [fs::copy] of a regular file with the default options is
    [fs::copy_file] with the default options. *)
Definition backupFile (filePath : string) : M unit :=
  do present <- exists_ filePath;
  if present then
    do stamp <- local_timestamp;
    copy_file BackupCopy filePath
      (parent_path platform filePath // ("storage.json.backup_" +:+ stamp)) false
  else ret tt.

(** [resetCursorID], lines 69 to 80: a parse error is caught on the spot. *)
Definition load (storageFile : string) : M json :=
  do present <- exists_ storageFile;
  if present then
    do inFile <- ifstream storageFile;
    match inFile with
    | Some content =>
        try_catch (read_json content) (λ e,
          match e with
          | json_parse_error =>
              eprint ("⚠️ Warning: The storage file is corrupted. "
                      +:+ "A new one will be created." +:+ endl);;
              ret json_object
          | _ => throw e
          end)
    | None => ret JNull
    end
  else ret JNull.

(** What lines 82 to 84 do to the document once the three values exist. *)
Definition update_ids (machine_id mac_machine_id dev_device_id : string)
    (data : json) : outcome json :=
  let* data := subscript_assign "telemetry.machineId" (JStr machine_id) data in
  let* data := subscript_assign "telemetry.macMachineId" (JStr mac_machine_id) data in
  subscript_assign "telemetry.devDeviceId" (JStr dev_device_id) data.

(** The body of the outer [try] block of [resetCursorID].  In each
    assignment the right-hand side is evaluated first. *)
Definition resetCursorID_body : M unit :=
  do storageFile <- getStorageFile;
  create_directories (parent_path platform storageFile);;
  backupFile storageFile;;
  do data <- load storageFile;
  do id <- draw (generateRandomHex 32);
  do data <- lift (subscript_assign "telemetry.machineId" (JStr id) data);
  do id <- draw (generateRandomHex 32);
  do data <- lift (subscript_assign "telemetry.macMachineId" (JStr id) data);
  do id <- draw generateUUID;
  do data <- lift (subscript_assign "telemetry.devDeviceId" (JStr id) data);
  do outFile <- ofstream storageFile;
  insert_text storageFile outFile (dump 2 data);;
  print ("🎉 Device IDs have been successfully reset. The new device IDs are:"
         +:+ endl);;
  print (dump 2 data +:+ endl).

(** [resetCursorID] *)
Definition resetCursorID : M unit :=
  try_catch resetCursorID_body (λ e,
    eprint ("❌ An error occurred: " +:+ what e +:+ endl)).

(** [main] *)
Definition main : M Z :=
  resetCursorID;; ret 0.

End Program.
End CtbpR3.

(* ===================================================================== *)
(** * ctbpR-4.cpp *)
(* ===================================================================== *)

Module CtbpR4.
Section Program.
Context (platform : Platform) {json_text : JsonText}.
Local Notation "p // q" := (path_append platform p q) (at level 40, left associativity).

(** [generate_random_hex] *)
Definition generate_random_hex (length : nat) (gen : Rng) : string * Rng :=
  let (ss, gen') := insert_draws hex_nibble length [] gen in
  (str ss, gen').

(** [generate_uuid]; [dis2] is uniform over [8..11]. *)
Definition generate_uuid (gen : Rng) : string * Rng :=
  let ss := [] in
  let (ss, gen) := insert_draws hex_nibble 8 ss gen in
  let ss := ss ++ chars "-" in
  let (ss, gen) := insert_draws hex_nibble 4 ss gen in
  let ss := ss ++ chars "-4" in
  let (ss, gen) := insert_draws hex_nibble 3 ss gen in
  let ss := ss ++ chars "-" in
  let (v, gen) := uniform_int_distribution 8 11 gen in
  let ss := ss ++ hex_of_int v in
  let (ss, gen) := insert_draws hex_nibble 3 ss gen in
  let ss := ss ++ chars "-" in
  let (ss, gen) := insert_draws hex_nibble 12 ss gen in
  (str ss, gen).

(** [backup_file]: [fs::copy_file] with [overwrite_existing]. *)
Definition backup_file (file_path : string) : M unit :=
  do present <- exists_ file_path;
  if present then
    do buffer <- local_timestamp;
    let backup_path := file_path +:+ ".backup_" +:+ buffer in
    copy_file BackupCopy file_path backup_path true
  else ret tt.

(** [get_storage_file]: [storage_path] starts empty and is only assigned
    when the variable is set. *)
Definition get_storage_file : M string :=
  let storage_path := "" in
  match platform with
  | Windows =>
      do appdata <- getenv "APPDATA";
      match appdata with
      | Some a => ret (a // "Cursor" // "User" // "globalStorage" // "storage.json")
      | None => ret storage_path
      end
  | Darwin =>
      do home <- getenv "HOME";
      match home with
      | Some h => ret (h // "Library" // "Application Support" // "Cursor" // "User"
                         // "globalStorage" // "storage.json")
      | None => ret storage_path
      end
  | Linux =>
      do home <- getenv "HOME";
      match home with
      | Some h => ret (h // ".config" // "Cursor" // "User" // "globalStorage"
                         // "storage.json")
      | None => ret storage_path
      end
  | Unknown => throw (runtime_error "Unsupported operating system")
  end.

(** [reset_cursor_id], lines 137 to 144. *)
Definition load (storage_file : string) : M json :=
  do present <- exists_ storage_file;
  if present then
    do file <- ifstream storage_file;
    match file with
    | Some content => read_json content
    | None => ret JNull
    end
  else ret JNull.

(** [reset_cursor_id], lines 152 to 154. *)
Definition update_ids (machine_id mac_machine_id dev_device_id : string)
    (data : json) : outcome json :=
  let* data := subscript_assign "telemetry.machineId" (JStr machine_id) data in
  let* data := subscript_assign "telemetry.macMachineId" (JStr mac_machine_id) data in
  subscript_assign "telemetry.devDeviceId" (JStr dev_device_id) data.

(** [reset_cursor_id], lines 168 to 171. *)
Definition result_object (machine_id mac_machine_id dev_device_id : string)
    : outcome json :=
  let* result := subscript_assign "machineId" (JStr machine_id) JNull in
  let* result := subscript_assign "macMachineId" (JStr mac_machine_id) result in
  subscript_assign "devDeviceId" (JStr dev_device_id) result.

(** [reset_cursor_id] *)
Definition reset_cursor_id : M unit :=
  do storage_file <- get_storage_file;
  create_directories (parent_path platform storage_file);;
  backup_file storage_file;;
  do data <- load storage_file;
  do machine_id <- draw (generate_random_hex 64);
  do mac_machine_id <- draw (generate_random_hex 64);
  do dev_device_id <- draw generate_uuid;
  do data <- lift (update_ids machine_id mac_machine_id dev_device_id data);
  do out_file <- ofstream storage_file;
  (if out_file
   then insert_text storage_file out_file (dump 2 data +:+ endl)
   else throw (runtime_error "Failed to open storage file for writing"));;
  print ("🎉 Device IDs have been successfully reset. The new device IDs are: "
         +:+ endl +:+ endl);;
  do result <- lift (result_object machine_id mac_machine_id dev_device_id);
  print (dump 2 result +:+ endl).

(** [main] *)
Definition main : M Z :=
  try_catch (reset_cursor_id;; ret 0) (λ e,
    eprint ("Error: " +:+ what e +:+ endl);; ret 1).

End Program.
End CtbpR4.

(* ===================================================================== *)
(** * A reference JSON reader and writer *)
(* ===================================================================== *)

(** One concrete [JsonText], used to run the programs on example worlds.
    The writer prints what [dump] prints: members in key order, one per line,
    indented; the reader is a recursive-descent parser that, like
    [operator>>], stops after the first value.  Escapes of the form [\uXXXX]
    and numbers with a fraction or an exponent are kept as text. *)
Module ReferenceJson.

Definition dquote : ascii := ascii_of_nat 34.
Definition newline : ascii := ascii_of_nat 10.

Fixpoint dec_digits (fuel : nat) (n : Z) (acc : list ascii) : list ascii :=
  match fuel with
  | O => acc
  | S fuel' =>
      let acc' := hex_digit (n mod 10) :: acc in
      if n / 10 =? 0 then acc' else dec_digits fuel' (n / 10) acc'
  end.

Definition decimal (n : Z) : list ascii :=
  let digits := dec_digits (S (Z.to_nat (Z.log2 (Z.abs n)))) (Z.abs n) [] in
  if n <? 0 then "-"%char :: digits else digits.

Definition escape_char (c : ascii) : list ascii :=
  if bool_decide (c = dquote) then ["\"%char; dquote]
  else if bool_decide (c = "\"%char) then ["\"%char; "\"%char]
  else if bool_decide (c = newline) then ["\"%char; "n"%char]
  else if bool_decide (c = ascii_of_nat 13) then ["\"%char; "r"%char]
  else if bool_decide (c = ascii_of_nat 9) then ["\"%char; "t"%char]
  else [c].

Definition quote_string (s : string) : list ascii :=
  dquote :: concat (escape_char <$> chars s) ++ [dquote].

Definition key_le (a b : string * list ascii) : Prop := String.le a.1 b.1.

#[local] Instance key_le_dec : RelDecision key_le.
Proof. intros a b. unfold key_le. apply _. Defined.

Definition spaces (n : nat) : list ascii := replicate n " "%char.

Definition join_lines (cur : nat) (items : list (list ascii)) : list ascii :=
  concat (imap (λ i item,
            (if (0 <? i)%nat then [","%char; newline] else [newline])
            ++ spaces cur ++ item) items).

Definition join_flat (items : list (list ascii)) : list ascii :=
  concat (imap (λ i item, (if (0 <? i)%nat then [","%char] else []) ++ item) items).

(** [cur] is the indentation of the members of the value being printed;
    [indent = 0] prints everything on one line. *)
Fixpoint dump_value (indent cur : nat) (j : json) : list ascii :=
  match j with
  | JNull => chars "null"
  | JBool true => chars "true"
  | JBool false => chars "false"
  | JInt n => decimal n
  | JFloat repr => chars repr
  | JStr s => quote_string s
  | JArr l =>
      let items := map (dump_value indent (cur + indent)) l in
      match items with
      | [] => chars "[]"
      | _ =>
          if (indent =? 0)%nat then "["%char :: join_flat items ++ ["]"%char]
          else "["%char :: join_lines cur items
                 ++ [newline] ++ spaces (cur - indent) ++ ["]"%char]
      end
  | JObj m =>
      let rendered := dump_value indent (cur + indent) <$> m in
      let members :=
        (λ kv : string * list ascii,
           quote_string kv.1 ++
           (if (indent =? 0)%nat then [":"%char] else [":"%char; " "%char]) ++ kv.2)
        <$> merge_sort key_le (map_to_list rendered) in
      match members with
      | [] => chars "{}"
      | _ =>
          if (indent =? 0)%nat then "{"%char :: join_flat members ++ ["}"%char]
          else "{"%char :: join_lines cur members
                 ++ [newline] ++ spaces (cur - indent) ++ ["}"%char]
      end
  end.

Definition dump_text (indent : nat) (j : json) : string :=
  str (dump_value indent indent j).

Definition is_ws (c : ascii) : bool :=
  bool_decide (c = " "%char) || bool_decide (c = newline)
  || bool_decide (c = ascii_of_nat 13) || bool_decide (c = ascii_of_nat 9).

Fixpoint skip_ws (s : list ascii) : list ascii :=
  match s with
  | c :: s' => if is_ws c then skip_ws s' else s
  | [] => []
  end.

Definition is_digit (c : ascii) : bool := in_range "0" "9" c.

Fixpoint take_while (f : ascii → bool) (s : list ascii) : list ascii * list ascii :=
  match s with
  | c :: s' => if f c then let (a, b) := take_while f s' in (c :: a, b) else ([], s)
  | [] => ([], [])
  end.

Definition digits_value (ds : list ascii) : Z :=
  foldl (λ acc c, acc * 10 + (Z.of_nat (nat_of_ascii c) - 48)) 0 ds.

(** A number: an optional minus sign and digits make a [JInt]; a fraction
    or an exponent after them make a [JFloat], kept as its text. *)
Definition parse_number (s : list ascii) : option (json * list ascii) :=
  let (sign, s1) := match s with "-"%char :: r => (["-"%char], r) | _ => ([], s) end in
  let (int_part, s2) := take_while is_digit s1 in
  match int_part with
  | [] => None
  | d :: more =>
      if bool_decide (d = "0"%char) && negb (bool_decide (more = [])) then None else
      let (frac, s3) :=
        match s2 with
        | "."%char :: r =>
            let (f, r') := take_while is_digit r in ("."%char :: f, r')
        | _ => ([], s2)
        end in
      let (expo, s4) :=
        match s3 with
        | c :: r =>
            if bool_decide (c = "e"%char) || bool_decide (c = "E"%char) then
              let (sg, r1) :=
                match r with
                | c' :: r0 =>
                    if bool_decide (c' = "+"%char) || bool_decide (c' = "-"%char)
                    then ([c'], r0) else ([], r)
                | [] => ([], r)
                end in
              let (e, r2) := take_while is_digit r1 in (c :: sg ++ e, r2)
            else ([], s3)
        | [] => ([], s3)
        end in
      if bool_decide (frac = ["."%char]) then None
      else if bool_decide (frac = []) && bool_decide (expo = []) then
        let v := digits_value int_part in
        Some (JInt (if bool_decide (sign = []) then v else - v), s4)
      else
        match last expo with
        | Some c =>
            if is_digit c then Some (JFloat (str (sign ++ int_part ++ frac ++ expo)), s4)
            else None
        | None => Some (JFloat (str (sign ++ int_part ++ frac)), s4)
        end
  end.

(** The characters of a string literal after its opening quote. *)
Fixpoint parse_string (fuel : nat) (s acc : list ascii) : option (string * list ascii) :=
  match fuel with
  | O => None
  | S fuel' =>
      match s with
      | [] => None
      | c :: r =>
          if bool_decide (c = dquote) then Some (str acc, r)
          else if bool_decide (c = "\"%char) then
            match r with
            | e :: r' =>
                if bool_decide (e = dquote) then parse_string fuel' r' (acc ++ [dquote])
                else if bool_decide (e = "\"%char) then parse_string fuel' r' (acc ++ ["\"%char])
                else if bool_decide (e = "/"%char) then parse_string fuel' r' (acc ++ ["/"%char])
                else if bool_decide (e = "n"%char) then parse_string fuel' r' (acc ++ [newline])
                else if bool_decide (e = "r"%char) then
                  parse_string fuel' r' (acc ++ [ascii_of_nat 13])
                else if bool_decide (e = "t"%char) then
                  parse_string fuel' r' (acc ++ [ascii_of_nat 9])
                else if bool_decide (e = "b"%char) then
                  parse_string fuel' r' (acc ++ [ascii_of_nat 8])
                else if bool_decide (e = "f"%char) then
                  parse_string fuel' r' (acc ++ [ascii_of_nat 12])
                else if bool_decide (e = "u"%char) then
                  if forallb (λ h, is_lower_hex h || in_range "A" "F" h) (take 4 r')
                     && (length (take 4 r') =? 4)%nat
                  then parse_string fuel' (drop 4 r') (acc ++ ["\"%char; "u"%char] ++ take 4 r')
                  else None
                else None
            | [] => None
            end
          else if (nat_of_ascii c <? 32)%nat then None
          else parse_string fuel' r (acc ++ [c])
      end
  end.

Fixpoint parse_value (fuel : nat) (s : list ascii) : option (json * list ascii) :=
  match fuel with
  | O => None
  | S fuel' =>
      match skip_ws s with
      | [] => None
      | c :: r =>
          if bool_decide (c = dquote) then
            match parse_string (S (length r)) r [] with
            | Some (text, r') => Some (JStr text, r')
            | None => None
            end
          else if bool_decide (c = "["%char) then
            match skip_ws r with
            | c' :: r' =>
                if bool_decide (c' = "]"%char) then Some (JArr [], r')
                else parse_elements fuel' r []
            | [] => None
            end
          else if bool_decide (c = "{"%char) then
            match skip_ws r with
            | c' :: r' =>
                if bool_decide (c' = "}"%char) then Some (JObj ∅, r')
                else parse_members fuel' r ∅
            | [] => None
            end
          else if bool_decide (take 4 (c :: r) = chars "null") then Some (JNull, drop 3 r)
          else if bool_decide (take 4 (c :: r) = chars "true") then Some (JBool true, drop 3 r)
          else if bool_decide (take 5 (c :: r) = chars "false") then Some (JBool false, drop 4 r)
          else parse_number (c :: r)
      end
  end
with parse_elements (fuel : nat) (s : list ascii) (acc : list json)
    : option (json * list ascii) :=
  match fuel with
  | O => None
  | S fuel' =>
      match parse_value fuel' s with
      | Some (v, r) =>
          match skip_ws r with
          | c :: r' =>
              if bool_decide (c = ","%char) then parse_elements fuel' r' (acc ++ [v])
              else if bool_decide (c = "]"%char) then Some (JArr (acc ++ [v]), r')
              else None
          | [] => None
          end
      | None => None
      end
  end
with parse_members (fuel : nat) (s : list ascii) (acc : gmap string json)
    : option (json * list ascii) :=
  match fuel with
  | O => None
  | S fuel' =>
      match skip_ws s with
      | q :: r =>
          if bool_decide (q = dquote) then
            match parse_string (S (length r)) r [] with
            | Some (key, r1) =>
                match skip_ws r1 with
                | colon :: r2 =>
                    if bool_decide (colon = ":"%char) then
                      match parse_value fuel' r2 with
                      | Some (v, r3) =>
                          match skip_ws r3 with
                          | c :: r4 =>
                              if bool_decide (c = ","%char)
                              then parse_members fuel' r4 (<[ key := v ]> acc)
                              else if bool_decide (c = "}"%char)
                              then Some (JObj (<[ key := v ]> acc), r4)
                              else None
                          | [] => None
                          end
                      | None => None
                      end
                    else None
                | [] => None
                end
            | None => None
            end
          else None
      | [] => None
      end
  end.

Definition parse_text (s : string) : option json :=
  fst <$> parse_value (2 * length (chars s) + 2) (chars s).

End ReferenceJson.

Definition reference_json : JsonText :=
  {| parse := ReferenceJson.parse_text; dump := ReferenceJson.dump_text |}.

(* ===================================================================== *)
(** * Vocabulary of the properties *)
(* ===================================================================== *)

(** The value a document holds under a key; a document that is not an
    object holds nothing. *)
Definition member (key : string) (j : json) : option json :=
  match j with
  | JObj m => m !! key
  | _ => None
  end.

(** The value under ["telemetry"], where [ctbpR.cpp] keeps the identifiers. *)
Definition telemetry (j : json) : json := default JNull (member "telemetry" j).

(** Two random engines for the examples: one that yields the same word for
    ever, and one that counts upwards. *)
Definition constant_rng (r : Z) : Rng := mkRng (λ _, r) 0.
Definition counting_rng : Rng := mkRng (λ i, Z.of_nat i * 7 + 3) 0.

(** Example documents: the one of the specification's test scenario, and
    one that also carries a trial flag. *)
Definition example_document : json :=
  JObj (<[ "a" := JInt 1 ]> {[ "telemetry.machineId" := JStr "old" ]}).
Definition trial_document : json :=
  JObj (<[ "a" := JInt 1 ]> {[ "cursor.trialExpired" := JBool true ]}).
Definition nested_document : json :=
  JObj (<[ "a" := JInt 1 ]>
       {[ "telemetry" := JObj (<[ "machineId" := JStr "old" ]>
                               {[ "sqmId" := JStr "keep" ]}) ]}).
Definition example_ids : json :=
  JObj (<[ "machineId" := JStr "0a" ]> (<[ "macMachineId" := JStr "0b" ]>
       {[ "devDeviceId" := JStr "0c" ]})).

(** Example worlds.  [blank_world] has no variables, no files and refuses
    nothing; the others are built from it. *)
Definition blank_world : World :=
  mkWorld ∅ ∅ "20250324_120000" (λ _, false) 0 counting_rng [] [].

Definition with_env (name val : string) (w : World) : World :=
  mkWorld (<[ name := val ]> (env w)) (files w) (timestamp w) (refused w)
          (short_write w) (entropy w) (cout w) (cerr w).

Definition with_file (p content : string) (w : World) : World :=
  set_files <[ p := content ]> w.

Definition refusing (site : io_site) (w : World) : World :=
  mkWorld (env w) (files w) (timestamp w)
          (λ s, match site, s with
                | MkDirs, MkDirs | BackupCopy, BackupCopy | OpenRead, OpenRead
                | OpenWrite, OpenWrite | WriteData, WriteData
                | RestoreCopy, RestoreCopy => true
                | _, _ => refused w s
                end)
          (short_write w) (entropy w) (cout w) (cerr w).

Definition linux_world : World := with_env "HOME" "/home/u" blank_world.
Definition linux_storage : string :=
  "/home/u/.config/Cursor/User/globalStorage/storage.json".

(** A locator that reads the environment and nothing else, and writes
    nothing: in two worlds that agree on [HOME] and [APPDATA] it has the same
    outcome, and unless that outcome is undefined behaviour the world is left
    as it was found. *)
Definition reads_env_only (locator : M string) : Prop :=
  ∀ w1 w2,
    env w1 !! "HOME" = env w2 !! "HOME" →
    env w1 !! "APPDATA" = env w2 !! "APPDATA" →
    (locator w1).1 = (locator w2).1 ∧
    ((locator w1).1 ≠ Undefined → (locator w1).2 = w1).

(** A world in which the storage file holds [content] and a backup taken in
    the same second already exists. *)
Definition linux_backup : string := linux_storage +:+ ".backup_20250324_120000".
Definition backed_up_world (content : string) : World :=
  with_file linux_backup "old backup" (with_file linux_storage content linux_world).

(** The three values a run generates, in the order the programs draw
    them: machine id, secondary machine id, device id. *)
Definition fresh_ids (hex uuid : Rng → string * Rng) (g : Rng)
    : string * string * string * Rng :=
  let (a, g) := hex g in
  let (b, g) := hex g in
  let (c, g) := uuid g in
  (a, b, c, g).

Definition nested_ids (a b c : string) : json :=
  JObj (<[ "devDeviceId" := JStr c ]>
       (<[ "macMachineId" := JStr b ]>
       {[ "machineId" := JStr a ]})).
Definition nested_ids_document (a b c : string) : json :=
  JObj {[ "telemetry" := nested_ids a b c ]}.

(** The world after [text] went through a freshly opened [std::ofstream]
    on [p]: the file was emptied by the open and then received the text. *)
Definition written (p text : string) (w : World) : World :=
  set_files (λ fs, <[ p := default "" (fs !! p) +:+ text ]> fs)
            (set_files <[ p := "" ]> w).

(** The world once [main] of [ctbpR.cpp] has printed its two banner lines. *)
Definition after_banner (w : World) : World :=
  add_cout ("---------------------------" +:+ endl)
    (add_cout ("Cursor Trial Reset Tool v2.0" +:+ endl) w).

(** The two lines [ctbpR.cpp] sends to [std::cerr] for an exception [e],
    one in a handler of [resetCursorId], one in [main]. *)
Definition CtbpR_error_report (e : exn) : list string :=
  [ match e with
    | CursorResetError _ => "❌ Error: " +:+ what e +:+ endl
    | _ => "❌ Unexpected error occurred: " +:+ what e +:+ endl
    end;
    endl +:+ "For more details, check program output" +:+ endl ].

(** The lines [ctbpR-2.cpp] sends to [std::cerr] for an exception [e]. *)
Definition CtbpR2_error_report (e : exn) : list string :=
  [ "Error resetting Cursor IDs: " +:+ what e +:+ endl;
    endl +:+ "❌ Error: " +:+ what e +:+ endl;
    "Please check the script and try again." +:+ endl ].

(** The scenarios of the error-handling properties.  In each of them
    [locator] is the path locator of the variant at hand and [p] the path it
    returns.  A scenario fixes what the world refuses, so that the run meets
    the one obstacle the scenario is about and no other. *)
Section Scenarios.
Context {json_text : JsonText}.




(** The storage file holds the document [data] and has been backed up under
    a free name, but it cannot be opened for writing. *)
Definition unwritable_file (locator : M string) (p backup text : string)
    (data : json) (w : World) : Prop :=
  (locator w).1 = Ret p ∧
  files w !! p = Some text ∧
  parse text = Some data ∧
  files w !! backup = None ∧
  refused w OpenRead = false ∧
  refused w MkDirs = false ∧
  refused w BackupCopy = false ∧
  refused w OpenWrite = true.

End Scenarios.

Definition unwritable_world : World :=
  refusing OpenWrite (with_file linux_storage "{}" linux_world).
Definition full_disk_world : World :=
  refusing WriteData (with_file linux_storage "{}" linux_world).


(* ===================================================================== *)
(** * Vocabulary of the further properties *)
(* ===================================================================== *)

(** [^(0[0-9a-f]){n}$]: [n] pairs, each a zero followed by a hex digit. *)
Definition zero_padded_pairs (n : nat) : list (ascii → bool) :=
  concat (replicate n [is_char "0"; is_lower_hex]).

(** A document the flat mutators accept: [null] or an object. *)
Definition null_or_object (j : json) : bool :=
  match j with
  | JNull | JObj _ => true
  | _ => false
  end.

(** What [ctbpR-2.cpp] reports as the old value of a field: the string the
    object holds under the key, or "Not set" when it holds nothing. *)
Definition reported_value (key : string) (m : gmap string json) : string :=
  match m !! key with
  | Some (JStr s) => s
  | _ => "Not set"
  end.

(** A field that [value()] can read as a string: absent, or a string. *)
Definition absent_or_string (key : string) (m : gmap string json) : bool :=
  match m !! key with
  | None | Some (JStr _) => true
  | Some _ => false
  end.

(** Where the storage file lies below the directory the environment names:
    [APPDATA] on Windows, [HOME] elsewhere. *)
Definition storage_variable (platform : Platform) : string :=
  match platform with Windows => "APPDATA" | _ => "HOME" end.

Definition storage_suffix (platform : Platform) : string :=
  match platform with
  | Windows => "\Cursor\User\globalStorage\storage.json"
  | Darwin => "/Library/Application Support/Cursor/User/globalStorage/storage.json"
  | _ => "/.config/Cursor/User/globalStorage/storage.json"
  end.

(** The same without the leading separator: what is appended to a
    directory name that already ends with one, or to the empty name. *)
Definition storage_suffix_bare (platform : Platform) : string :=
  match storage_suffix platform with
  | String _ rest => rest
  | EmptyString => EmptyString
  end.

(** A directory name that needs a separator after it. *)
Definition needs_separator (platform : Platform) (dir : string) : bool :=
  match last (chars dir) with
  | Some c => negb (is_separator platform c)
  | None => false
  end.

(** What a computation leaves alone.  [preserved allowed w w']: from [w] to
    [w'] the environment, the clock and the behaviour of the system are the
    same, every file outside [allowed] has the content it had, no file has
    gone, and the two output streams have only grown. *)
Definition preserved (allowed : string → Prop) (w w' : World) : Prop :=
  env w' = env w ∧ timestamp w' = timestamp w ∧ refused w' = refused w ∧
  short_write w' = short_write w ∧
  (∀ q, ¬ allowed q → files w' !! q = files w !! q) ∧
  (∀ q, is_Some (files w !! q) → is_Some (files w' !! q)) ∧
  cout w `prefix_of` cout w' ∧ cerr w `prefix_of` cerr w'.

(** A computation that, started in the environment and at the time of
    [w0], only writes to the files in [allowed]. *)
Definition confined {A} (allowed : string → Prop) (w0 : World) (m : M A) : Prop :=
  ∀ w, env w = env w0 → timestamp w = timestamp w0 → preserved allowed w (m w).2.

(** The two files a run may write: the storage file and its backup. *)
Definition storage_or_backup (p stamp : string) (q : string) : Prop :=
  q = p ∨ q = p +:+ ".backup_" +:+ stamp.

(** In [ctbpR-3.cpp] the backup is named from the parent directory. *)
Definition storage_or_backup3 (platform : Platform) (p stamp : string) (q : string) : Prop :=
  q = p ∨
  q = path_append platform (parent_path platform p) ("storage.json.backup_" +:+ stamp).

(** The filesystem error a run meets before it reads the storage file:
    the directories cannot be made or, with those in place, the backup copy
    is refused. *)
Definition early_refusal (w : World) : exn :=
  if refused w MkDirs then filesystem_error "cannot create directories"
  else filesystem_error "cannot copy file".

(** [ctbpR-2.cpp]: an object whose three identifier fields are each absent
    or a string, the object of old values the run prints for it, and the
    lines a successful run sends to [std::cout]. *)
Definition ids_absent_or_strings (m : gmap string json) : bool :=
  absent_or_string "telemetry.machineId" m
  && absent_or_string "telemetry.macMachineId" m
  && absent_or_string "telemetry.devDeviceId" m.

Definition reported_ids (m : gmap string json) : list (string * string) :=
  [ ("machineId", reported_value "telemetry.machineId" m);
    ("macMachineId", reported_value "telemetry.macMachineId" m);
    ("devDeviceId", reported_value "telemetry.devDeviceId" m) ].

Definition CtbpR2_success_report {json_text : JsonText}
    (m : gmap string json) (a b c : string) : list string :=
  [ "Device IDs successfully reset" +:+ endl;
    endl +:+ "🎉 Cursor v0.47.8 trial successfully reset!" +:+ endl +:+ endl;
    "Original device IDs were:" +:+ endl;
    dump 2 (JObj (list_to_map (prod_map id JStr <$> reported_ids m))) +:+ endl;
    endl +:+ "New device IDs are:" +:+ endl;
    dump 2 (CtbpR2.ids_object a b c) +:+ endl;
    endl +:+ "✅ Additional trial parameters have been cleared" +:+ endl;
    "✅ Restart Cursor to apply changes" +:+ endl ].

(** The document [ctbpR-2.cpp] writes for the object [m]. *)
Definition CtbpR2_reset_document (a b c : string) (m : gmap string json) : json :=
  JObj (delete "cursor.trialExpired" (delete "cursor.trialReminderShown"
       (delete "cursor.trialStartDate"
       (<[ "telemetry.devDeviceId" := JStr c ]>
       (<[ "telemetry.macMachineId" := JStr b ]>
       (<[ "telemetry.machineId" := JStr a ]> m)))))).

(** The path the locators return for the directory [dir]. *)
Definition storage_path (platform : Platform) (dir : string) : string :=
  dir +:+ (if needs_separator platform dir then storage_suffix platform
           else storage_suffix_bare platform).

(** Several lines sent to [std::cout], one after the other. *)
Definition add_couts (lines : list string) (w : World) : World :=
  foldl (λ w line, add_cout line w) w lines.

(* ===================================================================== *)
(** * Theorems *)
(* ===================================================================== *)

(* ===================================================================== *)
(** * Properties: formatted output and random draws *)
(* ===================================================================== *)

Lemma length_str (l : list ascii) : String.length (str l) = length l.
Proof. induction l as [|c l IH]; simpl; [done | by rewrite IH]. Qed.

Lemma chars_str (l : list ascii) : chars (str l) = l.
Proof. apply String.list_ascii_of_string_of_list_ascii. Qed.

Lemma hex_digit_lower (d : Z) : 0 ≤ d < 16 → is_lower_hex (hex_digit d) = true.
Proof.
  intros Hd.
  assert (d = 0 ∨ d = 1 ∨ d = 2 ∨ d = 3 ∨ d = 4 ∨ d = 5 ∨ d = 6 ∨ d = 7 ∨
          d = 8 ∨ d = 9 ∨ d = 10 ∨ d = 11 ∨ d = 12 ∨ d = 13 ∨ d = 14 ∨ d = 15)
    as Hcases by lia.
  repeat destruct Hcases as [-> | Hcases]; try reflexivity.
  by subst.
Qed.

Lemma hex_digits_lower (fuel : nat) (n : Z) (acc : list ascii) :
  forallb is_lower_hex acc = true →
  forallb is_lower_hex (hex_digits fuel n acc) = true.
Proof.
  revert n acc. induction fuel as [|fuel IH]; intros n acc Hacc; simpl; [done|].
  assert (forallb is_lower_hex (hex_digit (n mod 16) :: acc) = true) as Hacc'.
  { simpl. rewrite Hacc, hex_digit_lower; [done|]. apply Z.mod_pos_bound. lia. }
  destruct (n / 16 =? 0); [done | by apply IH].
Qed.

Lemma hex_of_int_lower (n : Z) : forallb is_lower_hex (hex_of_int n) = true.
Proof. by apply hex_digits_lower. Qed.

Lemma hex_of_int_nibble (d : Z) : 0 ≤ d < 16 → hex_of_int d = [hex_digit d].
Proof.
  intros Hd. unfold hex_of_int.
  rewrite (Z.mod_small d (2 ^ 32)) by lia. simpl.
  rewrite (Z.mod_small d 16), (Z.div_small d 16) by lia. done.
Qed.

Lemma hex_of_int_byte_length (b : Z) :
  0 ≤ b < 256 → (1 ≤ length (hex_of_int b) ≤ 2)%nat.
Proof.
  intros Hb. unfold hex_of_int.
  rewrite (Z.mod_small b (2 ^ 32)) by lia. simpl.
  destruct (b / 16 =? 0) eqn:Hq; simpl; [lia|].
  assert (b / 16 / 16 = 0) as ->.
  { apply Z.div_small. split; [apply Z.div_pos; lia|].
    apply Z.div_lt_upper_bound; lia. }
  rewrite Z.eqb_refl. simpl. lia.
Qed.

Lemma uniform_int_distribution_range (a b : Z) (gen : Rng) :
  a ≤ b → a ≤ (uniform_int_distribution a b gen).1 ≤ b.
Proof.
  intros Hab. unfold uniform_int_distribution, next_raw. simpl.
  pose proof (Z.mod_pos_bound (raw gen (pos gen)) (b - a + 1)). lia.
Qed.

Lemma rand_byte_range (gen : Rng) : 0 ≤ (rand gen).1 mod 256 < 256.
Proof. apply Z.mod_pos_bound. lia. Qed.

(** The loop only ever appends to the stream. *)
Lemma insert_draws_app (body : Rng → list ascii * Rng) (n : nat) (ss : buffer) (gen : Rng) :
  insert_draws body n ss gen =
  (ss ++ (insert_draws body n [] gen).1, (insert_draws body n [] gen).2).
Proof.
  revert ss gen. induction n as [|n IH]; intros ss gen; simpl.
  - by rewrite app_nil_r.
  - destruct (body gen) as [field gen'].
    rewrite (IH (ss ++ field)), (IH field). simpl. by rewrite app_assoc.
Qed.

(** [n] fields of [k] characters each make [n * k] characters. *)
Lemma insert_draws_length (body : Rng → list ascii * Rng) (k n : nat) (gen : Rng) :
  (∀ g, length (body g).1 = k) →
  length (insert_draws body n [] gen).1 = (n * k)%nat.
Proof.
  intros Hk. revert gen. induction n as [|n IH]; intros gen; simpl; [done|].
  specialize (Hk gen). destruct (body gen) as [field gen'].
  rewrite insert_draws_app. simpl in *. rewrite length_app, IH. lia.
Qed.

Lemma insert_draws_length_bounds (body : Rng → list ascii * Rng) (lo hi n : nat) (gen : Rng) :
  (∀ g, (lo ≤ length (body g).1 ≤ hi)%nat) →
  (n * lo ≤ length (insert_draws body n [] gen).1 ≤ n * hi)%nat.
Proof.
  intros Hk. revert gen. induction n as [|n IH]; intros gen; simpl; [lia|].
  specialize (Hk gen). destruct (body gen) as [field gen'].
  rewrite insert_draws_app. simpl in *. rewrite length_app.
  specialize (IH gen'). lia.
Qed.

Lemma insert_draws_forallb (P : ascii → bool) (body : Rng → list ascii * Rng)
    (n : nat) (gen : Rng) :
  (∀ g, forallb P (body g).1 = true) →
  forallb P (insert_draws body n [] gen).1 = true.
Proof.
  intros HP. revert gen. induction n as [|n IH]; intros gen; simpl; [done|].
  specialize (HP gen). destruct (body gen) as [field gen'].
  rewrite insert_draws_app. simpl in *. by rewrite forallb_app, HP, IH.
Qed.

Lemma hex_nibble_single (gen : Rng) :
  ∃ c, (hex_nibble gen).1 = [c] ∧ is_lower_hex c = true.
Proof.
  unfold hex_nibble.
  pose proof (uniform_int_distribution_range 0 15 gen ltac:(lia)) as Hr.
  destruct (uniform_int_distribution 0 15 gen) as [d gen']. simpl in *.
  exists (hex_digit d). rewrite hex_of_int_nibble by lia.
  split; [done | apply hex_digit_lower; lia].
Qed.

Lemma hex_nibble_length (gen : Rng) : length (hex_nibble gen).1 = 1%nat.
Proof. destruct (hex_nibble_single gen) as (c & -> & _). done. Qed.

Lemma hex_nibble_lower (gen : Rng) : forallb is_lower_hex (hex_nibble gen).1 = true.
Proof. destruct (hex_nibble_single gen) as (c & -> & Hc). simpl. by rewrite Hc. Qed.

Lemma padded_nibble (gen : Rng) :
  let field := pad_left 2 "0" (hex_of_int (uniform_int_distribution 0 15 gen).1) in
  length field = 2%nat ∧ forallb is_lower_hex field = true.
Proof.
  pose proof (uniform_int_distribution_range 0 15 gen ltac:(lia)) as Hr.
  cbv zeta. generalize dependent (uniform_int_distribution 0 15 gen).1.
  intros d Hd. rewrite hex_of_int_nibble by lia. unfold pad_left.
  split; [done|]. cbn. rewrite hex_digit_lower by lia. done.
Qed.

(** Matching a concatenation piece by piece. *)
Lemma matches_app (p1 p2 : list (ascii → bool)) (s1 s2 : list ascii) :
  matches p1 s1 = true → matches p2 s2 = true → matches (p1 ++ p2) (s1 ++ s2) = true.
Proof.
  revert s1. induction p1 as [|p p1 IH]; intros [|c s1]; simpl; try done.
  intros [Hp Hrest]%andb_prop H2. rewrite Hp. simpl. by apply IH.
Qed.

Lemma matches_weaken (p q : list (ascii → bool)) (s : list ascii) :
  Forall2 (λ f g, ∀ c, f c = true → g c = true) p q →
  matches p s = true → matches q s = true.
Proof.
  intros Hpq. revert s. induction Hpq as [|f g p q Hfg _ IH]; intros [|c s]; simpl; try done.
  intros [Hf Hrest]%andb_prop. rewrite (Hfg _ Hf). simpl. by apply IH.
Qed.

Lemma insert_draws_matches (n : nat) (gen : Rng) :
  matches (replicate n is_lower_hex) (insert_draws hex_nibble n [] gen).1 = true.
Proof.
  revert gen. induction n as [|n IH]; intros gen; [done|].
  cbn [insert_draws replicate].
  destruct (hex_nibble_single gen) as (c & Hc & Hlow).
  destruct (hex_nibble gen) as [field gen']. cbn [fst] in Hc. subst field.
  rewrite insert_draws_app. cbn [fst app matches]. by rewrite Hlow, IH.
Qed.

Lemma variant_nibble_matches (gen : Rng) :
  matches [is_variant] (hex_of_int (uniform_int_distribution 8 11 gen).1) = true.
Proof.
  pose proof (uniform_int_distribution_range 8 11 gen ltac:(lia)) as Hr.
  rewrite hex_of_int_nibble by lia.
  assert ((uniform_int_distribution 8 11 gen).1 = 8 ∨ (uniform_int_distribution 8 11 gen).1 = 9 ∨
          (uniform_int_distribution 8 11 gen).1 = 10 ∨ (uniform_int_distribution 8 11 gen).1 = 11)
    as [-> | [-> | [-> | ->]]] by lia; reflexivity.
Qed.

(* ===================================================================== *)
(** * Properties: the random hex generators *)
(* ===================================================================== *)

Lemma CtbpR3_generateRandomHex_spec (L : nat) (gen : Rng) :
  String.length (CtbpR3.generateRandomHex L gen).1 = L ∧
  forallb is_lower_hex (chars (CtbpR3.generateRandomHex L gen).1) = true.
Proof.
  unfold CtbpR3.generateRandomHex.
  pose proof (insert_draws_length hex_nibble 1 L gen hex_nibble_length) as Hlen.
  pose proof (insert_draws_forallb is_lower_hex hex_nibble L gen hex_nibble_lower) as Hhex.
  destruct (insert_draws hex_nibble L [] gen) as [ss gen']. cbn [fst] in *.
  rewrite length_str, chars_str. split; [lia | done].
Qed.

Lemma CtbpR4_generate_random_hex_spec (L : nat) (gen : Rng) :
  String.length (CtbpR4.generate_random_hex L gen).1 = L ∧
  forallb is_lower_hex (chars (CtbpR4.generate_random_hex L gen).1) = true.
Proof.
  change (CtbpR4.generate_random_hex L gen) with (CtbpR3.generateRandomHex L gen).
  apply CtbpR3_generateRandomHex_spec.
Qed.

(** [ctbpR.cpp] writes every draw in a field of width two. *)
Lemma CtbpR_generateRandomHex_spec (L : nat) (gen : Rng) :
  String.length (CtbpR.generateRandomHex L gen).1 = (2 * L)%nat ∧
  forallb is_lower_hex (chars (CtbpR.generateRandomHex L gen).1) = true.
Proof.
  unfold CtbpR.generateRandomHex.
  set (body := λ g : Rng,
         let (d, g') := uniform_int_distribution 0 15 g in
         (pad_left 2 "0" (hex_of_int d), g')).
  assert (∀ g, length (body g).1 = 2%nat ∧ forallb is_lower_hex (body g).1 = true)
    as Hbody.
  { intros g. subst body. cbv beta. pose proof (padded_nibble g) as Hp.
    destruct (uniform_int_distribution 0 15 g) as [d g']. exact Hp. }
  pose proof (insert_draws_length body 2 L gen (λ g, proj1 (Hbody g))) as Hlen.
  pose proof (insert_draws_forallb is_lower_hex body L gen (λ g, proj2 (Hbody g))) as Hhex.
  destruct (insert_draws body L [] gen) as [ss gen']. cbn [fst] in *.
  rewrite length_str, chars_str. split; [lia | done].
Qed.

(** [ctbpR-2.cpp] writes a byte without padding, so one or two characters
    per draw. *)
Lemma CtbpR2_generate_random_hex_spec (L : nat) (gen : Rng) :
  (L ≤ String.length (CtbpR2.generate_random_hex L gen).1 ≤ 2 * L)%nat ∧
  forallb is_lower_hex (chars (CtbpR2.generate_random_hex L gen).1) = true.
Proof.
  unfold CtbpR2.generate_random_hex.
  set (body := λ g : Rng, let (r, g') := rand g in (hex_of_int (r mod 256), g')).
  assert (∀ g, (1 ≤ length (body g).1 ≤ 2)%nat ∧ forallb is_lower_hex (body g).1 = true)
    as Hbody.
  { intros g. subst body. cbv beta. pose proof (rand_byte_range g) as Hr.
    destruct (rand g) as [r g']. cbn [fst] in *.
    split; [by apply hex_of_int_byte_length | apply hex_of_int_lower]. }
  pose proof (insert_draws_length_bounds body 1 2 L gen (λ g, proj1 (Hbody g))) as Hlen.
  pose proof (insert_draws_forallb is_lower_hex body L gen (λ g, proj2 (Hbody g))) as Hhex.
  destruct (insert_draws body L [] gen) as [ss gen']. cbn [fst] in *.
  rewrite length_str, chars_str. split; [lia | done].
Qed.

Example CtbpR2_generate_random_hex_short :
  (CtbpR2.generate_random_hex 2 (constant_rng 5)).1 = "55".
Proof. vm_compute. reflexivity. Qed.

Example CtbpR2_generate_random_hex_long :
  (CtbpR2.generate_random_hex 2 (constant_rng 255)).1 = "ffff".
Proof. vm_compute. reflexivity. Qed.

Example CtbpR_generateRandomHex_run :
  (CtbpR.generateRandomHex 4 counting_rng).1 = "030a0108".
Proof. vm_compute. reflexivity. Qed.

(** C1, as stated, fails on [ctbpR.cpp]: asked for one character, the
    generator returns the two characters ["05"]. *)
Lemma C1_random_hex_length_counterexample :
  (CtbpR.generateRandomHex 1 (constant_rng 5)).1 = "05" ∧
  ¬ (String.length (CtbpR.generateRandomHex 1 (constant_rng 5)).1 = 1%nat ∧
     forallb is_lower_hex (chars (CtbpR.generateRandomHex 1 (constant_rng 5)).1) = true).
Proof. split; [vm_compute; reflexivity|]. vm_compute. intros [Hlen _]. discriminate. Qed.

(** C1 (amended).  For every length [L] and every random source, the string
    returned by the random hex generator consists of characters [0-9a-f]
    only, in all four variants; its length is exactly [L] in [ctbpR-3.cpp]
    and [ctbpR-4.cpp], and exactly [2 * L] in [ctbpR.cpp], which writes each
    of its [L] draws as a zero-padded field of two characters. *)
Theorem C1_random_hex_length_and_alphabet (L : nat) (gen : Rng) :
  (String.length (CtbpR3.generateRandomHex L gen).1 = L ∧
   forallb is_lower_hex (chars (CtbpR3.generateRandomHex L gen).1) = true) ∧
  (String.length (CtbpR4.generate_random_hex L gen).1 = L ∧
   forallb is_lower_hex (chars (CtbpR4.generate_random_hex L gen).1) = true) ∧
  (String.length (CtbpR.generateRandomHex L gen).1 = (2 * L)%nat ∧
   forallb is_lower_hex (chars (CtbpR.generateRandomHex L gen).1) = true) ∧
  forallb is_lower_hex (chars (CtbpR2.generate_random_hex L gen).1) = true.
Proof.
  split; [apply CtbpR3_generateRandomHex_spec|].
  split; [apply CtbpR4_generate_random_hex_spec|].
  split; [apply CtbpR_generateRandomHex_spec|].
  apply CtbpR2_generate_random_hex_spec.
Qed.

(* ===================================================================== *)
(** * Properties: the UUID generators *)
(* ===================================================================== *)

Lemma matches_dash : matches [is_char "-"] (chars "-") = true.
Proof. reflexivity. Qed.

Lemma matches_dash_four : matches [is_char "-"; is_char "4"] (chars "-4") = true.
Proof. reflexivity. Qed.

(** The version-4 layout written by [ctbpR.cpp] and [ctbpR-4.cpp]. *)
Lemma CtbpR_generateUUID_v4 (gen : Rng) :
  matches uuid_v4_pattern (chars (CtbpR.generateUUID gen).1) = true.
Proof.
  unfold CtbpR.generateUUID.
  rewrite (insert_draws_app hex_nibble 8 [] gen).
  pose proof (insert_draws_matches 8 gen) as H1.
  destruct (insert_draws hex_nibble 8 [] gen) as [s1 g1]. cbn [fst snd] in *.
  rewrite (insert_draws_app hex_nibble 4 _ g1).
  pose proof (insert_draws_matches 4 g1) as H2.
  destruct (insert_draws hex_nibble 4 [] g1) as [s2 g2]. cbn [fst snd] in *.
  rewrite (insert_draws_app hex_nibble 3 _ g2).
  pose proof (insert_draws_matches 3 g2) as H3.
  destruct (insert_draws hex_nibble 3 [] g2) as [s3 g3]. cbn [fst snd] in *.
  pose proof (variant_nibble_matches g3) as Hv.
  destruct (uniform_int_distribution 8 11 g3) as [v g4]. cbn [fst snd] in *.
  rewrite (insert_draws_app hex_nibble 3 _ g4).
  pose proof (insert_draws_matches 3 g4) as H4.
  destruct (insert_draws hex_nibble 3 [] g4) as [s4 g5]. cbn [fst snd] in *.
  rewrite (insert_draws_app hex_nibble 12 _ g5).
  pose proof (insert_draws_matches 12 g5) as H5.
  destruct (insert_draws hex_nibble 12 [] g5) as [s5 g6]. cbn [fst snd] in *.
  rewrite chars_str. unfold uuid_v4_pattern.
  rewrite app_nil_l, <- !app_assoc.
  apply matches_app; [done|]. apply matches_app; [apply matches_dash|].
  apply matches_app; [done|].
  change (chars "-4") with (chars "-" ++ chars "4"). rewrite <- app_assoc.
  apply matches_app; [apply matches_dash|].
  apply matches_app; [reflexivity|].
  apply matches_app; [done|]. apply matches_app; [apply matches_dash|].
  apply matches_app; [done|].
  apply matches_app; [done|]. apply matches_app; [apply matches_dash|].
  done.
Qed.

(** The two functions have the same text. *)
Lemma CtbpR4_generate_uuid_unfold (gen : Rng) :
  CtbpR4.generate_uuid gen = CtbpR.generateUUID gen.
Proof. unfold CtbpR4.generate_uuid, CtbpR.generateUUID. reflexivity. Qed.

Lemma CtbpR4_generate_uuid_v4 (gen : Rng) :
  matches uuid_v4_pattern (chars (CtbpR4.generate_uuid gen).1) = true.
Proof. rewrite CtbpR4_generate_uuid_unfold. apply CtbpR_generateUUID_v4. Qed.

(** [ctbpR-3.cpp] draws every digit of every group. *)
Lemma CtbpR3_generateUUID_canonical (gen : Rng) :
  matches canonical_uuid_pattern (chars (CtbpR3.generateUUID gen).1) = true.
Proof.
  unfold CtbpR3.generateUUID, CtbpR3.uuidFormat.
  cbn [CtbpR3.uuid_groups Nat.ltb Nat.leb].
  rewrite (insert_draws_app hex_nibble 8 [] gen).
  pose proof (insert_draws_matches 8 gen) as H1.
  destruct (insert_draws hex_nibble 8 [] gen) as [s1 g1]. cbn [fst snd] in *.
  rewrite (insert_draws_app hex_nibble 4 _ g1).
  pose proof (insert_draws_matches 4 g1) as H2.
  destruct (insert_draws hex_nibble 4 [] g1) as [s2 g2]. cbn [fst snd] in *.
  rewrite (insert_draws_app hex_nibble 4 _ g2).
  pose proof (insert_draws_matches 4 g2) as H3.
  destruct (insert_draws hex_nibble 4 [] g2) as [s3 g3]. cbn [fst snd] in *.
  rewrite (insert_draws_app hex_nibble 4 _ g3).
  pose proof (insert_draws_matches 4 g3) as H4.
  destruct (insert_draws hex_nibble 4 [] g3) as [s4 g4]. cbn [fst snd] in *.
  rewrite (insert_draws_app hex_nibble 12 _ g4).
  pose proof (insert_draws_matches 12 g4) as H5.
  destruct (insert_draws hex_nibble 12 [] g4) as [s5 g5]. cbn [fst snd] in *.
  rewrite chars_str. unfold canonical_uuid_pattern.
  rewrite app_nil_l, <- !app_assoc.
  repeat (apply matches_app; [done || apply matches_dash|]).
  done.
Qed.

Lemma variant_is_lower_hex (c : ascii) : is_variant c = true → is_lower_hex c = true.
Proof.
  unfold is_variant, is_lower_hex, in_range.
  generalize (nat_of_ascii c). intros n.
  change (nat_of_ascii "8") with 56%nat. change (nat_of_ascii "9") with 57%nat.
  change (nat_of_ascii "0") with 48%nat. change (nat_of_ascii "a") with 97%nat.
  change (nat_of_ascii "b") with 98%nat. change (nat_of_ascii "f") with 102%nat.
  rewrite !orb_true_iff, !andb_true_iff, !Nat.leb_le. lia.
Qed.

Lemma four_is_lower_hex (c : ascii) : is_char "4" c = true → is_lower_hex c = true.
Proof. unfold is_char. intros Hc%bool_decide_eq_true. by subst. Qed.

(** Every version-4 string has the canonical layout. *)
Lemma uuid_v4_is_canonical (s : list ascii) :
  matches uuid_v4_pattern s = true → matches canonical_uuid_pattern s = true.
Proof.
  apply matches_weaken. unfold uuid_v4_pattern, canonical_uuid_pattern.
  cbn [replicate app].
  repeat (constructor;
          [ first [ exact four_is_lower_hex | exact variant_is_lower_hex
                  | intros c Hc; exact Hc ] | ]).
  constructor.
Qed.

(** C2, as stated, fails on [ctbpR-3.cpp]: with a source of zeros the
    generator returns the all-zero string, whose third group does not start
    with [4] and whose fourth group does not start with one of [89ab]. *)
Lemma C2_uuid_v4_counterexample :
  (CtbpR3.generateUUID (constant_rng 0)).1 = "00000000-0000-0000-0000-000000000000" ∧
  matches uuid_v4_pattern (chars (CtbpR3.generateUUID (constant_rng 0)).1) = false.
Proof. split; vm_compute; reflexivity. Qed.

(** C2 (amended).  Every string returned by the UUID generator is a
    canonical 8-4-4-4-12 hyphenated lowercase hex string.  In [ctbpR.cpp] and
    [ctbpR-4.cpp] the first digit of the third group is the character [4] and
    the first digit of the fourth group is one of [8], [9], [a], [b]; in
    [ctbpR-3.cpp] all thirty-two digits are drawn from [0-9a-f]. *)
Theorem C2_uuid_format (gen : Rng) :
  (matches uuid_v4_pattern (chars (CtbpR.generateUUID gen).1) = true ∧
   matches canonical_uuid_pattern (chars (CtbpR.generateUUID gen).1) = true) ∧
  (matches uuid_v4_pattern (chars (CtbpR4.generate_uuid gen).1) = true ∧
   matches canonical_uuid_pattern (chars (CtbpR4.generate_uuid gen).1) = true) ∧
  matches canonical_uuid_pattern (chars (CtbpR3.generateUUID gen).1) = true.
Proof.
  pose proof (CtbpR_generateUUID_v4 gen) as H1.
  pose proof (CtbpR4_generate_uuid_v4 gen) as H4.
  split; [split; [exact H1 | exact (uuid_v4_is_canonical _ H1)]|].
  split; [split; [exact H4 | exact (uuid_v4_is_canonical _ H4)]|].
  exact (CtbpR3_generateUUID_canonical gen).
Qed.

(* ===================================================================== *)
(** * Properties: the config mutators *)
(* ===================================================================== *)

Lemma subscript_assign_object (key : string) (v : json) (m : gmap string json) :
  subscript_assign key v (JObj m) = Ret (JObj (<[ key := v ]> m)).
Proof. reflexivity. Qed.

Lemma subscript_assign_null (key : string) (v : json) :
  subscript_assign key v JNull = Ret (JObj {[ key := v ]}).
Proof. reflexivity. Qed.

(** An assignment through [operator[]] succeeds on [null] and on objects
    only, and leaves every other key alone. *)
Lemma subscript_assign_frame (key : string) (v data data' : json) :
  subscript_assign key v data = Ret data' →
  member key data' = Some v ∧ ∀ k, k ≠ key → member k data' = member k data.
Proof.
  destruct data; try discriminate; intros [= <-]; simpl.
  - split; [apply lookup_singleton_eq|]. intros k Hk. by apply lookup_singleton_ne.
  - split; [apply lookup_insert_eq|]. intros k Hk. by apply lookup_insert_ne.
Qed.

Lemma erase_frame (key : string) (data data' : json) :
  erase key data = Ret data' →
  member key data' = None ∧ ∀ k, k ≠ key → member k data' = member k data.
Proof.
  destruct data; try discriminate; intros [= <-]; simpl.
  split; [apply lookup_delete_eq|]. intros k Hk. by apply lookup_delete_ne.
Qed.

Lemma and_then_ret {A B} (r : outcome A) (k : A → outcome B) (b : B) :
  and_then r k = Ret b → ∃ a, r = Ret a ∧ k a = Ret b.
Proof. destruct r; try discriminate. eauto. Qed.

Lemma not_in_flat_id_keys (k : string) :
  k ∉ flat_id_keys →
  k ≠ "telemetry.machineId" ∧ k ≠ "telemetry.macMachineId" ∧ k ≠ "telemetry.devDeviceId".
Proof. unfold flat_id_keys. rewrite !not_elem_of_cons. tauto. Qed.

Lemma not_in_trial_keys (k : string) :
  k ∉ trial_keys →
  k ≠ "cursor.trialStartDate" ∧ k ≠ "cursor.trialReminderShown" ∧ k ≠ "cursor.trialExpired".
Proof. unfold trial_keys. rewrite !not_elem_of_cons. tauto. Qed.

Lemma not_in_nested_id_keys (k : string) :
  k ∉ nested_id_keys →
  k ≠ "machineId" ∧ k ≠ "macMachineId" ∧ k ≠ "devDeviceId".
Proof. unfold nested_id_keys. rewrite !not_elem_of_cons. tauto. Qed.

(** [ctbpR-3.cpp] and [ctbpR-4.cpp]: three assignments. *)
Lemma CtbpR3_update_ids_frame (a b c : string) (data data' : json) :
  CtbpR3.update_ids a b c data = Ret data' →
  ∀ k, k ∉ flat_id_keys → member k data' = member k data.
Proof.
  unfold CtbpR3.update_ids.
  intros (d1 & H1 & (d2 & H2 & H3)%and_then_ret)%and_then_ret k (K1 & K2 & K3)%not_in_flat_id_keys.
  apply subscript_assign_frame in H1 as [_ H1], H2 as [_ H2], H3 as [_ H3].
  rewrite H3, H2, H1; done.
Qed.

Lemma CtbpR3_update_ids_object (a b c : string) (m : gmap string json) :
  CtbpR3.update_ids a b c (JObj m) =
  Ret (JObj (<[ "telemetry.devDeviceId" := JStr c ]>
            (<[ "telemetry.macMachineId" := JStr b ]>
            (<[ "telemetry.machineId" := JStr a ]> m)))).
Proof. reflexivity. Qed.

Lemma CtbpR3_update_ids_null (a b c : string) :
  CtbpR3.update_ids a b c JNull =
  Ret (JObj (<[ "telemetry.devDeviceId" := JStr c ]>
            (<[ "telemetry.macMachineId" := JStr b ]>
            {[ "telemetry.machineId" := JStr a ]}))).
Proof. reflexivity. Qed.

Lemma CtbpR4_update_ids_eq (a b c : string) (data : json) :
  CtbpR4.update_ids a b c data = CtbpR3.update_ids a b c data.
Proof. reflexivity. Qed.

(** [ctbpR-2.cpp]: three assignments, then three erasures. *)
Lemma CtbpR2_update_ids_frame (a b c : string) (data data' : json) :
  CtbpR2.update_ids a b c data = Ret data' →
  (∀ k, k ∉ flat_id_keys → k ∉ trial_keys → member k data' = member k data) ∧
  (∀ k, k ∈ trial_keys → member k data' = None).
Proof.
  unfold CtbpR2.update_ids.
  intros (d1 & H1 & (d2 & H2 & (d3 & H3 & (d4 & H4 & (d5 & H5 & H6)
    %and_then_ret)%and_then_ret)%and_then_ret)%and_then_ret)%and_then_ret.
  apply subscript_assign_frame in H1 as [_ H1], H2 as [_ H2], H3 as [_ H3].
  apply erase_frame in H4 as [E4 H4], H5 as [E5 H5], H6 as [E6 H6].
  split.
  - intros k (K1 & K2 & K3)%not_in_flat_id_keys (T1 & T2 & T3)%not_in_trial_keys.
    rewrite H6, H5, H4, H3, H2, H1; done.
  - intros k Hk. unfold trial_keys in Hk.
    rewrite !elem_of_cons, elem_of_nil in Hk.
    destruct Hk as [-> | [-> | [-> | []]]].
    + rewrite H6, H5 by done. exact E4.
    + rewrite H6 by done. exact E5.
    + exact E6.
Qed.

Lemma CtbpR2_update_ids_object (a b c : string) (m : gmap string json) :
  CtbpR2.update_ids a b c (JObj m) =
  Ret (JObj (delete "cursor.trialExpired" (delete "cursor.trialReminderShown"
            (delete "cursor.trialStartDate"
            (<[ "telemetry.devDeviceId" := JStr c ]>
            (<[ "telemetry.macMachineId" := JStr b ]>
            (<[ "telemetry.machineId" := JStr a ]> m))))))).
Proof. reflexivity. Qed.

(** [ctbpR.cpp]: what a nested assignment does to the ["telemetry"] value. *)
Lemma nested_assign_frame (key : string) (v data data' : json) :
  subscript_modify "telemetry" (subscript_assign key v) data = Ret data' →
  (∀ k, k ≠ "telemetry" → member k data' = member k data) ∧
  member "telemetry" data' = Some (telemetry data') ∧
  (∀ k, k ≠ key → member k (telemetry data') = member k (telemetry data)).
Proof.
  unfold subscript_modify, telemetry.
  destruct data as [| | | | | |m]; try discriminate.
  - cbn [subscript_assign subscript_modify]. intros [= <-]. cbn [member].
    split; [intros k Hk; by apply lookup_singleton_ne|].
    rewrite lookup_singleton_eq. cbn [from_option id]. split; [done|].
    intros k Hk. cbn [member]. by rewrite lookup_singleton_ne.
  - destruct (subscript_assign key v (default JNull (m !! "telemetry"))) as [t'| |] eqn:Ht;
      try discriminate.
    intros [= <-]. cbn [member].
    split; [intros k Hk; by apply lookup_insert_ne|].
    rewrite lookup_insert_eq. cbn [from_option id]. split; [done|].
    intros k Hk. by apply (subscript_assign_frame _ _ _ _ Ht).
Qed.

Lemma CtbpR_update_ids_frame (new_ids data data' : json) :
  CtbpR.update_ids new_ids data = Ret data' →
  (∀ k, k ≠ "telemetry" → member k data' = member k data) ∧
  (∀ k, k ∉ nested_id_keys → member k (telemetry data') = member k (telemetry data)).
Proof.
  unfold CtbpR.update_ids.
  intros (d0 & H0 & (v1 & _ & (d1 & H1 & (v2 & _ & (d2 & H2 & (v3 & _ & H3)
    %and_then_ret)%and_then_ret)%and_then_ret)%and_then_ret)%and_then_ret)%and_then_ret.
  apply nested_assign_frame in H1 as (T1 & _ & N1), H2 as (T2 & _ & N2), H3 as (T3 & _ & N3).
  assert ((∀ k, k ≠ "telemetry" → member k d0 = member k data) ∧
          (∀ k, member k (telemetry d0) = member k (telemetry data))) as [T0 N0].
  { destruct (contains "telemetry" data) eqn:Hc; cbn [negb] in H0.
    - injection H0 as <-. done.
    - apply subscript_assign_frame in H0 as [Ht H0]. split; [done|].
      intros k. unfold telemetry at 1. rewrite Ht. cbn [from_option id json_object member].
      rewrite lookup_empty. unfold telemetry.
      destruct data as [| | | | | |m]; try done. cbn [contains member] in *.
      apply bool_decide_eq_false in Hc.
      destruct (m !! "telemetry") eqn:Hm; [exfalso; eauto | done]. }
  split.
  - intros k Hk. rewrite T3, T2, T1, T0; done.
  - intros k (K1 & K2 & K3)%not_in_nested_id_keys.
    rewrite N3, N2, N1, N0; done.
Qed.

(** On a document that is an object whose ["telemetry"] value is missing,
    [null] or an object, the update of [ctbpR.cpp] goes through. *)
Lemma CtbpR_update_ids_total (n m : gmap string json) :
  (m !! "telemetry" = None ∨ m !! "telemetry" = Some JNull
   ∨ ∃ t, m !! "telemetry" = Some (JObj t)) →
  ∃ data', CtbpR.update_ids (JObj n) (JObj m) = Ret data'.
Proof.
  intros Ht. unfold CtbpR.update_ids. cbn [contains].
  destruct Ht as [Ht | [Ht | [t Ht]]].
  - rewrite bool_decide_eq_false_2 by (rewrite Ht; by intros [? ?]).
    cbn. repeat (rewrite lookup_insert_eq; cbn). eauto.
  - rewrite bool_decide_eq_true_2 by (rewrite Ht; eauto).
    cbn. rewrite Ht. cbn. repeat (rewrite lookup_insert_eq; cbn). eauto.
  - rewrite bool_decide_eq_true_2 by (rewrite Ht; eauto).
    cbn. rewrite Ht. cbn. repeat (rewrite lookup_insert_eq; cbn). eauto.
Qed.

Example CtbpR3_update_ids_run :
  ∃ data', CtbpR3.update_ids "0a" "0b" "0c" example_document = Ret data' ∧
           member "a" data' = Some (JInt 1) ∧
           member "telemetry.machineId" data' = Some (JStr "0a").
Proof. eexists. split; [reflexivity|]. split; vm_compute; reflexivity. Qed.

Example CtbpR_update_ids_run :
  ∃ data', CtbpR.update_ids example_ids nested_document = Ret data' ∧
           member "a" data' = Some (JInt 1) ∧
           member "sqmId" (telemetry data') = Some (JStr "keep") ∧
           member "machineId" (telemetry data') = Some (JStr "0a").
Proof. eexists. split; [vm_compute; reflexivity|]. repeat split; vm_compute; reflexivity. Qed.

(** A document that is not an object makes the update throw. *)
Example CtbpR3_update_ids_array :
  CtbpR3.update_ids "0a" "0b" "0c" (JArr [JInt 1]) = Throw (json_type_error 305).
Proof. reflexivity. Qed.

Example CtbpR_update_ids_bad_telemetry :
  CtbpR.update_ids example_ids (JObj {[ "telemetry" := JInt 5 ]})
  = Throw (json_type_error 305).
Proof. vm_compute. reflexivity. Qed.

(** C3, as stated, fails on [ctbpR-2.cpp]: the key [cursor.trialExpired]
    is not an identifier field, it is present in the input document, and it
    is absent from the output document. *)
Lemma C3_other_keys_counterexample :
  ("cursor.trialExpired" ∉ flat_id_keys) ∧
  member "cursor.trialExpired" trial_document = Some (JBool true) ∧
  ∃ data', CtbpR2.update_ids "0a" "0b" "0c" trial_document = Ret data' ∧
           member "cursor.trialExpired" data' = None.
Proof.
  split; [unfold flat_id_keys; rewrite !not_elem_of_cons, elem_of_nil; naive_solver|].
  split; [vm_compute; reflexivity|].
  eexists. split; [reflexivity|]. vm_compute. reflexivity.
Qed.

(** C3 (amended).  For every input document and every set of new values,
    whenever the config mutator yields an output document, every key other
    than the designated identifier fields has in the output the value it has
    in the input (none, if it has none), with one exception: [ctbpR-2.cpp]
    also removes the three keys [cursor.trialStartDate],
    [cursor.trialReminderShown] and [cursor.trialExpired].  In [ctbpR.cpp]
    the identifier fields live under the ["telemetry"] object: all other
    top-level keys and all other keys of that object are unchanged.  The
    mutators of [ctbpR-2.cpp], [ctbpR-3.cpp] and [ctbpR-4.cpp] yield an
    output document for every input document that is an object. *)
Theorem C3_other_keys_preserved (a b c : string) (new_ids data : json) :
  (∀ data', CtbpR3.update_ids a b c data = Ret data' →
     ∀ k, k ∉ flat_id_keys → member k data' = member k data) ∧
  (∀ data', CtbpR4.update_ids a b c data = Ret data' →
     ∀ k, k ∉ flat_id_keys → member k data' = member k data) ∧
  (∀ data', CtbpR2.update_ids a b c data = Ret data' →
     (∀ k, k ∉ flat_id_keys → k ∉ trial_keys → member k data' = member k data) ∧
     (∀ k, k ∈ trial_keys → member k data' = None)) ∧
  (∀ data', CtbpR.update_ids new_ids data = Ret data' →
     (∀ k, k ≠ "telemetry" → member k data' = member k data) ∧
     (∀ k, k ∉ nested_id_keys →
        member k (telemetry data') = member k (telemetry data))) ∧
  (∀ m, data = JObj m →
     ∃ d2 d3 d4, CtbpR2.update_ids a b c data = Ret d2 ∧
                 CtbpR3.update_ids a b c data = Ret d3 ∧
                 CtbpR4.update_ids a b c data = Ret d4).
Proof.
  split; [intros data'; apply CtbpR3_update_ids_frame|].
  split; [intros data'; rewrite CtbpR4_update_ids_eq; apply CtbpR3_update_ids_frame|].
  split; [intros data'; apply CtbpR2_update_ids_frame|].
  split; [intros data'; apply CtbpR_update_ids_frame|].
  intros m ->. do 3 eexists.
  split; [apply CtbpR2_update_ids_object|].
  split; [apply CtbpR3_update_ids_object|].
  rewrite CtbpR4_update_ids_eq. apply CtbpR3_update_ids_object.
Qed.

Lemma C3_other_keys_preserved_witness :
  ∃ data', CtbpR3.update_ids "0a" "0b" "0c" example_document = Ret data' ∧
           member "a" data' = member "a" example_document.
Proof.
  eexists. split; [reflexivity|].
  apply (proj1 (C3_other_keys_preserved "0a" "0b" "0c" JNull example_document)).
  - reflexivity.
  - unfold flat_id_keys. intros Hin.
    repeat (apply elem_of_cons in Hin as [Hin | Hin]; [discriminate Hin|]).
    by apply elem_of_nil in Hin.
Defined.

(* ===================================================================== *)
(** * Properties: the path locators *)
(* ===================================================================== *)

Example CtbpR_getStorageFile_linux :
  CtbpR.getStorageFile Linux linux_world = (Ret linux_storage, linux_world).
Proof. vm_compute. reflexivity. Qed.

Example CtbpR3_getStorageFile_windows :
  (CtbpR3.getStorageFile Windows (with_env "APPDATA" "C:\Users\u\AppData\Roaming" blank_world)).1
  = Ret "C:\Users\u\AppData\Roaming\Cursor\User\globalStorage\storage.json".
Proof. vm_compute. reflexivity. Qed.

(** What each locator does on Windows when [APPDATA] is not set. *)
Lemma CtbpR3_getStorageFile_no_appdata (w : World) :
  env w !! "APPDATA" = None →
  CtbpR3.getStorageFile Windows w = (Throw (runtime_error "Failed to get APPDATA path."), w).
Proof. intros He. unfold CtbpR3.getStorageFile, bind, getenv. by rewrite He. Qed.

Lemma CtbpR2_get_storage_file_no_appdata (w : World) :
  env w !! "APPDATA" = None →
  CtbpR2.get_storage_file Windows w = (Ret "", w).
Proof.
  intros He. unfold CtbpR2.get_storage_file.
  rewrite bool_decide_eq_true_2 by done.
  unfold bind, getenv. by rewrite He.
Qed.

Lemma CtbpR4_get_storage_file_no_appdata (w : World) :
  env w !! "APPDATA" = None →
  CtbpR4.get_storage_file Windows w = (Ret "", w).
Proof. intros He. unfold CtbpR4.get_storage_file, bind, getenv. by rewrite He. Qed.

(** [ctbpR.cpp] builds the path from the null pointer. *)
Lemma CtbpR_getStorageFile_no_appdata (w : World) :
  env w !! "APPDATA" = None →
  (CtbpR.getStorageFile Windows w).1 = Undefined.
Proof.
  intros He. unfold CtbpR.getStorageFile. cbn [bind ret].
  rewrite bool_decide_eq_true_2 by done.
  unfold bind, getenv. by rewrite He.
Qed.

(** C7, as stated, fails on [ctbpR-2.cpp]: on Windows, in a world without
    [APPDATA], the locator raises nothing and returns the empty path. *)
Lemma C7_appdata_unset_counterexample :
  env blank_world !! "APPDATA" = None ∧
  CtbpR2.get_storage_file Windows blank_world = (Ret "", blank_world).
Proof. split; vm_compute; reflexivity. Qed.

(** C7 (amended).  On a Windows-like platform, if [APPDATA] is unset, the
    path locator of [ctbpR-3.cpp] fails with the error "Failed to get APPDATA
    path." and returns no path, whereas the path locators of [ctbpR-2.cpp]
    and [ctbpR-4.cpp] raise no error and return the empty path. *)
Theorem C7_appdata_unset (w : World) :
  env w !! "APPDATA" = None →
  CtbpR3.getStorageFile Windows w
    = (Throw (runtime_error "Failed to get APPDATA path."), w) ∧
  CtbpR2.get_storage_file Windows w = (Ret "", w) ∧
  CtbpR4.get_storage_file Windows w = (Ret "", w).
Proof.
  intros He. split; [by apply CtbpR3_getStorageFile_no_appdata|].
  split; [by apply CtbpR2_get_storage_file_no_appdata|].
  by apply CtbpR4_get_storage_file_no_appdata.
Qed.

Lemma C7_appdata_unset_witness :
  CtbpR3.getStorageFile Windows blank_world
    = (Throw (runtime_error "Failed to get APPDATA path."), blank_world) ∧
  CtbpR2.get_storage_file Windows blank_world = (Ret "", blank_world) ∧
  CtbpR4.get_storage_file Windows blank_world = (Ret "", blank_world).
Proof. apply (C7_appdata_unset blank_world). reflexivity. Defined.

Lemma CtbpR_getStorageFile_reads_env_only (platform : Platform) :
  reads_env_only (CtbpR.getStorageFile platform).
Proof.
  intros w1 w2 Hhome Happ. unfold CtbpR.getStorageFile.
  destruct platform; cbn [bind ret throw]; [| | |done].
  - rewrite bool_decide_eq_true_2 by done.
    unfold bind, getenv, path_of. rewrite <- Happ.
    destruct (env w1 !! "APPDATA"); done.
  - rewrite bool_decide_eq_false_2, bool_decide_eq_true_2 by done.
    unfold bind, getenv, path_of. rewrite <- Hhome.
    destruct (env w1 !! "HOME"); done.
  - rewrite !bool_decide_eq_false_2, bool_decide_eq_true_2 by done.
    unfold bind, getenv, path_of. rewrite <- Hhome.
    destruct (env w1 !! "HOME"); done.
Qed.

Lemma CtbpR2_get_storage_file_reads_env_only (platform : Platform) :
  reads_env_only (CtbpR2.get_storage_file platform).
Proof.
  intros w1 w2 Hhome Happ. unfold CtbpR2.get_storage_file.
  destruct platform.
  - rewrite bool_decide_eq_true_2 by done.
    unfold bind, getenv. rewrite <- Happ. destruct (env w1 !! "APPDATA"); done.
  - rewrite bool_decide_eq_false_2, bool_decide_eq_true_2 by done.
    unfold bind, getenv, path_of. rewrite <- Hhome. destruct (env w1 !! "HOME"); done.
  - rewrite !bool_decide_eq_false_2, bool_decide_eq_true_2 by done.
    unfold bind, getenv, path_of. rewrite <- Hhome. destruct (env w1 !! "HOME"); done.
  - rewrite !bool_decide_eq_false_2 by done. done.
Qed.

Lemma CtbpR3_getStorageFile_reads_env_only (platform : Platform) :
  reads_env_only (CtbpR3.getStorageFile platform).
Proof.
  intros w1 w2 Hhome Happ. unfold CtbpR3.getStorageFile.
  destruct platform; [| | |done].
  - unfold bind, getenv. rewrite <- Happ. destruct (env w1 !! "APPDATA"); done.
  - unfold bind, getenv, path_of. rewrite <- Hhome. destruct (env w1 !! "HOME"); done.
  - unfold bind, getenv, path_of. rewrite <- Hhome. destruct (env w1 !! "HOME"); done.
Qed.

Lemma CtbpR4_get_storage_file_reads_env_only (platform : Platform) :
  reads_env_only (CtbpR4.get_storage_file platform).
Proof.
  intros w1 w2 Hhome Happ. unfold CtbpR4.get_storage_file.
  destruct platform; [| | |done].
  - unfold bind, getenv. rewrite <- Happ. destruct (env w1 !! "APPDATA"); done.
  - unfold bind, getenv. rewrite <- Hhome. destruct (env w1 !! "HOME"); done.
  - unfold bind, getenv. rewrite <- Hhome. destruct (env w1 !! "HOME"); done.
Qed.

(** C9.  The path locator is deterministic and free of side effects: two
    invocations on the same platform, in worlds whose [HOME] and [APPDATA]
    have the same values, have the same outcome (the same path, the same
    exception, or in both the construction of a path from a null pointer,
    which is undefined behaviour), and an invocation that returns or throws
    leaves the world as it found it.  This holds for the locator of each of
    the four variants. *)
Theorem C9_locator_deterministic (platform : Platform) (w1 w2 : World) :
  env w1 !! "HOME" = env w2 !! "HOME" →
  env w1 !! "APPDATA" = env w2 !! "APPDATA" →
  ((CtbpR.getStorageFile platform w1).1 = (CtbpR.getStorageFile platform w2).1 ∧
   ((CtbpR.getStorageFile platform w1).1 ≠ Undefined →
    (CtbpR.getStorageFile platform w1).2 = w1)) ∧
  ((CtbpR3.getStorageFile platform w1).1 = (CtbpR3.getStorageFile platform w2).1 ∧
   ((CtbpR3.getStorageFile platform w1).1 ≠ Undefined →
    (CtbpR3.getStorageFile platform w1).2 = w1)) ∧
  ((CtbpR2.get_storage_file platform w1).1 = (CtbpR2.get_storage_file platform w2).1 ∧
   ((CtbpR2.get_storage_file platform w1).1 ≠ Undefined →
    (CtbpR2.get_storage_file platform w1).2 = w1)) ∧
  ((CtbpR4.get_storage_file platform w1).1 = (CtbpR4.get_storage_file platform w2).1 ∧
   ((CtbpR4.get_storage_file platform w1).1 ≠ Undefined →
    (CtbpR4.get_storage_file platform w1).2 = w1)).
Proof.
  intros Hhome Happ.
  split; [by apply CtbpR_getStorageFile_reads_env_only|].
  split; [by apply CtbpR3_getStorageFile_reads_env_only|].
  split; [by apply CtbpR2_get_storage_file_reads_env_only|].
  by apply CtbpR4_get_storage_file_reads_env_only.
Qed.

Lemma C9_locator_deterministic_witness :
  (CtbpR.getStorageFile Linux linux_world).1
  = (CtbpR.getStorageFile Linux (with_file linux_storage "{}" linux_world)).1.
Proof.
  apply (C9_locator_deterministic Linux linux_world
           (with_file linux_storage "{}" linux_world)); reflexivity.
Defined.

(** A locator that returns a path has left the world alone. *)
Lemma locator_returns (locator : M string) (w : World) (p : string) :
  reads_env_only locator → (locator w).1 = Ret p → locator w = (Ret p, w).
Proof.
  intros Hl Hp. destruct (Hl w w eq_refl eq_refl) as [_ Hw].
  destruct (locator w) as [r w']. cbn [fst snd] in *. subst r.
  rewrite Hw; done.
Qed.

(* ===================================================================== *)
(** * Properties: the backup *)
(* ===================================================================== *)

Lemma copy_file_refused (site : io_site) (from to : string) (overwrite : bool) (w : World) :
  refused w site = true →
  copy_file site from to overwrite w = (Throw (filesystem_error "cannot copy file"), w).
Proof. intros Hr. unfold copy_file. by rewrite Hr. Qed.

(** Without the overwrite option an existing target makes the copy throw,
    and nothing is written. *)
Lemma copy_file_exists (site : io_site) (from to c old : string) (w : World) :
  files w !! from = Some c →
  files w !! to = Some old →
  ∃ msg, copy_file site from to false w = (Throw (filesystem_error msg), w).
Proof.
  intros Hf Ht. unfold copy_file. destruct (refused w site); [eauto|].
  rewrite Hf, Ht. rewrite bool_decide_eq_true_2 by eauto. cbn. eauto.
Qed.

(** With the overwrite option the target is replaced. *)
Lemma copy_file_overwrite (site : io_site) (from to c : string) (w : World) :
  refused w site = false →
  files w !! from = Some c →
  copy_file site from to true w = (Ret tt, set_files <[ to := c ]> w).
Proof.
  intros Hr Hf. unfold copy_file. rewrite Hr, Hf.
  by rewrite andb_false_r.
Qed.

Lemma copy_file_fresh (site : io_site) (from to c : string) (overwrite : bool) (w : World) :
  refused w site = false →
  files w !! from = Some c →
  files w !! to = None →
  copy_file site from to overwrite w = (Ret tt, set_files <[ to := c ]> w).
Proof.
  intros Hr Hf Ht. unfold copy_file. rewrite Hr, Hf, Ht.
  rewrite bool_decide_eq_false_2 by (by intros [? ?]). done.
Qed.

Lemma exists_present (p c : string) (w : World) :
  files w !! p = Some c → exists_ p w = (Ret true, w).
Proof. intros Hp. unfold exists_. rewrite Hp. by rewrite bool_decide_eq_true_2 by eauto. Qed.

Lemma exists_absent (p : string) (w : World) :
  files w !! p = None → exists_ p w = (Ret false, w).
Proof.
  intros Hp. unfold exists_. rewrite Hp.
  by rewrite bool_decide_eq_false_2 by (by intros [? ?]).
Qed.

Lemma CtbpR_backupFile_existing (p c old : string) (w : World) :
  files w !! p = Some c →
  files w !! (p +:+ ".backup_" +:+ timestamp w) = Some old →
  ∃ msg, CtbpR.backupFile p w = (Throw (filesystem_error msg), w).
Proof.
  intros Hp Hb. unfold CtbpR.backupFile, bind at 1.
  rewrite (exists_present p c w Hp). cbn [negb].
  unfold bind at 1, local_timestamp. unfold bind at 1.
  destruct (copy_file_exists BackupCopy _ _ _ _ w Hp Hb) as [msg ->]. eauto.
Qed.

Lemma CtbpR3_backupFile_existing (platform : Platform) (p c old : string) (w : World) :
  files w !! p = Some c →
  files w !! (path_append platform (parent_path platform p)
                ("storage.json.backup_" +:+ timestamp w)) = Some old →
  ∃ msg, CtbpR3.backupFile platform p w = (Throw (filesystem_error msg), w).
Proof.
  intros Hp Hb. unfold CtbpR3.backupFile, bind at 1.
  rewrite (exists_present p c w Hp).
  unfold bind at 1, local_timestamp.
  destruct (copy_file_exists BackupCopy _ _ _ _ w Hp Hb) as [msg ->]. eauto.
Qed.

Lemma CtbpR2_backup_file_existing (p c : string) (w : World) :
  refused w BackupCopy = false →
  files w !! p = Some c →
  ∃ w', CtbpR2.backup_file p w = (Ret (p +:+ ".backup_" +:+ timestamp w), w') ∧
        files w' = <[ p +:+ ".backup_" +:+ timestamp w := c ]> (files w).
Proof.
  intros Hr Hp. unfold CtbpR2.backup_file, bind at 1.
  rewrite (exists_present p c w Hp).
  unfold bind at 1, local_timestamp. unfold bind at 1.
  rewrite (copy_file_overwrite _ _ _ c w Hr Hp).
  eexists. split; reflexivity.
Qed.

Lemma CtbpR4_backup_file_existing (p c : string) (w : World) :
  refused w BackupCopy = false →
  files w !! p = Some c →
  CtbpR4.backup_file p w
  = (Ret tt, set_files <[ p +:+ ".backup_" +:+ timestamp w := c ]> w).
Proof.
  intros Hr Hp. unfold CtbpR4.backup_file, bind at 1.
  rewrite (exists_present p c w Hp).
  unfold bind at 1, local_timestamp.
  by rewrite (copy_file_overwrite _ _ _ c w Hr Hp).
Qed.

(** C6, as stated, fails on [ctbpR-2.cpp] and on [ctbpR-4.cpp]: with a
    backup of the same name in place, the backup operation returns normally
    and the old backup now holds the current content of the storage file. *)
Lemma C6_existing_backup_counterexample :
  files (backed_up_world "current") !! linux_storage = Some "current" ∧
  files (backed_up_world "current") !! linux_backup = Some "old backup" ∧
  (∃ w', CtbpR2.backup_file linux_storage (backed_up_world "current")
           = (Ret linux_backup, w') ∧
         files w' !! linux_backup = Some "current") ∧
  (∃ w', CtbpR4.backup_file linux_storage (backed_up_world "current")
           = (Ret tt, w') ∧
         files w' !! linux_backup = Some "current").
Proof.
  split; [vm_compute; reflexivity|]. split; [vm_compute; reflexivity|].
  split; eexists; (split; [vm_compute; reflexivity|]); vm_compute; reflexivity.
Qed.

(** C6 (amended).  For every run in which the original file exists and a
    file with the derived backup name (original path, then [.backup_], then
    the second-resolution timestamp) already exists: the backup operation of
    [ctbpR.cpp] fails with a filesystem error and leaves every file as it
    was; the backup operations of [ctbpR-2.cpp] and [ctbpR-4.cpp] copy with
    the overwrite option, so that, unless the copy itself is refused, they
    return normally and the existing backup file is replaced by the current
    content of the original. *)
Theorem C6_existing_backup (p c old : string) (w : World) :
  files w !! p = Some c →
  files w !! (p +:+ ".backup_" +:+ timestamp w) = Some old →
  (∃ msg, CtbpR.backupFile p w = (Throw (filesystem_error msg), w)) ∧
  (refused w BackupCopy = false →
   (∃ w', CtbpR2.backup_file p w = (Ret (p +:+ ".backup_" +:+ timestamp w), w') ∧
          files w' = <[ p +:+ ".backup_" +:+ timestamp w := c ]> (files w)) ∧
   CtbpR4.backup_file p w
   = (Ret tt, set_files <[ p +:+ ".backup_" +:+ timestamp w := c ]> w)).
Proof.
  intros Hp Hb. split; [by eapply CtbpR_backupFile_existing|].
  intros Hr. split; [by apply CtbpR2_backup_file_existing|].
  by apply CtbpR4_backup_file_existing.
Qed.

Lemma C6_existing_backup_witness :
  ∃ msg, CtbpR.backupFile linux_storage (backed_up_world "current")
         = (Throw (filesystem_error msg), backed_up_world "current").
Proof.
  apply (C6_existing_backup linux_storage "current" "old backup"
           (backed_up_world "current")); vm_compute; reflexivity.
Defined.

(* ===================================================================== *)
(** * Running the programs: one step at a time *)
(* ===================================================================== *)

Lemma bind_ret_eq {A B} (m : M A) (k : A → M B) (w w1 : World) (a : A) :
  m w = (Ret a, w1) → bind m k w = k a w1.
Proof. intros Hm. unfold bind. by rewrite Hm. Qed.

Lemma bind_throw_eq {A B} (m : M A) (k : A → M B) (w w1 : World) (e : exn) :
  m w = (Throw e, w1) → bind m k w = (Throw e, w1).
Proof. intros Hm. unfold bind. by rewrite Hm. Qed.



Lemma try_catch_ret {A} (body : M A) (handler : exn → M A) (w w1 : World) (a : A) :
  body w = (Ret a, w1) → try_catch body handler w = (Ret a, w1).
Proof. intros Hb. unfold try_catch. by rewrite Hb. Qed.

Lemma try_catch_throw {A} (body : M A) (handler : exn → M A) (w w1 : World) (e : exn) :
  body w = (Throw e, w1) → try_catch body handler w = handler e w1.
Proof. intros Hb. unfold try_catch. by rewrite Hb. Qed.


Lemma draw_eq {A} (f : Rng → A * Rng) (w : World) (a : A) (g : Rng) :
  f (entropy w) = (a, g) → draw f w = (Ret a, set_entropy g w).
Proof. intros Hf. unfold draw. by rewrite Hf. Qed.

Lemma create_directories_ok (p : string) (w : World) :
  refused w MkDirs = false → create_directories p w = (Ret tt, w).
Proof. intros Hr. unfold create_directories. by rewrite Hr. Qed.

Lemma ifstream_ok (p : string) (w : World) :
  refused w OpenRead = false → ifstream p w = (Ret (files w !! p), w).
Proof. intros Hr. unfold ifstream. by rewrite Hr. Qed.


Lemma ofstream_ok (p : string) (w : World) :
  refused w OpenWrite = false → ofstream p w = (Ret true, set_files <[ p := "" ]> w).
Proof. intros Hr. unfold ofstream. by rewrite Hr. Qed.

Lemma ofstream_refused (p : string) (w : World) :
  refused w OpenWrite = true → ofstream p w = (Ret false, w).
Proof. intros Hr. unfold ofstream. by rewrite Hr. Qed.

Lemma insert_text_ok (p text : string) (w : World) :
  refused w WriteData = false →
  insert_text p true text (set_files <[ p := "" ]> w) = (Ret tt, written p text w).
Proof. intros Hr. unfold insert_text. cbn [refused set_files]. by rewrite Hr. Qed.

Lemma files_written (p text : string) (w : World) :
  files (written p text w) !! p = Some text.
Proof.
  unfold written. cbn [files set_files].
  rewrite lookup_insert_eq, lookup_insert_eq. reflexivity.
Qed.

Lemma files_written_ne (p q text : string) (w : World) :
  p ≠ q → files (written p text w) !! q = files w !! q.
Proof.
  intros Hpq. unfold written. cbn [files set_files].
  by rewrite !lookup_insert_ne.
Qed.

Lemma read_json_ok {json_text : JsonText} (text : string) (j : json) (w : World) :
  parse text = Some j → read_json text w = (Ret j, w).
Proof. intros Hp. unfold read_json. by rewrite Hp. Qed.


(** Nothing that is appended to a path yields the empty path, and a
    non-empty suffix yields a different path. *)
Lemma append_empty (p s : string) : p +:+ s = "" → s = "".
Proof. destruct p; [done | discriminate]. Qed.

Lemma backup_name_not_empty (p stamp : string) : p +:+ ".backup_" +:+ stamp ≠ "".
Proof. intros Habs%append_empty. discriminate. Qed.

(* ===================================================================== *)
(** * Runs of ctbpR-3.cpp *)
(* ===================================================================== *)

Section RunsCtbpR3.
Context (platform : Platform) {json_text : JsonText}.

Lemma fresh_ids_inv (hex uuid : Rng → string * Rng) (g g' : Rng) (a b c : string) :
  fresh_ids hex uuid g = (a, b, c, g') →
  ∃ g1 g2, hex g = (a, g1) ∧ hex g1 = (b, g2) ∧ uuid g2 = (c, g').
Proof.
  unfold fresh_ids.
  destruct (hex g) as [a' g1] eqn:E1. destruct (hex g1) as [b' g2] eqn:E2.
  destruct (uuid g2) as [c' g3] eqn:E3. intros [= <- <- <- <-]. eauto.
Qed.

(** Lines 82 to 87 and the report, from a document [data] that is [null]
    or an object. *)
Lemma CtbpR3_generate_and_write (p : string) (data out : json) (a b c : string)
    (g : Rng) (w : World) :
  fresh_ids (CtbpR3.generateRandomHex 32) CtbpR3.generateUUID (entropy w) = (a, b, c, g) →
  CtbpR3.update_ids a b c data = Ret out →
  refused w OpenWrite = false →
  refused w WriteData = false →
  ∃ w', (do id <- draw (CtbpR3.generateRandomHex 32);
         do data <- lift (subscript_assign "telemetry.machineId" (JStr id) data);
         do id <- draw (CtbpR3.generateRandomHex 32);
         do data <- lift (subscript_assign "telemetry.macMachineId" (JStr id) data);
         do id <- draw CtbpR3.generateUUID;
         do data <- lift (subscript_assign "telemetry.devDeviceId" (JStr id) data);
         do outFile <- ofstream p;
         insert_text p outFile (dump 2 data);;
         print ("🎉 Device IDs have been successfully reset. The new device IDs are:"
                +:+ endl);;
         print (dump 2 data +:+ endl)) w = (Ret tt, w') ∧
        files w' !! p = Some (dump 2 out) ∧
        (∀ q, q ≠ p → files w' !! q = files w !! q) ∧
        cerr w' = cerr w.
Proof.
  intros (g1 & g2 & E1 & E2 & E3)%fresh_ids_inv Hup Hopen Hwrite.
  unfold CtbpR3.update_ids in Hup.
  apply and_then_ret in Hup as (d1 & U1 & (d2 & U2 & U3)%and_then_ret).
  rewrite (bind_ret_eq _ _ _ _ _ (draw_eq _ w a g1 E1)).
  rewrite (bind_ret_eq _ _ _ (set_entropy g1 w) d1) by (by unfold lift; rewrite U1).
  rewrite (bind_ret_eq _ _ _ _ _ (draw_eq _ (set_entropy g1 w) b g2 E2)).
  rewrite (bind_ret_eq _ _ _ (set_entropy g2 (set_entropy g1 w)) d2)
    by (by unfold lift; rewrite U2).
  rewrite (bind_ret_eq _ _ _ _ _ (draw_eq _ (set_entropy g2 (set_entropy g1 w)) c g E3)).
  set (w3 := set_entropy g (set_entropy g2 (set_entropy g1 w))).
  rewrite (bind_ret_eq _ _ _ w3 out) by (by unfold lift; rewrite U3).
  rewrite (bind_ret_eq _ _ _ _ _ (ofstream_ok p w3 Hopen)).
  rewrite (bind_ret_eq _ _ _ _ _ (insert_text_ok p (dump 2 out) w3 Hwrite)).
  eexists. split; [reflexivity|].
  split; [apply files_written|]. split; [|reflexivity].
  intros q Hq. cbn [print add_cout bind files snd].
  by rewrite files_written_ne.
Qed.



End RunsCtbpR3.

(* ===================================================================== *)
(** * Runs of ctbpR.cpp *)
(* ===================================================================== *)

Section RunsCtbpR.
Context (platform : Platform) {json_text : JsonText}.

Lemma CtbpR_generateNewIds_eq (a b c : string) (g : Rng) (w : World) :
  fresh_ids (CtbpR.generateRandomHex 32) CtbpR.generateUUID (entropy w) = (a, b, c, g) →
  CtbpR.generateNewIds w = (Ret (nested_ids a b c), set_entropy g w).
Proof.
  intros (g1 & g2 & E1 & E2 & E3)%fresh_ids_inv. unfold CtbpR.generateNewIds.
  rewrite (bind_ret_eq _ _ _ _ _ (draw_eq _ w a g1 E1)).
  unfold lift at 1, bind at 1. cbn [subscript_assign subscript_modify].
  rewrite (bind_ret_eq _ _ _ _ _ (draw_eq _ (set_entropy g1 w) b g2 E2)).
  unfold lift at 1, bind at 1. cbn [subscript_assign subscript_modify].
  rewrite (bind_ret_eq _ _ _ _ _ (draw_eq _ (set_entropy g2 (set_entropy g1 w)) c g E3)).
  unfold lift at 1, bind at 1. cbn [subscript_assign subscript_modify].
  reflexivity.
Qed.

Lemma nested_ids_read (a b c : string) :
  subscript_read "machineId" (nested_ids a b c) = Ret (JStr a) ∧
  subscript_read "macMachineId" (nested_ids a b c) = Ret (JStr b) ∧
  subscript_read "devDeviceId" (nested_ids a b c) = Ret (JStr c).
Proof.
  repeat split; vm_compute; reflexivity.
Qed.

(** From an empty start the update builds the ["telemetry"] object and
    nothing else. *)
Lemma CtbpR_update_ids_null (a b c : string) :
  CtbpR.update_ids (nested_ids a b c) JNull = Ret (nested_ids_document a b c).
Proof.
  vm_compute. reflexivity.
Qed.

(** How [main] ends, given how the [try] block of [resetCursorId] ends. *)
Lemma CtbpR_main_ret (w w' : World) :
  CtbpR.resetCursorId_body platform (after_banner w) = (Ret tt, w') →
  CtbpR.main platform w = (Ret 0, w').
Proof.
  intros Hb. unfold CtbpR.main.
  unfold bind at 1, print at 1. unfold bind at 1, print at 1.
  apply try_catch_ret. erewrite bind_ret_eq; [reflexivity|].
  by apply try_catch_ret.
Qed.

Lemma CtbpR_main_throw (w w' : World) (e : exn) :
  CtbpR.resetCursorId_body platform (after_banner w) = (Throw e, w') →
  ∃ w'', CtbpR.main platform w = (Ret 1, w'') ∧
         files w'' = files w' ∧ cout w'' = cout w' ∧
         cerr w'' = cerr w' ++ CtbpR_error_report e.
Proof.
  intros Hb. unfold CtbpR.main.
  unfold bind at 1, print at 1. unfold bind at 1, print at 1.
  erewrite try_catch_throw.
  2:{ apply bind_throw_eq. unfold CtbpR.resetCursorId.
      rewrite (try_catch_throw _ _ _ _ _ Hb).
      instantiate (1 := add_cerr (hd "" (CtbpR_error_report e)) w').
      instantiate (1 := e). destruct e; reflexivity. }
  eexists. split; [reflexivity|].
  cbn [bind eprint ret files cout cerr add_cerr CtbpR_error_report hd].
  split; [done|]. split; [done|]. by rewrite <- app_assoc.
Qed.


(** The [try] block when every step up to the write goes through: [w1] is
    the world after the backup, [w2] the world after the load. *)
Lemma CtbpR_body_writes (p bpath a b c : string) (data out : json) (g : Rng)
    (w w1 w2 : World) :
  (CtbpR.getStorageFile platform w).1 = Ret p →
  refused w MkDirs = false →
  CtbpR.backupFile p (add_cout ("Targeting storage file: " +:+ quoted p +:+ endl) w)
    = (Ret bpath, w1) →
  CtbpR.load p w1 = (Ret data, w2) →
  fresh_ids (CtbpR.generateRandomHex 32) CtbpR.generateUUID (entropy w2) = (a, b, c, g) →
  CtbpR.update_ids (nested_ids a b c) data = Ret out →
  refused w2 OpenWrite = false →
  refused w2 WriteData = false →
  ∃ w', CtbpR.resetCursorId_body platform w = (Ret tt, w') ∧
        files w' !! p = Some (dump 2 out +:+ endl) ∧
        (∀ q, q ≠ p → files w' !! q = files w2 !! q) ∧
        cerr w' = cerr w2 ∧
        last (cout w') = Some (dump 2 (nested_ids a b c) +:+ endl).
Proof.
  intros Hloc Hmk Hbk Hld Hids Hup Hopen Hwrite.
  apply (locator_returns _ _ _ (CtbpR_getStorageFile_reads_env_only platform)) in Hloc.
  unfold CtbpR.resetCursorId_body.
  rewrite (bind_ret_eq _ _ _ _ _ Hloc).
  unfold bind at 1, print at 1.
  set (w0 := add_cout ("Targeting storage file: " +:+ quoted p +:+ endl) w) in *.
  rewrite (bind_ret_eq _ _ _ _ tt (create_directories_ok _ w0 Hmk)).
  rewrite (bind_ret_eq _ _ _ _ _ Hbk).
  rewrite (bind_ret_eq _ _ _ _ _ Hld).
  rewrite (bind_ret_eq _ _ _ _ _ (CtbpR_generateNewIds_eq a b c g w2 Hids)).
  rewrite (bind_ret_eq _ _ _ (set_entropy g w2) out) by (by unfold lift; rewrite Hup).
  unfold CtbpR.persist.
  rewrite (bind_ret_eq _ _ (set_entropy g w2)
             (written p (dump 2 out +:+ endl) (set_entropy g w2)) tt).
  2:{ rewrite (bind_ret_eq _ _ _ _ _ (ofstream_ok p (set_entropy g w2) Hopen)).
      cbn [negb]. unfold bind at 1, ret at 1.
      apply (insert_text_ok p _ (set_entropy g w2) Hwrite). }
  eexists. split; [reflexivity|].
  cbn [bind print add_cout files cerr cout snd].
  split; [apply files_written|].
  split; [intros q Hq; by rewrite files_written_ne|].
  split; [reflexivity|].
  apply last_snoc.
Qed.

(** The backup when there is a file and the derived name is free. *)
Lemma CtbpR_backupFile_fresh (p text : string) (w : World) :
  files w !! p = Some text →
  files w !! (p +:+ ".backup_" +:+ timestamp w) = None →
  refused w BackupCopy = false →
  CtbpR.backupFile p w
  = (Ret (p +:+ ".backup_" +:+ timestamp w),
     add_cout ("Created backup at: " +:+ quoted (p +:+ ".backup_" +:+ timestamp w) +:+ endl)
       (set_files <[ p +:+ ".backup_" +:+ timestamp w := text ]> w)).
Proof.
  intros Hp Hfree Hr. unfold CtbpR.backupFile.
  rewrite (bind_ret_eq _ _ _ _ _ (exists_present p text w Hp)). cbn [negb].
  unfold bind at 1, local_timestamp.
  rewrite (bind_ret_eq _ _ _ _ _ (copy_file_fresh _ _ _ text false w Hr Hp Hfree)).
  reflexivity.
Qed.

Lemma CtbpR_backupFile_missing (p : string) (w : World) :
  files w !! p = None → CtbpR.backupFile p w = (Ret "", w).
Proof.
  intros Hp. unfold CtbpR.backupFile.
  by rewrite (bind_ret_eq _ _ _ _ _ (exists_absent p w Hp)).
Qed.

Lemma CtbpR_load_missing (p : string) (w : World) :
  files w !! p = None → CtbpR.load p w = (Ret JNull, w).
Proof.
  intros Hp. unfold CtbpR.load.
  by rewrite (bind_ret_eq _ _ _ _ _ (exists_absent p w Hp)).
Qed.


Lemma CtbpR_load_parsed (p text : string) (data : json) (w : World) :
  files w !! p = Some text →
  refused w OpenRead = false →
  parse text = Some data →
  CtbpR.load p w = (Ret data, w).
Proof.
  intros Hp Hr Hparse. unfold CtbpR.load.
  rewrite (bind_ret_eq _ _ _ _ _ (exists_present p text w Hp)).
  rewrite (bind_ret_eq _ _ _ _ _ (ifstream_ok p w Hr)). rewrite Hp.
  by apply read_json_ok.
Qed.


Lemma CtbpR_locator_after_banner (p : string) (w : World) :
  (CtbpR.getStorageFile platform w).1 = Ret p →
  (CtbpR.getStorageFile platform (after_banner w)).1 = Ret p.
Proof.
  intros Hloc.
  destruct (CtbpR_getStorageFile_reads_env_only platform w (after_banner w) eq_refl eq_refl)
    as [Heq _].
  by rewrite <- Heq.
Qed.


(** The [try] block when the output stream cannot be opened although a
    backup was made: the copy back from the backup finds the storage file
    in place and throws; the [throw] of line 130 is not reached. *)
Lemma CtbpR_body_open_refused (p bpath t1 t2 a b c : string) (data out : json)
    (g : Rng) (w w1 w2 : World) :
  (CtbpR.getStorageFile platform w).1 = Ret p →
  refused w MkDirs = false →
  CtbpR.backupFile p (add_cout ("Targeting storage file: " +:+ quoted p +:+ endl) w)
    = (Ret bpath, w1) →
  CtbpR.load p w1 = (Ret data, w2) →
  fresh_ids (CtbpR.generateRandomHex 32) CtbpR.generateUUID (entropy w2) = (a, b, c, g) →
  CtbpR.update_ids (nested_ids a b c) data = Ret out →
  refused w2 OpenWrite = true →
  bpath ≠ "" →
  files w2 !! bpath = Some t1 →
  files w2 !! p = Some t2 →
  ∃ msg, CtbpR.resetCursorId_body platform w
         = (Throw (filesystem_error msg), set_entropy g w2).
Proof.
  intros Hloc Hmk Hbk Hld Hids Hup Hopen Hne Hb Hp.
  apply (locator_returns _ _ _ (CtbpR_getStorageFile_reads_env_only platform)) in Hloc.
  destruct (copy_file_exists RestoreCopy bpath p t1 t2 (set_entropy g w2) Hb Hp)
    as [msg Hcopy].
  exists msg.
  unfold CtbpR.resetCursorId_body.
  rewrite (bind_ret_eq _ _ _ _ _ Hloc).
  unfold bind at 1, print at 1.
  set (w0 := add_cout ("Targeting storage file: " +:+ quoted p +:+ endl) w) in *.
  rewrite (bind_ret_eq _ _ _ _ tt (create_directories_ok _ w0 Hmk)).
  rewrite (bind_ret_eq _ _ _ _ _ Hbk).
  rewrite (bind_ret_eq _ _ _ _ _ Hld).
  rewrite (bind_ret_eq _ _ _ _ _ (CtbpR_generateNewIds_eq a b c g w2 Hids)).
  rewrite (bind_ret_eq _ _ _ (set_entropy g w2) out) by (by unfold lift; rewrite Hup).
  apply bind_throw_eq. unfold CtbpR.persist.
  pose proof (ofstream_refused p (set_entropy g w2) Hopen) as Hstream.
  rewrite (bind_ret_eq _ _ _ _ _ Hstream).
  cbn [negb]. apply bind_throw_eq. apply bind_throw_eq.
  rewrite bool_decide_eq_false_2 by exact Hne. cbn [negb].
  exact Hcopy.
Qed.

(** The same refusal when there was nothing to back up: this is the one
    case in which the error of line 130 is thrown. *)
Lemma CtbpR_body_open_refused_no_backup (p a b c : string) (data out : json)
    (g : Rng) (w w1 w2 : World) :
  (CtbpR.getStorageFile platform w).1 = Ret p →
  refused w MkDirs = false →
  CtbpR.backupFile p (add_cout ("Targeting storage file: " +:+ quoted p +:+ endl) w)
    = (Ret "", w1) →
  CtbpR.load p w1 = (Ret data, w2) →
  fresh_ids (CtbpR.generateRandomHex 32) CtbpR.generateUUID (entropy w2) = (a, b, c, g) →
  CtbpR.update_ids (nested_ids a b c) data = Ret out →
  refused w2 OpenWrite = true →
  CtbpR.resetCursorId_body platform w
  = (Throw (CursorResetError "Failed to write storage file"), set_entropy g w2).
Proof.
  intros Hloc Hmk Hbk Hld Hids Hup Hopen.
  apply (locator_returns _ _ _ (CtbpR_getStorageFile_reads_env_only platform)) in Hloc.
  unfold CtbpR.resetCursorId_body.
  rewrite (bind_ret_eq _ _ _ _ _ Hloc).
  unfold bind at 1, print at 1.
  set (w0 := add_cout ("Targeting storage file: " +:+ quoted p +:+ endl) w) in *.
  rewrite (bind_ret_eq _ _ _ _ tt (create_directories_ok _ w0 Hmk)).
  rewrite (bind_ret_eq _ _ _ _ _ Hbk).
  rewrite (bind_ret_eq _ _ _ _ _ Hld).
  rewrite (bind_ret_eq _ _ _ _ _ (CtbpR_generateNewIds_eq a b c g w2 Hids)).
  rewrite (bind_ret_eq _ _ _ (set_entropy g w2) out) by (by unfold lift; rewrite Hup).
  apply bind_throw_eq. unfold CtbpR.persist.
  pose proof (ofstream_refused p (set_entropy g w2) Hopen) as Hstream.
  rewrite (bind_ret_eq _ _ _ _ _ Hstream).
  cbn [negb]. apply bind_throw_eq.
  rewrite bool_decide_eq_true_2 by reflexivity. reflexivity.
Qed.

(** The [try] block when the stream opens but the data does not fit: the
    state of the stream is never looked at, and the run reports success. *)
Lemma CtbpR_body_short_write (p bpath a b c : string) (data out : json) (g : Rng)
    (w w1 w2 : World) :
  (CtbpR.getStorageFile platform w).1 = Ret p →
  refused w MkDirs = false →
  CtbpR.backupFile p (add_cout ("Targeting storage file: " +:+ quoted p +:+ endl) w)
    = (Ret bpath, w1) →
  CtbpR.load p w1 = (Ret data, w2) →
  fresh_ids (CtbpR.generateRandomHex 32) CtbpR.generateUUID (entropy w2) = (a, b, c, g) →
  CtbpR.update_ids (nested_ids a b c) data = Ret out →
  refused w2 OpenWrite = false →
  refused w2 WriteData = true →
  ∃ w', CtbpR.resetCursorId_body platform w = (Ret tt, w') ∧
        files w' !! p
        = Some (str (take (short_write w2) (chars (dump 2 out +:+ endl)))) ∧
        cerr w' = cerr w2.
Proof.
  intros Hloc Hmk Hbk Hld Hids Hup Hopen Hwrite.
  apply (locator_returns _ _ _ (CtbpR_getStorageFile_reads_env_only platform)) in Hloc.
  unfold CtbpR.resetCursorId_body.
  rewrite (bind_ret_eq _ _ _ _ _ Hloc).
  unfold bind at 1, print at 1.
  set (w0 := add_cout ("Targeting storage file: " +:+ quoted p +:+ endl) w) in *.
  rewrite (bind_ret_eq _ _ _ _ tt (create_directories_ok _ w0 Hmk)).
  rewrite (bind_ret_eq _ _ _ _ _ Hbk).
  rewrite (bind_ret_eq _ _ _ _ _ Hld).
  rewrite (bind_ret_eq _ _ _ _ _ (CtbpR_generateNewIds_eq a b c g w2 Hids)).
  rewrite (bind_ret_eq _ _ _ (set_entropy g w2) out) by (by unfold lift; rewrite Hup).
  rewrite (bind_ret_eq _ _ (set_entropy g w2)
             (set_files (λ fs, <[ p := default "" (fs !! p)
                                   +:+ str (take (short_write w2)
                                                 (chars (dump 2 out +:+ endl))) ]> fs)
                (set_files <[ p := "" ]> (set_entropy g w2))) tt).
  2:{ unfold CtbpR.persist.
      rewrite (bind_ret_eq _ _ _ _ _ (ofstream_ok p (set_entropy g w2) Hopen)).
      cbn [negb]. unfold bind at 1, ret at 1.
      unfold insert_text. cbn [refused set_files set_entropy short_write].
      rewrite Hwrite. reflexivity. }
  eexists. split; [reflexivity|].
  cbn [bind print add_cout files cerr snd set_files set_entropy].
  split; [|reflexivity].
  rewrite lookup_insert_eq, lookup_insert_eq. reflexivity.
Qed.

End RunsCtbpR.

(* ===================================================================== *)
(** * Scenarios of ctbpR.cpp *)
(* ===================================================================== *)

Section ScenariosCtbpR.
Context (platform : Platform) {json_text : JsonText}.




(** The storage file is fine, but cannot be opened for writing.  The
    attempt to restore the backup throws, and what is reported is that
    filesystem error, as an unexpected one. *)
Lemma CtbpR_open_refused_run (p text a b c : string) (data out : json) (g : Rng)
    (w : World) :
  (CtbpR.getStorageFile platform w).1 = Ret p →
  files w !! p = Some text →
  parse text = Some data →
  files w !! (p +:+ ".backup_" +:+ timestamp w) = None →
  refused w OpenRead = false →
  refused w MkDirs = false →
  refused w BackupCopy = false →
  refused w OpenWrite = true →
  fresh_ids (CtbpR.generateRandomHex 32) CtbpR.generateUUID (entropy w) = (a, b, c, g) →
  CtbpR.update_ids (nested_ids a b c) data = Ret out →
  ∃ msg w', CtbpR.main platform w = (Ret 1, w') ∧
            files w' !! p = Some text ∧
            cerr w' = cerr w ++ CtbpR_error_report (filesystem_error msg).
Proof.
  intros Hloc Hfile Hparse Hfree Hread Hmk Hcopy Hopen Hids Hup.
  apply CtbpR_locator_after_banner in Hloc.
  set (w0 := add_cout ("Targeting storage file: " +:+ quoted p +:+ endl) (after_banner w)).
  set (bp := p +:+ ".backup_" +:+ timestamp w) in *.
  set (w1 := add_cout ("Created backup at: " +:+ quoted bp +:+ endl)
               (set_files <[ bp := text ]> w0)).
  assert (bp ≠ p) as Hne by (intros Heq; rewrite Heq in Hfree; congruence).
  assert (files w1 !! p = Some text) as Hfile1.
  { subst w1 w0. cbn [files set_files add_cout after_banner].
    by rewrite lookup_insert_ne. }
  assert (files w1 !! bp = Some text) as Hbackup1.
  { subst w1 w0. cbn [files set_files add_cout after_banner]. apply lookup_insert_eq. }
  destruct (CtbpR_body_open_refused platform p bp text text a b c data out g
              (after_banner w) w1 w1 Hloc Hmk
              (CtbpR_backupFile_fresh p text w0 Hfile Hfree Hcopy)
              (CtbpR_load_parsed p text data w1 Hfile1 Hread Hparse)
              Hids Hup Hopen (backup_name_not_empty p (timestamp w)) Hbackup1 Hfile1)
    as (msg & Hbody).
  destruct (CtbpR_main_throw platform w _ _ Hbody) as (w' & Hmain & Hfiles & _ & Herr).
  exists msg, w'. split; [exact Hmain|]. split.
  - rewrite Hfiles. exact Hfile1.
  - rewrite Herr. reflexivity.
Qed.

(** The storage file is fine and opens for writing, but the disk takes only
    part of the data: the run ends with status 0 and a truncated file. *)
Lemma CtbpR_short_write_run (p text a b c : string) (data out : json) (g : Rng)
    (w : World) :
  (CtbpR.getStorageFile platform w).1 = Ret p →
  files w !! p = Some text →
  parse text = Some data →
  files w !! (p +:+ ".backup_" +:+ timestamp w) = None →
  refused w OpenRead = false →
  refused w MkDirs = false →
  refused w BackupCopy = false →
  refused w OpenWrite = false →
  refused w WriteData = true →
  fresh_ids (CtbpR.generateRandomHex 32) CtbpR.generateUUID (entropy w) = (a, b, c, g) →
  CtbpR.update_ids (nested_ids a b c) data = Ret out →
  ∃ w', CtbpR.main platform w = (Ret 0, w') ∧
        files w' !! p
        = Some (str (take (short_write w) (chars (dump 2 out +:+ endl)))) ∧
        cerr w' = cerr w.
Proof.
  intros Hloc Hfile Hparse Hfree Hread Hmk Hcopy Hopen Hwrite Hids Hup.
  apply CtbpR_locator_after_banner in Hloc.
  set (w0 := add_cout ("Targeting storage file: " +:+ quoted p +:+ endl) (after_banner w)).
  set (bp := p +:+ ".backup_" +:+ timestamp w) in *.
  set (w1 := add_cout ("Created backup at: " +:+ quoted bp +:+ endl)
               (set_files <[ bp := text ]> w0)).
  assert (bp ≠ p) as Hne by (intros Heq; rewrite Heq in Hfree; congruence).
  assert (files w1 !! p = Some text) as Hfile1.
  { subst w1 w0. cbn [files set_files add_cout after_banner].
    by rewrite lookup_insert_ne. }
  destruct (CtbpR_body_short_write platform p bp a b c data out g
              (after_banner w) w1 w1 Hloc Hmk
              (CtbpR_backupFile_fresh p text w0 Hfile Hfree Hcopy)
              (CtbpR_load_parsed p text data w1 Hfile1 Hread Hparse)
              Hids Hup Hopen Hwrite)
    as (w' & Hbody & Hfile' & Herr).
  exists w'. split; [by apply CtbpR_main_ret|]. split; [exact Hfile' | exact Herr].
Qed.

End ScenariosCtbpR.

(* ===================================================================== *)
(** * Runs of ctbpR-4.cpp *)
(* ===================================================================== *)

Lemma append_same (p s : string) : p +:+ s = p → s = "".
Proof.
  induction p as [|ch p IH]; [done|].
  change (String ch p +:+ s) with (String ch (p +:+ s)).
  intros [= Heq]. by apply IH.
Qed.

Lemma backup_name_differs (p stamp : string) : p +:+ ".backup_" +:+ stamp ≠ p.
Proof. intros Habs%append_same. discriminate. Qed.

Section RunsCtbpR4.
Context (platform : Platform) {json_text : JsonText}.

Lemma CtbpR4_main_ret (w w' : World) :
  CtbpR4.reset_cursor_id platform w = (Ret tt, w') →
  CtbpR4.main platform w = (Ret 0, w').
Proof.
  intros Hb. unfold CtbpR4.main. apply try_catch_ret.
  erewrite bind_ret_eq; [reflexivity | exact Hb].
Qed.

Lemma CtbpR4_main_throw (w w' : World) (e : exn) :
  CtbpR4.reset_cursor_id platform w = (Throw e, w') →
  CtbpR4.main platform w = (Ret 1, add_cerr ("Error: " +:+ what e +:+ endl) w').
Proof.
  intros Hb. unfold CtbpR4.main.
  erewrite try_catch_throw; [reflexivity|]. by apply bind_throw_eq.
Qed.


Lemma CtbpR4_load_eq (p : string) : CtbpR4.load p = CtbpR.load p.
Proof. reflexivity. Qed.



(** The run when every step up to the write goes through: [w1] is the
    world after the backup, [w2] the world after the load. *)
Lemma CtbpR4_reset_writes (p a b c : string) (data out : json) (g : Rng)
    (w w1 w2 : World) :
  (CtbpR4.get_storage_file platform w).1 = Ret p →
  refused w MkDirs = false →
  CtbpR4.backup_file p w = (Ret tt, w1) →
  CtbpR4.load p w1 = (Ret data, w2) →
  fresh_ids (CtbpR4.generate_random_hex 64) CtbpR4.generate_uuid (entropy w2)
    = (a, b, c, g) →
  CtbpR4.update_ids a b c data = Ret out →
  refused w2 OpenWrite = false →
  refused w2 WriteData = false →
  ∃ w', CtbpR4.reset_cursor_id platform w = (Ret tt, w') ∧
        files w' !! p = Some (dump 2 out +:+ endl) ∧
        (∀ q, q ≠ p → files w' !! q = files w2 !! q) ∧
        cerr w' = cerr w2 ∧
        last (cout w') = Some (dump 2 (nested_ids a b c) +:+ endl).
Proof.
  intros Hloc Hmk Hbk Hld (g1 & g2 & E1 & E2 & E3)%fresh_ids_inv Hup Hopen Hwrite.
  apply (locator_returns _ _ _ (CtbpR4_get_storage_file_reads_env_only platform)) in Hloc.
  unfold CtbpR4.reset_cursor_id.
  rewrite (bind_ret_eq _ _ _ _ _ Hloc).
  rewrite (bind_ret_eq _ _ _ _ tt (create_directories_ok _ w Hmk)).
  rewrite (bind_ret_eq _ _ _ _ _ Hbk).
  rewrite (bind_ret_eq _ _ _ _ _ Hld).
  rewrite (bind_ret_eq _ _ _ _ _ (draw_eq _ w2 a g1 E1)).
  rewrite (bind_ret_eq _ _ _ _ _ (draw_eq _ (set_entropy g1 w2) b g2 E2)).
  rewrite (bind_ret_eq _ _ _ _ _ (draw_eq _ (set_entropy g2 (set_entropy g1 w2)) c g E3)).
  set (w3 := set_entropy g (set_entropy g2 (set_entropy g1 w2))).
  rewrite (bind_ret_eq _ _ _ w3 out) by (by unfold lift; rewrite Hup).
  rewrite (bind_ret_eq _ _ _ _ _ (ofstream_ok p w3 Hopen)).
  rewrite (bind_ret_eq _ _ _ _ tt (insert_text_ok p (dump 2 out +:+ endl) w3 Hwrite)).
  unfold bind at 1, print at 1.
  rewrite (bind_ret_eq _ _ _ _ (nested_ids a b c) eq_refl).
  eexists. split; [reflexivity|].
  cbn [print add_cout files cerr cout snd].
  split; [apply files_written|].
  split; [intros q Hq; by rewrite files_written_ne|].
  split; [reflexivity|].
  apply last_snoc.
Qed.






End RunsCtbpR4.

(* ===================================================================== *)
(** * Runs of ctbpR-2.cpp, and how the four [main] functions end *)
(* ===================================================================== *)

Section RunsCtbpR2.
Context (platform : Platform) {json_text : JsonText}.

Lemma CtbpR2_main_ret (w w' : World) :
  CtbpR2.reset_cursor_id_body platform w = (Ret tt, w') →
  CtbpR2.main platform w = (Ret 0, w').
Proof.
  intros Hb. unfold CtbpR2.main, CtbpR2.reset_cursor_id.
  erewrite bind_ret_eq; [reflexivity|]. by apply try_catch_ret.
Qed.

(** An exception is reported and then dropped: [main] returns 0. *)
Lemma CtbpR2_main_throw (w w' : World) (e : exn) :
  CtbpR2.reset_cursor_id_body platform w = (Throw e, w') →
  ∃ w'', CtbpR2.main platform w = (Ret 0, w'') ∧
         files w'' = files w' ∧
         cerr w'' = cerr w' ++ CtbpR2_error_report e.
Proof.
  intros Hb. unfold CtbpR2.main, CtbpR2.reset_cursor_id.
  erewrite bind_ret_eq; [|erewrite try_catch_throw by exact Hb; reflexivity].
  eexists. split; [reflexivity|].
  cbn [bind eprint ret files cerr add_cerr snd CtbpR2_error_report].
  split; [reflexivity|]. rewrite <- !app_assoc. reflexivity.
Qed.


Lemma CtbpR3_main_ret (w w' : World) :
  CtbpR3.resetCursorID_body platform w = (Ret tt, w') →
  CtbpR3.main platform w = (Ret 0, w').
Proof.
  intros Hb. unfold CtbpR3.main, CtbpR3.resetCursorID.
  erewrite bind_ret_eq; [reflexivity|]. by apply try_catch_ret.
Qed.

Lemma CtbpR3_main_throw (w w' : World) (e : exn) :
  CtbpR3.resetCursorID_body platform w = (Throw e, w') →
  CtbpR3.main platform w
  = (Ret 0, add_cerr ("❌ An error occurred: " +:+ what e +:+ endl) w').
Proof.
  intros Hb. unfold CtbpR3.main, CtbpR3.resetCursorID.
  erewrite bind_ret_eq; [reflexivity|].
  erewrite try_catch_throw by exact Hb. reflexivity.
Qed.


Lemma CtbpR2_backup_file_missing (p : string) (w : World) :
  files w !! p = None → CtbpR2.backup_file p w = (Ret "", w).
Proof.
  intros Hp. unfold CtbpR2.backup_file.
  by rewrite (bind_ret_eq _ _ _ _ _ (exists_absent p w Hp)).
Qed.


(** The storage file does not exist.  The run announces a new configuration,
    generates the identifiers, and then asks the [null] document for the old
    values: [value()] throws [type_error.306], and nothing is written. *)
Lemma CtbpR2_missing_file_run (p : string) (w : World) :
  (CtbpR2.get_storage_file platform w).1 = Ret p →
  files w !! p = None →
  refused w MkDirs = false →
  ∃ w', CtbpR2.main platform w = (Ret 0, w') ∧
        files w' = files w ∧
        cerr w' = cerr w ++ CtbpR2_error_report (json_type_error 306).
Proof.
  intros Hloc Hmiss Hmk.
  apply (locator_returns _ _ _ (CtbpR2_get_storage_file_reads_env_only platform)) in Hloc.
  destruct (fresh_ids (CtbpR2.generate_random_hex 32) CtbpR2.generate_uuid (entropy w))
    as [[[a b] c] g] eqn:Hids.
  apply fresh_ids_inv in Hids as (g1 & g2 & E1 & E2 & E3).
  set (w1 := add_cout ("Storage file not found at " +:+ quoted p
                       +:+ ". Creating new configuration." +:+ endl) w).
  assert (CtbpR2.reset_cursor_id_body platform w
          = (Throw (json_type_error 306),
             set_entropy g (set_entropy g2 (set_entropy g1 w1)))) as Hbody.
  { unfold CtbpR2.reset_cursor_id_body.
    rewrite (bind_ret_eq _ _ _ _ _ Hloc).
    rewrite (bind_ret_eq _ _ _ _ tt (create_directories_ok _ w Hmk)).
    rewrite (bind_ret_eq _ _ _ _ _ (CtbpR2_backup_file_missing p w Hmiss)).
    rewrite (bind_ret_eq _ _ w w1 JNull).
    2:{ unfold CtbpR2.load.
        by rewrite (bind_ret_eq _ _ _ _ _ (exists_absent p w Hmiss)). }
    rewrite (bind_ret_eq _ _ _ _ _ (draw_eq _ w1 a g1 E1)).
    rewrite (bind_ret_eq _ _ _ _ _ (draw_eq _ (set_entropy g1 w1) b g2 E2)).
    rewrite (bind_ret_eq _ _ _ _ _ (draw_eq _ (set_entropy g2 (set_entropy g1 w1)) c g E3)).
    apply bind_throw_eq. reflexivity. }
  destruct (CtbpR2_main_throw w _ _ Hbody) as (w' & Hmain & Hf & He).
  exists w'. split; [exact Hmain|]. split.
  - rewrite Hf. reflexivity.
  - rewrite He. reflexivity.
Qed.

End RunsCtbpR2.

(* ===================================================================== *)
(** * What a successful run prints *)
(* ===================================================================== *)

Section Emission.
Context (platform : Platform) {json_text : JsonText}.


Lemma draw_ret_inv {A} (f : Rng → A * Rng) (w w' : World) (a : A) :
  draw f w = (Ret a, w') → a = (f (entropy w)).1.
Proof. unfold draw. destruct (f (entropy w)) as [a' g]. by intros [= <- _]. Qed.


Lemma CtbpR_generateNewIds_total (w : World) :
  ∃ a b c g, CtbpR.generateNewIds w = (Ret (nested_ids a b c), set_entropy g w).
Proof.
  destruct (fresh_ids (CtbpR.generateRandomHex 32) CtbpR.generateUUID (entropy w))
    as [[[a b] c] g] eqn:Hids.
  exists a, b, c, g. by apply CtbpR_generateNewIds_eq.
Qed.





End Emission.

(* ===================================================================== *)
(** * Error handling: the claims about whole runs *)
(* ===================================================================== *)

(** C4, on [ctbpR.cpp], the one variant that tries to restore the backup.
    When the storage file existed, was backed up, and cannot be opened for
    writing, the copy back from the backup is made without the option to
    overwrite and finds the storage file in place: it throws.  The run ends
    with status 1 and reports that filesystem error as an unexpected one;
    the error "Failed to write storage file" is never raised.  The storage
    file keeps its content only because the failed open did not touch it. *)
Theorem C4_restore_attempt_throws (platform : Platform) {json_text : JsonText}
    (p text a b c : string) (data out : json) (g : Rng) (w : World) :
  unwritable_file (CtbpR.getStorageFile platform) p
    (p +:+ ".backup_" +:+ timestamp w) text data w →
  fresh_ids (CtbpR.generateRandomHex 32) CtbpR.generateUUID (entropy w) = (a, b, c, g) →
  CtbpR.update_ids (nested_ids a b c) data = Ret out →
  ∃ msg w', CtbpR.main platform w = (Ret 1, w') ∧
            files w' !! p = Some text ∧
            cerr w' = cerr w ++ CtbpR_error_report (filesystem_error msg) ∧
            CtbpR_error_report (filesystem_error msg)
            ≠ CtbpR_error_report (CursorResetError "Failed to write storage file").
Proof.
  intros (Hloc & Hfile & Hparse & Hfree & Hread & Hmk & Hcopy & Hopen) Hids Hup.
  destruct (CtbpR_open_refused_run platform p text a b c data out g w
              Hloc Hfile Hparse Hfree Hread Hmk Hcopy Hopen Hids Hup)
    as (msg & w' & Hmain & Hfile' & Herr).
  exists msg, w'. split; [exact Hmain|]. split; [exact Hfile'|]. split; [exact Herr|].
  unfold CtbpR_error_report. intros Habs. discriminate Habs.
Qed.

Lemma C4_restore_attempt_throws_witness :
  ∃ msg w', CtbpR.main (json_text := reference_json) Linux unwritable_world = (Ret 1, w') ∧
            files w' !! linux_storage = Some "{}" ∧
            cerr w' = cerr unwritable_world ++ CtbpR_error_report (filesystem_error msg) ∧
            CtbpR_error_report (filesystem_error msg)
            ≠ CtbpR_error_report (CursorResetError "Failed to write storage file").
Proof.
  eapply (C4_restore_attempt_throws (json_text := reference_json) Linux linux_storage "{}"
            _ _ _ (JObj ∅) _ _ unwritable_world).
  - unfold unwritable_file. repeat split; vm_compute; reflexivity.
  - vm_compute. reflexivity.
  - vm_compute. reflexivity.
Defined.

(** The same run, evaluated. *)
Example CtbpR_unwritable_run :
  let r := CtbpR.main (json_text := reference_json) Linux unwritable_world in
  r.1 = Ret 1 ∧
  files r.2 !! linux_storage = Some "{}" ∧
  cerr r.2 =
    [ "❌ Unexpected error occurred: filesystem error: cannot copy file: file exists"
      +:+ endl;
      endl +:+ "For more details, check program output" +:+ endl ].
Proof. vm_compute. repeat split; reflexivity. Qed.

(** A full disk: the stream opens, the data does not arrive, nobody looks at
    the state of the stream, and the run reports success over an emptied
    file. *)
Example CtbpR_full_disk_run :
  let r := CtbpR.main (json_text := reference_json) Linux full_disk_world in
  r.1 = Ret 0 ∧ files r.2 !! linux_storage = Some "" ∧ cerr r.2 = [].
Proof. vm_compute. repeat split; reflexivity. Qed.




(** The defect of [ctbpR-2.cpp] that the amended claim leaves out: the
    missing-file run, evaluated.  It announces a new configuration and then
    fails on [value()]; no file is written. *)
Example CtbpR2_missing_file_example :
  let r := CtbpR2.main (json_text := reference_json) Linux linux_world in
  r.1 = Ret 0 ∧
  files r.2 !! linux_storage = None ∧
  cerr r.2 = CtbpR2_error_report (json_type_error 306).
Proof. vm_compute. repeat split; reflexivity. Qed.





(* ===================================================================== *)
(** * Further properties: generators *)
(* ===================================================================== *)

Lemma insert_draws_pattern (pat : list (ascii → bool)) (body : Rng → list ascii * Rng)
    (n : nat) (gen : Rng) :
  (∀ g, matches pat (body g).1 = true) →
  matches (concat (replicate n pat)) (insert_draws body n [] gen).1 = true.
Proof.
  intros Hbody. revert gen. induction n as [|n IH]; intros gen; [reflexivity|].
  cbn [insert_draws replicate concat].
  specialize (Hbody gen). destruct (body gen) as [field gen']. cbn [fst] in Hbody.
  rewrite insert_draws_app. cbn [fst app].
  apply matches_app; [exact Hbody | apply IH].
Qed.

(** X1.  [ctbpR.cpp], [generateRandomHex]: the result is made of pairs, and
    the first character of every pair is the fill character [0]: the draw,
    a value below sixteen, only ever fills the second place of its field. *)
Theorem X1_generateRandomHex_zero_padded (L : nat) (gen : Rng) :
  matches (zero_padded_pairs L) (chars (CtbpR.generateRandomHex L gen).1) = true.
Proof.
  unfold CtbpR.generateRandomHex, zero_padded_pairs.
  set (body := λ g : Rng,
         let (d, g') := uniform_int_distribution 0 15 g in
         (pad_left 2 "0" (hex_of_int d), g')).
  assert (∀ g, matches [is_char "0"; is_lower_hex] (body g).1 = true) as Hbody.
  { intros g. subst body. cbv beta.
    pose proof (uniform_int_distribution_range 0 15 g ltac:(lia)) as Hr.
    destruct (uniform_int_distribution 0 15 g) as [d g']. cbn [fst] in *.
    rewrite hex_of_int_nibble by lia. unfold pad_left. cbn.
    rewrite hex_digit_lower by lia. reflexivity. }
  pose proof (insert_draws_pattern _ body L gen Hbody) as Hall.
  destruct (insert_draws body L [] gen) as [ss gen']. cbn [fst] in *.
  rewrite chars_str. exact Hall.
Qed.

(** X2.  [ctbpR.cpp], [generateNewIds]: whatever the random source, the
    result is the object with exactly the keys [machineId], [macMachineId]
    and [devDeviceId]; the first two values are strings of 64 lowercase hex
    characters (32 draws, two characters each) and the third is a version-4
    UUID string.  The call changes nothing in the world but the random
    source. *)
Theorem X2_generateNewIds_shape (w : World) :
  ∃ a b c g,
    CtbpR.generateNewIds w = (Ret (nested_ids a b c), set_entropy g w) ∧
    String.length a = 64%nat ∧ forallb is_lower_hex (chars a) = true ∧
    String.length b = 64%nat ∧ forallb is_lower_hex (chars b) = true ∧
    matches uuid_v4_pattern (chars c) = true.
Proof.
  destruct (fresh_ids (CtbpR.generateRandomHex 32) CtbpR.generateUUID (entropy w))
    as [[[a b] c] g] eqn:Hids.
  exists a, b, c, g.
  split; [exact (CtbpR_generateNewIds_eq a b c g w Hids)|].
  apply fresh_ids_inv in Hids as (g1 & g2 & E1 & E2 & E3).
  pose proof (CtbpR_generateRandomHex_spec 32 (entropy w)) as [La Ha].
  pose proof (CtbpR_generateRandomHex_spec 32 g1) as [Lb Hb].
  pose proof (CtbpR_generateUUID_v4 g2) as Hc.
  rewrite E1 in La, Ha. rewrite E2 in Lb, Hb. rewrite E3 in Hc.
  cbn [fst] in *.
  split; [exact La|]. split; [exact Ha|]. split; [exact Lb|]. split; [exact Hb|].
  exact Hc.
Qed.






(* ===================================================================== *)
(** * Further properties: the mutators, document by document *)
(* ===================================================================== *)

(** X4.  After the update the three identifier fields hold the new values,
    as JSON strings: under the dotted keys in [ctbpR-2.cpp], [ctbpR-3.cpp]
    and [ctbpR-4.cpp], under the ["telemetry"] object in [ctbpR.cpp]. *)
Theorem X4_update_sets_identifier_fields (a b c : string) (data out : json) :
  (CtbpR3.update_ids a b c data = Ret out →
   member "telemetry.machineId" out = Some (JStr a) ∧
   member "telemetry.macMachineId" out = Some (JStr b) ∧
   member "telemetry.devDeviceId" out = Some (JStr c)) ∧
  (CtbpR4.update_ids a b c data = Ret out →
   member "telemetry.machineId" out = Some (JStr a) ∧
   member "telemetry.macMachineId" out = Some (JStr b) ∧
   member "telemetry.devDeviceId" out = Some (JStr c)) ∧
  (CtbpR2.update_ids a b c data = Ret out →
   member "telemetry.machineId" out = Some (JStr a) ∧
   member "telemetry.macMachineId" out = Some (JStr b) ∧
   member "telemetry.devDeviceId" out = Some (JStr c)) ∧
  (CtbpR.update_ids (nested_ids a b c) data = Ret out →
   member "machineId" (telemetry out) = Some (JStr a) ∧
   member "macMachineId" (telemetry out) = Some (JStr b) ∧
   member "devDeviceId" (telemetry out) = Some (JStr c)).
Proof.
  assert (∀ d o, CtbpR3.update_ids a b c d = Ret o →
            member "telemetry.machineId" o = Some (JStr a) ∧
            member "telemetry.macMachineId" o = Some (JStr b) ∧
            member "telemetry.devDeviceId" o = Some (JStr c)) as Hflat.
  { intros d o. unfold CtbpR3.update_ids.
    intros (d1 & H1 & (d2 & H2 & H3)%and_then_ret)%and_then_ret.
    apply subscript_assign_frame in H1 as [M1 _], H2 as [M2 F2], H3 as [M3 F3].
    split; [|split; [|exact M3]].
    - rewrite F3, F2 by discriminate. exact M1.
    - rewrite F3 by discriminate. exact M2. }
  split; [apply Hflat|]. split; [apply Hflat|]. split.
  - unfold CtbpR2.update_ids.
    intros (d1 & H1 & (d2 & H2 & (d3 & H3 & (d4 & H4 & (d5 & H5 & H6)
      %and_then_ret)%and_then_ret)%and_then_ret)%and_then_ret)%and_then_ret.
    apply subscript_assign_frame in H1 as [M1 _], H2 as [M2 F2], H3 as [M3 F3].
    apply erase_frame in H4 as [_ F4], H5 as [_ F5], H6 as [_ F6].
    split; [|split].
    + rewrite F6, F5, F4, F3, F2 by discriminate. exact M1.
    + rewrite F6, F5, F4, F3 by discriminate. exact M2.
    + rewrite F6, F5, F4 by discriminate. exact M3.
  - unfold CtbpR.update_ids.
    destruct (nested_ids_read a b c) as (-> & -> & ->).
    intros (d0 & _ & H)%and_then_ret. cbn [and_then] in H.
    apply and_then_ret in H as (d1 & H1 & H). cbn [and_then] in H.
    apply and_then_ret in H as (d2 & H2 & H3). cbn [and_then] in H3.
    revert H1 H2 H3.
    assert (∀ key v d o,
              subscript_modify "telemetry" (subscript_assign key v) d = Ret o →
              member key (telemetry o) = Some v ∧
              ∀ k, k ≠ key → member k (telemetry o) = member k (telemetry d)) as Hn.
    { intros key v d o Hm. split; [|by apply (nested_assign_frame key v d o Hm)].
      unfold subscript_modify, telemetry in *.
      destruct d as [| | | | | |m]; try discriminate.
      - cbn [subscript_assign subscript_modify] in Hm. injection Hm as <-.
        cbn [member]. rewrite lookup_singleton_eq. cbn [from_option id member].
        apply lookup_singleton_eq.
      - destruct (subscript_assign key v (default JNull (m !! "telemetry")))
          as [t'| |] eqn:Ht; try discriminate.
        injection Hm as <-. cbn [member]. rewrite lookup_insert_eq.
        cbn [from_option id]. exact (proj1 (subscript_assign_frame _ _ _ _ Ht)). }
    intros H1 H2 H3.
    apply Hn in H1 as [M1 _], H2 as [M2 F2], H3 as [M3 F3].
    split; [|split; [|exact M3]].
    + rewrite F3, F2 by discriminate. exact M1.
    + rewrite F3 by discriminate. exact M2.
Qed.

Lemma X4_update_sets_identifier_fields_witness :
  ∃ out, CtbpR3.update_ids "0a" "0b" "0c" example_document = Ret out ∧
         member "telemetry.machineId" out = Some (JStr "0a").
Proof.
  eexists. split; [reflexivity|].
  apply (proj1 (X4_update_sets_identifier_fields "0a" "0b" "0c" example_document _)).
  reflexivity.
Defined.

(** X5.  Which documents the flat mutators accept.  In [ctbpR-2.cpp],
    [ctbpR-3.cpp] and [ctbpR-4.cpp] the update goes through exactly on
    [null] and on objects; on an array, a number, a string or a boolean,
    [operator[]] throws [type_error.305] at the first assignment. *)
Theorem X5_flat_update_domain (a b c : string) (data : json) :
  if null_or_object data
  then (∃ out, CtbpR3.update_ids a b c data = Ret out) ∧
       (∃ out, CtbpR4.update_ids a b c data = Ret out) ∧
       (∃ out, CtbpR2.update_ids a b c data = Ret out)
  else CtbpR3.update_ids a b c data = Throw (json_type_error 305) ∧
       CtbpR4.update_ids a b c data = Throw (json_type_error 305) ∧
       CtbpR2.update_ids a b c data = Throw (json_type_error 305).
Proof.
  destruct data; cbn [null_or_object]; repeat split; try reflexivity;
    eexists; reflexivity.
Qed.

(** X6.  Which documents the nested mutator of [ctbpR.cpp] accepts: [null],
    and the objects whose ["telemetry"] value is missing, [null] or an
    object.  On an object whose ["telemetry"] value is anything else, and on
    a document that is neither [null] nor an object, [operator[]] throws
    [type_error.305]. *)
Theorem X6_nested_update_domain (a b c : string) (data : json) :
  match data with
  | JNull => ∃ out, CtbpR.update_ids (nested_ids a b c) data = Ret out
  | JObj m =>
      match m !! "telemetry" with
      | None | Some JNull | Some (JObj _) =>
          ∃ out, CtbpR.update_ids (nested_ids a b c) data = Ret out
      | Some _ => CtbpR.update_ids (nested_ids a b c) data = Throw (json_type_error 305)
      end
  | _ => CtbpR.update_ids (nested_ids a b c) data = Throw (json_type_error 305)
  end.
Proof.
  destruct data as [| | | | | |m]; try reflexivity.
  - eexists. apply CtbpR_update_ids_null.
  - destruct (m !! "telemetry") as [t|] eqn:Ht.
    + destruct t as [| | | | | |t];
        try (unfold CtbpR.update_ids; cbn [contains];
             rewrite bool_decide_eq_true_2 by (rewrite Ht; eauto);
             cbn [negb and_then];
             destruct (nested_ids_read a b c) as (-> & _); cbn [and_then];
             unfold subscript_modify; rewrite Ht; reflexivity).
      * apply (CtbpR_update_ids_total _ m). right. left. exact Ht.
      * apply (CtbpR_update_ids_total _ m). right. right. eauto.
    + apply (CtbpR_update_ids_total _ m). left. exact Ht.
Qed.

(** X7.  Running the flat update a second time with other values gives what
    a single update with those values gives: nothing of the first run is
    left behind ([ctbpR-2.cpp], [ctbpR-3.cpp], [ctbpR-4.cpp]). *)
Theorem X7_second_update_overrides (a b c a' b' c' : string) (data out : json) :
  (CtbpR3.update_ids a b c data = Ret out →
   CtbpR3.update_ids a' b' c' out = CtbpR3.update_ids a' b' c' data) ∧
  (CtbpR4.update_ids a b c data = Ret out →
   CtbpR4.update_ids a' b' c' out = CtbpR4.update_ids a' b' c' data) ∧
  (CtbpR2.update_ids a b c data = Ret out →
   CtbpR2.update_ids a' b' c' out = CtbpR2.update_ids a' b' c' data).
Proof.
  assert (∀ m : gmap string json,
            <["telemetry.devDeviceId":=JStr c']> (<["telemetry.macMachineId":=JStr b']>
              (<["telemetry.machineId":=JStr a']>
                (<["telemetry.devDeviceId":=JStr c]> (<["telemetry.macMachineId":=JStr b]>
                  (<["telemetry.machineId":=JStr a]> m)))))
            = <["telemetry.devDeviceId":=JStr c']> (<["telemetry.macMachineId":=JStr b']>
                (<["telemetry.machineId":=JStr a']> m))) as Hmaps.
  { intros m. apply map_eq. intros k.
    destruct (decide (k = "telemetry.devDeviceId")) as [->|K3];
      [by rewrite !lookup_insert_eq|].
    rewrite !(lookup_insert_ne _ "telemetry.devDeviceId" k) by done.
    destruct (decide (k = "telemetry.macMachineId")) as [->|K2];
      [by rewrite !lookup_insert_eq|].
    rewrite !(lookup_insert_ne _ "telemetry.macMachineId" k) by done.
    destruct (decide (k = "telemetry.machineId")) as [->|K1];
      [by rewrite !lookup_insert_eq|].
    rewrite !(lookup_insert_ne _ "telemetry.machineId" k) by done.
    rewrite !lookup_insert_ne by done. reflexivity. }
  assert (∀ d o, CtbpR3.update_ids a b c d = Ret o →
            CtbpR3.update_ids a' b' c' o = CtbpR3.update_ids a' b' c' d) as Hflat.
  { intros d o Hup. destruct d as [| | | | | |m]; try discriminate Hup.
    - rewrite CtbpR3_update_ids_null in Hup. injection Hup as <-.
      rewrite CtbpR3_update_ids_object, CtbpR3_update_ids_null.
      rewrite <- !insert_empty, Hmaps. reflexivity.
    - rewrite CtbpR3_update_ids_object in Hup. injection Hup as <-.
      rewrite !CtbpR3_update_ids_object, Hmaps. reflexivity. }
  split; [apply Hflat|]. split; [apply Hflat|].
  intros Hup. destruct data as [| | | | | |m]; try discriminate Hup.
  - vm_compute in Hup. injection Hup as <-. vm_compute. reflexivity.
  - rewrite CtbpR2_update_ids_object in Hup. injection Hup as <-.
    rewrite !CtbpR2_update_ids_object. f_equal. f_equal.
    apply map_eq. intros k.
    destruct (decide (k = "cursor.trialExpired")) as [->|T3];
      [by rewrite !lookup_delete_eq|].
    rewrite !(lookup_delete_ne _ "cursor.trialExpired" k) by done.
    destruct (decide (k = "cursor.trialReminderShown")) as [->|T2];
      [by rewrite !lookup_delete_eq|].
    rewrite !(lookup_delete_ne _ "cursor.trialReminderShown" k) by done.
    destruct (decide (k = "cursor.trialStartDate")) as [->|T1];
      [by rewrite !lookup_delete_eq|].
    rewrite !(lookup_delete_ne _ "cursor.trialStartDate" k) by done.
    destruct (decide (k = "telemetry.devDeviceId")) as [->|K3];
      [by rewrite !lookup_insert_eq|].
    rewrite !(lookup_insert_ne _ "telemetry.devDeviceId" k) by done.
    destruct (decide (k = "telemetry.macMachineId")) as [->|K2];
      [by rewrite !lookup_insert_eq|].
    rewrite !(lookup_insert_ne _ "telemetry.macMachineId" k) by done.
    destruct (decide (k = "telemetry.machineId")) as [->|K1];
      [by rewrite !lookup_insert_eq|].
    rewrite !(lookup_insert_ne _ "telemetry.machineId" k) by done.
    repeat first [rewrite lookup_insert_ne by done | rewrite lookup_delete_ne by done].
    reflexivity.
Qed.

Lemma X7_second_update_overrides_witness :
  ∃ out, CtbpR3.update_ids "0a" "0b" "0c" example_document = Ret out ∧
         CtbpR3.update_ids "1a" "1b" "1c" out
         = CtbpR3.update_ids "1a" "1b" "1c" example_document.
Proof.
  eexists. split; [reflexivity|].
  apply (proj1 (X7_second_update_overrides "0a" "0b" "0c" "1a" "1b" "1c"
                  example_document _)).
  reflexivity.
Defined.

(* ===================================================================== *)
(** * Further properties: the report of old values in ctbpR-2.cpp *)
(* ===================================================================== *)

Lemma value_object (key : string) (m : gmap string json) :
  value key "Not set" (JObj m)
  = if absent_or_string key m then Ret (reported_value key m)
    else Throw (json_type_error 302).
Proof.
  unfold value, absent_or_string, reported_value.
  destruct (m !! key) as [[]|]; reflexivity.
Qed.

(** X8.  [ctbpR-2.cpp], lines 101 to 105.  On an object whose three
    identifier fields are each absent or a string, the report of old values
    is, field by field, the string found or "Not set".  If one of the three
    fields holds anything but a string, [value()] throws [type_error.302];
    on a document that is not an object, [null] included, it throws
    [type_error.306]. *)
Theorem X8_original_ids (data : json) :
  match data with
  | JObj m =>
      if absent_or_string "telemetry.machineId" m
         && absent_or_string "telemetry.macMachineId" m
         && absent_or_string "telemetry.devDeviceId" m
      then CtbpR2.original_ids data
           = Ret [ ("machineId", reported_value "telemetry.machineId" m);
                   ("macMachineId", reported_value "telemetry.macMachineId" m);
                   ("devDeviceId", reported_value "telemetry.devDeviceId" m) ]
      else CtbpR2.original_ids data = Throw (json_type_error 302)
  | _ => CtbpR2.original_ids data = Throw (json_type_error 306)
  end.
Proof.
  destruct data as [| | | | | |m]; try reflexivity.
  unfold CtbpR2.original_ids. rewrite !value_object.
  destruct (absent_or_string "telemetry.machineId" m);
    destruct (absent_or_string "telemetry.macMachineId" m);
    destruct (absent_or_string "telemetry.devDeviceId" m); reflexivity.
Qed.

(* ===================================================================== *)
(** * Further properties: the paths the locators build *)
(* ===================================================================== *)

Lemma chars_append (p q : string) : chars (p +:+ q) = chars p ++ chars q.
Proof.
  induction p as [|ch p IH]; [reflexivity|].
  change (String ch p +:+ q) with (String ch (p +:+ q)).
  cbn [chars String.list_ascii_of_string]. unfold chars in IH. by rewrite IH.
Qed.

Lemma append_assoc (p q r : string) : (p +:+ q) +:+ r = p +:+ (q +:+ r).
Proof.
  induction p as [|ch p IH]; [reflexivity|].
  change (String ch p +:+ q) with (String ch (p +:+ q)).
  change (String ch (p +:+ q) +:+ r) with (String ch ((p +:+ q) +:+ r)).
  change (String ch p +:+ (q +:+ r)) with (String ch (p +:+ (q +:+ r))).
  by rewrite IH.
Qed.

(** Appending a component whose own last character is no separator. *)
Lemma path_append_separated (platform : Platform) (p q : string) (c : ascii) :
  last (chars p) = Some c →
  is_separator platform c = false →
  path_append platform p q = p +:+ String (preferred_separator platform) q.
Proof. intros Hl Hc. unfold path_append. by rewrite Hl, Hc. Qed.

Lemma path_append_joined (platform : Platform) (p q : string) (c : ascii) :
  last (chars p) = Some c →
  is_separator platform c = true →
  path_append platform p q = p +:+ q.
Proof. intros Hl Hc. unfold path_append. by rewrite Hl, Hc. Qed.

Lemma last_chars_append (p q : string) (c : ascii) :
  last (chars q) = Some c → last (chars (p +:+ q)) = Some c.
Proof.
  intros Hq. rewrite chars_append.
  destruct (chars q) as [|x l] eqn:Hl; [discriminate|].
  rewrite <- Hq. apply last_app_cons.
Qed.

Lemma path_append_empty (platform : Platform) (q : string) :
  path_append platform "" q = q.
Proof. reflexivity. Qed.

(** The path below a directory once its first component is in place. *)
Ltac append_components platform :=
  repeat (erewrite (path_append_separated platform (_ +:+ _));
          [|apply last_chars_append; reflexivity | reflexivity]);
  rewrite ?append_assoc; reflexivity.

(** The components below the directory, appended one by one: a separator
    goes after the directory unless its name is empty or ends with one. *)
Lemma components_appended (platform : Platform) (dir : string) :
  platform ≠ Unknown →
  match platform with
  | Darwin =>
      path_append platform (path_append platform (path_append platform
        (path_append platform (path_append platform (path_append platform dir
          "Library") "Application Support") "Cursor") "User") "globalStorage")
        "storage.json"
  | Linux =>
      path_append platform (path_append platform (path_append platform
        (path_append platform (path_append platform dir
          ".config") "Cursor") "User") "globalStorage") "storage.json"
  | _ =>
      path_append platform (path_append platform (path_append platform
        (path_append platform dir "Cursor") "User") "globalStorage") "storage.json"
  end = dir +:+ (if needs_separator platform dir then storage_suffix platform
                 else storage_suffix_bare platform).
Proof.
  intros Hknown. unfold needs_separator.
  destruct (last (chars dir)) as [c|] eqn:Hlast.
  - destruct (is_separator platform c) eqn:Hsep; cbn [negb].
    + destruct platform; [| | |done].
      * rewrite (path_append_joined Windows dir _ c Hlast Hsep).
        append_components Windows.
      * rewrite (path_append_joined Darwin dir _ c Hlast Hsep).
        append_components Darwin.
      * rewrite (path_append_joined Linux dir _ c Hlast Hsep).
        append_components Linux.
    + destruct platform; [| | |done].
      * rewrite (path_append_separated Windows dir _ c Hlast Hsep).
        append_components Windows.
      * rewrite (path_append_separated Darwin dir _ c Hlast Hsep).
        append_components Darwin.
      * rewrite (path_append_separated Linux dir _ c Hlast Hsep).
        append_components Linux.
  - assert (dir = "") as ->.
    { destruct dir as [|ch dir]; [done|]. exfalso.
      cbn [chars String.list_ascii_of_string] in Hlast.
      apply last_None in Hlast. discriminate Hlast. }
    destruct platform; [| | |done]; rewrite path_append_empty; reflexivity.
Qed.

(** X9.  On macOS and Linux, when [HOME] is set, the four locators return
    the same path and leave the world alone.  The path is the value of
    [HOME] followed by
    [/Library/Application Support/Cursor/User/globalStorage/storage.json] on
    macOS and by [/.config/Cursor/User/globalStorage/storage.json] on Linux;
    the leading separator is left out when the value is empty, which yields
    a relative path, or when it already ends with a separator. *)
Theorem X9_storage_path (platform : Platform) (dir : string) (w : World) :
  platform = Darwin ∨ platform = Linux →
  env w !! "HOME" = Some dir →
  CtbpR.getStorageFile platform w = (Ret (storage_path platform dir), w) ∧
  CtbpR2.get_storage_file platform w = (Ret (storage_path platform dir), w) ∧
  CtbpR3.getStorageFile platform w = (Ret (storage_path platform dir), w) ∧
  CtbpR4.get_storage_file platform w = (Ret (storage_path platform dir), w).
Proof.
  intros Hposix Henv.
  assert (platform ≠ Unknown) as Hknown by (destruct Hposix as [-> | ->]; discriminate).
  pose proof (components_appended platform dir Hknown) as Hpath.
  fold (storage_path platform dir) in Hpath.
  set (path := storage_path platform dir) in *. clearbody path.
  destruct Hposix as [-> | ->].
  - repeat split.
    + unfold CtbpR.getStorageFile. cbn [bind ret].
      rewrite bool_decide_eq_false_2, bool_decide_eq_true_2 by done.
      unfold bind, getenv, path_of. rewrite Henv. cbn [ret]. by rewrite Hpath.
    + unfold CtbpR2.get_storage_file.
      rewrite bool_decide_eq_false_2, bool_decide_eq_true_2 by done.
      unfold bind, getenv, path_of. rewrite Henv. unfold ret. by rewrite Hpath.
    + unfold CtbpR3.getStorageFile, bind, getenv, path_of. rewrite Henv. unfold ret.
      by rewrite Hpath.
    + unfold CtbpR4.get_storage_file, bind, getenv. rewrite Henv. unfold ret.
      by rewrite Hpath.
  - repeat split.
    + unfold CtbpR.getStorageFile. cbn [bind ret].
      rewrite !bool_decide_eq_false_2, bool_decide_eq_true_2 by done.
      unfold bind, getenv, path_of. rewrite Henv. cbn [ret]. by rewrite Hpath.
    + unfold CtbpR2.get_storage_file.
      rewrite !bool_decide_eq_false_2, bool_decide_eq_true_2 by done.
      unfold bind, getenv, path_of. rewrite Henv. unfold ret. by rewrite Hpath.
    + unfold CtbpR3.getStorageFile, bind, getenv, path_of. rewrite Henv. unfold ret.
      by rewrite Hpath.
    + unfold CtbpR4.get_storage_file, bind, getenv. rewrite Henv. unfold ret.
      by rewrite Hpath.
Qed.

Lemma X9_storage_path_witness :
  CtbpR.getStorageFile Linux linux_world
  = (Ret "/home/u/.config/Cursor/User/globalStorage/storage.json", linux_world).
Proof.
  apply (X9_storage_path Linux "/home/u" linux_world); [by right | reflexivity].
Defined.

(** X12.  When the variable the platform reads is not set, building a path
    from the null pointer [getenv] returns is undefined behaviour, and the
    variants differ in where they run into it: [ctbpR.cpp] on all three
    platforms it knows, [ctbpR-2.cpp] and [ctbpR-3.cpp] on macOS and Linux
    only, and in no other case; [ctbpR-4.cpp] tests every pointer, so its
    locator never does, and with the variable unset it returns the empty
    path. *)
Theorem X12_locator_null_pointer (platform : Platform) (w : World) :
  ((CtbpR.getStorageFile platform w).1 = Undefined ↔
   platform ≠ Unknown ∧ env w !! storage_variable platform = None) ∧
  ((CtbpR2.get_storage_file platform w).1 = Undefined ↔
   (platform = Darwin ∨ platform = Linux) ∧ env w !! "HOME" = None) ∧
  ((CtbpR3.getStorageFile platform w).1 = Undefined ↔
   (platform = Darwin ∨ platform = Linux) ∧ env w !! "HOME" = None) ∧
  (CtbpR4.get_storage_file platform w).1 ≠ Undefined ∧
  (platform ≠ Unknown → env w !! storage_variable platform = None →
   CtbpR4.get_storage_file platform w = (Ret "", w)).
Proof.
  unfold CtbpR.getStorageFile, CtbpR2.get_storage_file, CtbpR3.getStorageFile,
    CtbpR4.get_storage_file, storage_variable, bind, getenv, path_of, ret, throw,
    undefined_behaviour.
  destruct platform; cbn [fst bool_decide decide_rel];
    rewrite ?bool_decide_eq_false_2 by discriminate;
    rewrite ?bool_decide_eq_true_2 by reflexivity;
    destruct (env w !! "APPDATA"); destruct (env w !! "HOME"); cbn [fst];
    intuition (congruence || discriminate).
Qed.

(* ===================================================================== *)
(** * Further properties: what a run leaves alone *)
(* ===================================================================== *)

Section Confinement.
Context (allowed : string → Prop) (w0 : World).

Lemma preserved_refl (w : World) : preserved allowed w w.
Proof. repeat split; done. Qed.

Lemma preserved_trans (w1 w2 w3 : World) :
  preserved allowed w1 w2 → preserved allowed w2 w3 → preserved allowed w1 w3.
Proof.
  intros (E1 & T1 & R1 & S1 & F1 & D1 & O1 & X1) (E2 & T2 & R2 & S2 & F2 & D2 & O2 & X2).
  repeat split.
  - congruence.
  - congruence.
  - congruence.
  - congruence.
  - intros q Hq. rewrite (F2 q Hq). exact (F1 q Hq).
  - intros q Hq. exact (D2 q (D1 q Hq)).
  - by etrans.
  - by etrans.
Qed.

Lemma confined_ret {A} (a : A) : confined allowed w0 (ret a).
Proof. intros w _ _. apply preserved_refl. Qed.

Lemma confined_throw {A} (e : exn) : confined allowed w0 (throw (A:=A) e).
Proof. intros w _ _. apply preserved_refl. Qed.

Lemma confined_undefined {A} : confined allowed w0 (undefined_behaviour (A:=A)).
Proof. intros w _ _. apply preserved_refl. Qed.

Lemma confined_lift {A} (r : outcome A) : confined allowed w0 (lift r).
Proof. intros w _ _. apply preserved_refl. Qed.

Lemma confined_getenv (name : string) : confined allowed w0 (getenv name).
Proof. intros w _ _. apply preserved_refl. Qed.

Lemma confined_path_of (p : option string) : confined allowed w0 (path_of p).
Proof. destruct p; intros w _ _; apply preserved_refl. Qed.

Lemma confined_local_timestamp : confined allowed w0 local_timestamp.
Proof. intros w _ _. apply preserved_refl. Qed.

Lemma confined_exists (p : string) : confined allowed w0 (exists_ p).
Proof. intros w _ _. apply preserved_refl. Qed.

Lemma confined_ifstream (p : string) : confined allowed w0 (ifstream p).
Proof. intros w _ _. unfold ifstream. destruct (refused w OpenRead); apply preserved_refl. Qed.

Lemma confined_create_directories (p : string) :
  confined allowed w0 (create_directories p).
Proof.
  intros w _ _. unfold create_directories.
  destruct (refused w MkDirs); apply preserved_refl.
Qed.

Lemma confined_read_json {json_text : JsonText} (content : string) :
  confined allowed w0 (read_json content).
Proof. intros w _ _. unfold read_json. destruct (parse content); apply preserved_refl. Qed.

Lemma confined_draw {A} (f : Rng → A * Rng) : confined allowed w0 (draw f).
Proof.
  intros w _ _. unfold draw. destruct (f (entropy w)) as [a g].
  repeat split; done.
Qed.

Lemma confined_print (line : string) : confined allowed w0 (print line).
Proof.
  intros w _ _. repeat split; try done. cbn. by apply prefix_app_r.
Qed.

Lemma confined_eprint (line : string) : confined allowed w0 (eprint line).
Proof.
  intros w _ _. repeat split; try done. cbn. by apply prefix_app_r.
Qed.

(** Writing the file [p] is allowed when [p] is. *)
Lemma preserved_write (p : string) (f : gmap string string → string) (w : World) :
  allowed p → preserved allowed w (set_files (λ fs, <[ p := f fs ]> fs) w).
Proof.
  intros Hp. repeat split; try done.
  - intros q Hq. cbn. apply lookup_insert_ne. intros ->. by apply Hq.
  - intros q Hq. cbn. destruct (decide (p = q)) as [->|Hne].
    + rewrite lookup_insert_eq. by eexists.
    + by rewrite lookup_insert_ne.
Qed.

Lemma confined_copy_file (site : io_site) (from to : string) (overwrite : bool) :
  allowed to → confined allowed w0 (copy_file site from to overwrite).
Proof.
  intros Hto w _ _. unfold copy_file.
  destruct (refused w site); [apply preserved_refl|].
  destruct (files w !! from) as [content|]; [|apply preserved_refl].
  destruct (bool_decide (is_Some (files w !! to)) && negb overwrite);
    [apply preserved_refl|].
  exact (preserved_write to (λ _, content) w Hto).
Qed.

Lemma confined_ofstream (p : string) : allowed p → confined allowed w0 (ofstream p).
Proof.
  intros Hp w _ _. unfold ofstream.
  destruct (refused w OpenWrite); [apply preserved_refl|].
  exact (preserved_write p (λ _, "") w Hp).
Qed.

Lemma confined_insert_text (p : string) (is_open : bool) (text : string) :
  allowed p → confined allowed w0 (insert_text p is_open text).
Proof.
  intros Hp w _ _. unfold insert_text.
  destruct is_open; [|apply preserved_refl].
  exact (preserved_write p _ w Hp).
Qed.

Lemma confined_bind {A B} (m : M A) (k : A → M B) :
  confined allowed w0 m → (∀ a, confined allowed w0 (k a)) →
  confined allowed w0 (bind m k).
Proof.
  intros Hm Hk w He Hw. specialize (Hm w He Hw). unfold bind.
  destruct (m w) as [[a|e|] w1]; cbn [snd] in *; try exact Hm.
  apply (preserved_trans w w1); [exact Hm|].
  destruct Hm as (He1 & Hw1 & _). apply Hk; congruence.
Qed.

Lemma confined_try_catch {A} (body : M A) (handler : exn → M A) :
  confined allowed w0 body → (∀ e, confined allowed w0 (handler e)) →
  confined allowed w0 (try_catch body handler).
Proof.
  intros Hm Hk w He Hw. specialize (Hm w He Hw). unfold try_catch.
  destruct (body w) as [[a|e|] w1]; cbn [snd] in *; try exact Hm.
  apply (preserved_trans w w1); [exact Hm|].
  destruct Hm as (He1 & Hw1 & _). apply Hk; congruence.
Qed.

(** The time stamp a computation reads is that of the reference world. *)
Lemma confined_with_timestamp {A} (k : string → M A) :
  confined allowed w0 (k (timestamp w0)) →
  confined allowed w0 (bind local_timestamp k).
Proof.
  intros Hk w He Hw. unfold bind, local_timestamp. rewrite Hw. by apply Hk.
Qed.

(** So is the path a locator returns. *)
Lemma confined_after_locator {A} (locator : M string) (k : string → M A) :
  reads_env_only locator →
  confined allowed w0 locator →
  (∀ p, (locator w0).1 = Ret p → confined allowed w0 (k p)) →
  confined allowed w0 (bind locator k).
Proof.
  intros Hreads Hl Hk w He Hw.
  destruct (Hreads w w0) as [Hsame Hkeeps]; [by rewrite He..|].
  specialize (Hl w He Hw). unfold bind.
  destruct (locator w) as [[p|e|] w1] eqn:Hrun; cbn [fst snd] in *; try exact Hl.
  rewrite Hkeeps in Hl |- * by done. by apply Hk.
Qed.

End Confinement.

(** One step of a confinement proof: the shape of the computation picks the
    lemma, a [match] or [if] is split on what it inspects. *)
Ltac confine_step :=
  cbv beta zeta;
  lazymatch goal with
  | |- confined _ _ (bind local_timestamp _) => apply confined_with_timestamp
  | |- confined _ _ (bind _ _) => apply confined_bind; [|intros ?]
  | |- confined _ _ (try_catch _ _) => apply confined_try_catch; [|intros ?]
  | |- confined _ _ (ret _) => apply confined_ret
  | |- confined _ _ (throw _) => apply confined_throw
  | |- confined _ _ undefined_behaviour => apply confined_undefined
  | |- confined _ _ (lift _) => apply confined_lift
  | |- confined _ _ (getenv _) => apply confined_getenv
  | |- confined _ _ (path_of _) => apply confined_path_of
  | |- confined _ _ local_timestamp => apply confined_local_timestamp
  | |- confined _ _ (exists_ _) => apply confined_exists
  | |- confined _ _ (ifstream _) => apply confined_ifstream
  | |- confined _ _ (create_directories _) => apply confined_create_directories
  | |- confined _ _ (read_json _) => apply confined_read_json
  | |- confined _ _ (draw _) => apply confined_draw
  | |- confined _ _ (print _) => apply confined_print
  | |- confined _ _ (eprint _) => apply confined_eprint
  | |- confined _ _ (copy_file _ _ _ _) => apply confined_copy_file
  | |- confined _ _ (ofstream _) => apply confined_ofstream
  | |- confined _ _ (insert_text _ _ _) => apply confined_insert_text
  | |- confined _ _ (if ?b then _ else _) => destruct b
  | |- confined _ _ (match ?x with _ => _ end) => destruct x
  end.

Section ConfinedPrograms.
Context (platform : Platform) {json_text : JsonText} (w0 : World).

Lemma CtbpR_getStorageFile_confined (allowed : string → Prop) :
  confined allowed w0 (CtbpR.getStorageFile platform).
Proof. unfold CtbpR.getStorageFile. repeat confine_step. Qed.

Lemma CtbpR2_get_storage_file_confined (allowed : string → Prop) :
  confined allowed w0 (CtbpR2.get_storage_file platform).
Proof. unfold CtbpR2.get_storage_file. repeat confine_step. Qed.

Lemma CtbpR3_getStorageFile_confined (allowed : string → Prop) :
  confined allowed w0 (CtbpR3.getStorageFile platform).
Proof. unfold CtbpR3.getStorageFile. repeat confine_step. Qed.

Lemma CtbpR4_get_storage_file_confined (allowed : string → Prop) :
  confined allowed w0 (CtbpR4.get_storage_file platform).
Proof. unfold CtbpR4.get_storage_file. repeat confine_step. Qed.

(** The files a run of each variant may write, given where its locator
    points in [w0]. *)
Lemma CtbpR_main_confined :
  confined (λ q, ∃ p, (CtbpR.getStorageFile platform w0).1 = Ret p ∧
                      storage_or_backup p (timestamp w0) q)
           w0 (CtbpR.main platform).
Proof.
  unfold CtbpR.main, CtbpR.resetCursorId, CtbpR.resetCursorId_body.
  do 2 (apply confined_bind; [apply confined_print|intros _]).
  apply confined_try_catch; [|intros e; repeat confine_step].
  apply confined_bind; [|intros _; apply confined_ret].
  apply confined_try_catch; [|intros e; repeat confine_step].
  apply confined_after_locator;
    [apply CtbpR_getStorageFile_reads_env_only
    |apply CtbpR_getStorageFile_confined|].
  intros p Hp.
  unfold CtbpR.backupFile, CtbpR.load, CtbpR.generateNewIds, CtbpR.persist.
  repeat confine_step; exists p; (split; [exact Hp|]); first [by left|by right].
Qed.

Lemma CtbpR2_main_confined :
  confined (λ q, ∃ p, (CtbpR2.get_storage_file platform w0).1 = Ret p ∧
                      storage_or_backup p (timestamp w0) q)
           w0 (CtbpR2.main platform).
Proof.
  unfold CtbpR2.main, CtbpR2.reset_cursor_id, CtbpR2.reset_cursor_id_body.
  apply confined_bind; [|intros _; apply confined_ret].
  apply confined_try_catch; [|intros e; repeat confine_step].
  apply confined_after_locator;
    [apply CtbpR2_get_storage_file_reads_env_only
    |apply CtbpR2_get_storage_file_confined|].
  intros p Hp.
  unfold CtbpR2.backup_file, CtbpR2.load.
  repeat confine_step; exists p; (split; [exact Hp|]); first [by left|by right].
Qed.

Lemma CtbpR3_main_confined :
  confined (λ q, ∃ p, (CtbpR3.getStorageFile platform w0).1 = Ret p ∧
                      storage_or_backup3 platform p (timestamp w0) q)
           w0 (CtbpR3.main platform).
Proof.
  unfold CtbpR3.main, CtbpR3.resetCursorID, CtbpR3.resetCursorID_body.
  apply confined_bind; [|intros _; apply confined_ret].
  apply confined_try_catch; [|intros e; repeat confine_step].
  apply confined_after_locator;
    [apply CtbpR3_getStorageFile_reads_env_only
    |apply CtbpR3_getStorageFile_confined|].
  intros p Hp.
  unfold CtbpR3.backupFile, CtbpR3.load.
  repeat confine_step; exists p; (split; [exact Hp|]); first [by left|by right].
Qed.

Lemma CtbpR4_main_confined :
  confined (λ q, ∃ p, (CtbpR4.get_storage_file platform w0).1 = Ret p ∧
                      storage_or_backup p (timestamp w0) q)
           w0 (CtbpR4.main platform).
Proof.
  unfold CtbpR4.main, CtbpR4.reset_cursor_id.
  apply confined_try_catch; [|intros e; repeat confine_step].
  apply confined_bind; [|intros _; apply confined_ret].
  apply confined_after_locator;
    [apply CtbpR4_get_storage_file_reads_env_only
    |apply CtbpR4_get_storage_file_confined|].
  intros p Hp.
  unfold CtbpR4.backup_file, CtbpR4.load.
  repeat confine_step; exists p; (split; [exact Hp|]); first [by left|by right].
Qed.

End ConfinedPrograms.

(** X10.  Whatever the world, the platform and the JSON library, a run of
    [main], up to its end or to the point where it builds a path from a
    null pointer, writes to at most two files: the storage file its locator
    returns and the backup named after it for the current second.  Every
    other file keeps its content, no file is removed, the environment is left
    as it was, and the two output streams are only appended to.  When the
    locator returns no path, no file changes at all.  In [ctbpR.cpp],
    [ctbpR-2.cpp] and [ctbpR-4.cpp] the backup is the storage path followed
    by [.backup_] and the time stamp; in [ctbpR-3.cpp] it is
    [storage.json.backup_] and the time stamp in the parent directory. *)
Theorem X10_run_writes_storage_and_backup_only
    (platform : Platform) {json_text : JsonText} (w : World) :
  preserved (λ q, ∃ p, (CtbpR.getStorageFile platform w).1 = Ret p ∧
                       storage_or_backup p (timestamp w) q)
            w (CtbpR.main platform w).2 ∧
  preserved (λ q, ∃ p, (CtbpR2.get_storage_file platform w).1 = Ret p ∧
                       storage_or_backup p (timestamp w) q)
            w (CtbpR2.main platform w).2 ∧
  preserved (λ q, ∃ p, (CtbpR3.getStorageFile platform w).1 = Ret p ∧
                       storage_or_backup3 platform p (timestamp w) q)
            w (CtbpR3.main platform w).2 ∧
  preserved (λ q, ∃ p, (CtbpR4.get_storage_file platform w).1 = Ret p ∧
                       storage_or_backup p (timestamp w) q)
            w (CtbpR4.main platform w).2.
Proof.
  split; [by apply CtbpR_main_confined|].
  split; [by apply CtbpR2_main_confined|].
  split; [by apply CtbpR3_main_confined|].
  by apply CtbpR4_main_confined.
Qed.

(* ===================================================================== *)
(** * Further properties: a platform none of the variants knows *)
(* ===================================================================== *)

(** X11.  On a platform that is neither Windows, macOS nor Linux,
    [ctbpR-2.cpp], [ctbpR-3.cpp] and [ctbpR-4.cpp] give up before they touch
    anything: no file is created or changed, standard error receives the
    report of the exception "Unsupported operating system" (in [ctbpR-2.cpp]
    followed by the name the platform macro chain produced, [Unknown]), and
    the exit status is 1 in [ctbpR-4.cpp] and 0 in [ctbpR-2.cpp] and
    [ctbpR-3.cpp]. *)
Theorem X11_unsupported_platform {json_text : JsonText} (w : World) :
  (CtbpR4.main Unknown w).1 = Ret 1 ∧
  files (CtbpR4.main Unknown w).2 = files w ∧
  cerr (CtbpR4.main Unknown w).2
  = cerr w ++ ["Error: Unsupported operating system" +:+ endl] ∧
  (CtbpR2.main Unknown w).1 = Ret 0 ∧
  files (CtbpR2.main Unknown w).2 = files w ∧
  cerr (CtbpR2.main Unknown w).2
  = cerr w ++ CtbpR2_error_report (runtime_error "Unsupported operating system: Unknown") ∧
  (CtbpR3.main Unknown w).1 = Ret 0 ∧
  files (CtbpR3.main Unknown w).2 = files w ∧
  cerr (CtbpR3.main Unknown w).2
  = cerr w ++ ["❌ An error occurred: Unsupported operating system" +:+ endl].
Proof.
  assert (CtbpR2.main Unknown w
          = (Ret 0,
             add_cerr ("Please check the script and try again." +:+ endl)
               (add_cerr (endl +:+ "❌ Error: Unsupported operating system: Unknown" +:+ endl)
                  (add_cerr ("Error resetting Cursor IDs: Unsupported operating system: Unknown"
                             +:+ endl) w)))) as -> by reflexivity.
  repeat split; try reflexivity.
  all: cbn; rewrite <- ?app_assoc; reflexivity.
Qed.

(* ===================================================================== *)
(** * Further properties: what the backup leaves behind *)
(* ===================================================================== *)

Lemma CtbpR3_backupFile_fresh (platform : Platform) (p text : string) (w : World) :
  files w !! p = Some text →
  files w !! (path_append platform (parent_path platform p)
                ("storage.json.backup_" +:+ timestamp w)) = None →
  refused w BackupCopy = false →
  CtbpR3.backupFile platform p w
  = (Ret tt, set_files <[ path_append platform (parent_path platform p)
                            ("storage.json.backup_" +:+ timestamp w) := text ]> w).
Proof.
  intros Hp Hfree Hr. unfold CtbpR3.backupFile.
  rewrite (bind_ret_eq _ _ _ _ _ (exists_present p text w Hp)).
  unfold bind at 1, local_timestamp.
  exact (copy_file_fresh _ _ _ text false w Hr Hp Hfree).
Qed.

Lemma CtbpR3_backupFile_missing (platform : Platform) (p : string) (w : World) :
  files w !! p = None → CtbpR3.backupFile platform p w = (Ret tt, w).
Proof.
  intros Hp. unfold CtbpR3.backupFile.
  by rewrite (bind_ret_eq _ _ _ _ _ (exists_absent p w Hp)).
Qed.

Lemma CtbpR2_backup_file_copies (p text : string) (w : World) :
  files w !! p = Some text →
  refused w BackupCopy = false →
  CtbpR2.backup_file p w
  = (Ret (p +:+ ".backup_" +:+ timestamp w),
     add_cout ("Backup created at: " +:+ quoted (p +:+ ".backup_" +:+ timestamp w) +:+ endl)
       (set_files <[ p +:+ ".backup_" +:+ timestamp w := text ]> w)).
Proof.
  intros Hp Hr. unfold CtbpR2.backup_file.
  rewrite (bind_ret_eq _ _ _ _ _ (exists_present p text w Hp)).
  unfold bind at 1, local_timestamp.
  rewrite (bind_ret_eq _ _ _ _ _ (copy_file_overwrite _ _ _ text w Hr Hp)).
  reflexivity.
Qed.

(** X13.  With a storage file in place and the copy granted, the backup
    function of every variant leaves a file that holds the content of the
    storage file under the derived name, and changes no other file, the
    storage file included.  [ctbpR.cpp] and [ctbpR-3.cpp] need the derived
    name to be free; [ctbpR-2.cpp] and [ctbpR-4.cpp] do not.  [ctbpR.cpp] and
    [ctbpR-2.cpp] return the name of the backup. *)
Theorem X13_backup_holds_original
    (platform : Platform) (p text : string) (w : World) :
  files w !! p = Some text →
  refused w BackupCopy = false →
  let name := p +:+ ".backup_" +:+ timestamp w in
  let name3 := path_append platform (parent_path platform p)
                 ("storage.json.backup_" +:+ timestamp w) in
  name ≠ p ∧
  (files w !! name = None →
   (CtbpR.backupFile p w).1 = Ret name ∧
   files (CtbpR.backupFile p w).2 = <[ name := text ]> (files w)) ∧
  (files w !! name3 = None →
   name3 ≠ p ∧
   (CtbpR3.backupFile platform p w).1 = Ret tt ∧
   files (CtbpR3.backupFile platform p w).2 = <[ name3 := text ]> (files w)) ∧
  ((CtbpR2.backup_file p w).1 = Ret name ∧
   files (CtbpR2.backup_file p w).2 = <[ name := text ]> (files w)) ∧
  ((CtbpR4.backup_file p w).1 = Ret tt ∧
   files (CtbpR4.backup_file p w).2 = <[ name := text ]> (files w)).
Proof.
  intros Hp Hr name name3.
  split; [exact (backup_name_differs _ _)|].
  split; [|split; [|split]].
  - intros Hfree. by rewrite (CtbpR_backupFile_fresh p text w Hp Hfree Hr).
  - intros Hfree. split; [intros Heq; rewrite Heq in Hfree; congruence|].
    by rewrite (CtbpR3_backupFile_fresh platform p text w Hp Hfree Hr).
  - by rewrite (CtbpR2_backup_file_copies p text w Hp Hr).
  - by rewrite (CtbpR4_backup_file_existing p text w Hr Hp).
Qed.

Lemma X13_backup_holds_original_witness :
  files (CtbpR4.backup_file linux_storage (with_file linux_storage "{}" linux_world)).2
  = <[ linux_backup := "{}" ]> (files (with_file linux_storage "{}" linux_world)).
Proof.
  apply (X13_backup_holds_original Linux linux_storage "{}"
           (with_file linux_storage "{}" linux_world)); reflexivity.
Defined.


(* ===================================================================== *)
(** * Further properties: a run that is stopped before the load *)
(* ===================================================================== *)

Section EarlyRefusal.
Context (platform : Platform) {json_text : JsonText}.

(** What the directory creation and the backup throw when the system
    refuses one of them; [backup] is the backup function at the storage
    path. *)
Lemma prepare_refused {A} (backup : M A) (dir p text : string) (w : World) :
  (∀ w0, files w0 !! p = Some text → refused w0 BackupCopy = true →
         backup w0 = (Throw (filesystem_error "cannot copy file"), w0)) →
  refused w MkDirs = true ∨ (files w !! p = Some text ∧ refused w BackupCopy = true) →
  (create_directories dir;; backup) w = (Throw (early_refusal w), w).
Proof.
  intros Hbackup Hrefused. unfold early_refusal, bind, create_directories.
  destruct (refused w MkDirs); [reflexivity|].
  destruct Hrefused as [?|[Hfile Hcopy]]; [discriminate|].
  exact (Hbackup w Hfile Hcopy).
Qed.

Lemma CtbpR_backupFile_refused (p text : string) (w : World) :
  files w !! p = Some text → refused w BackupCopy = true →
  CtbpR.backupFile p w = (Throw (filesystem_error "cannot copy file"), w).
Proof.
  intros Hp Hr. unfold CtbpR.backupFile.
  rewrite (bind_ret_eq _ _ _ _ _ (exists_present p text w Hp)). cbn [negb].
  unfold bind at 1, local_timestamp.
  apply bind_throw_eq. by apply copy_file_refused.
Qed.

Lemma CtbpR2_backup_file_refused (p text : string) (w : World) :
  files w !! p = Some text → refused w BackupCopy = true →
  CtbpR2.backup_file p w = (Throw (filesystem_error "cannot copy file"), w).
Proof.
  intros Hp Hr. unfold CtbpR2.backup_file.
  rewrite (bind_ret_eq _ _ _ _ _ (exists_present p text w Hp)).
  unfold bind at 1, local_timestamp.
  apply bind_throw_eq. by apply copy_file_refused.
Qed.

Lemma CtbpR3_backupFile_refused (p text : string) (w : World) :
  files w !! p = Some text → refused w BackupCopy = true →
  CtbpR3.backupFile platform p w = (Throw (filesystem_error "cannot copy file"), w).
Proof.
  intros Hp Hr. unfold CtbpR3.backupFile.
  rewrite (bind_ret_eq _ _ _ _ _ (exists_present p text w Hp)).
  unfold bind at 1, local_timestamp. by apply copy_file_refused.
Qed.

Lemma CtbpR4_backup_file_refused (p text : string) (w : World) :
  files w !! p = Some text → refused w BackupCopy = true →
  CtbpR4.backup_file p w = (Throw (filesystem_error "cannot copy file"), w).
Proof.
  intros Hp Hr. unfold CtbpR4.backup_file.
  rewrite (bind_ret_eq _ _ _ _ _ (exists_present p text w Hp)).
  unfold bind at 1, local_timestamp. by apply copy_file_refused.
Qed.

(** A sequence whose first two steps throw. *)
Lemma prepare_throws {A B} (mkdirs : M unit) (backup : M A) (k : A → M B)
    (w w1 : World) (e : exn) :
  (mkdirs;; backup) w = (Throw e, w1) →
  (mkdirs;; do x <- backup; k x) w = (Throw e, w1).
Proof.
  unfold bind. destruct (mkdirs w) as [[[]| |] w0]; [|intros [= -> ->]; reflexivity|intros [=]].
  destruct (backup w0) as [[x| |] w2]; [intros [=]|intros [= -> ->]; reflexivity|intros [=]].
Qed.

Lemma CtbpR_body_early_refusal (p text : string) (w : World) :
  (CtbpR.getStorageFile platform w).1 = Ret p →
  refused w MkDirs = true ∨ (files w !! p = Some text ∧ refused w BackupCopy = true) →
  CtbpR.resetCursorId_body platform w
  = (Throw (early_refusal w),
     add_cout ("Targeting storage file: " +:+ quoted p +:+ endl) w).
Proof.
  intros Hloc Hrefused.
  apply (locator_returns _ _ _ (CtbpR_getStorageFile_reads_env_only platform)) in Hloc.
  unfold CtbpR.resetCursorId_body.
  rewrite (bind_ret_eq _ _ _ _ _ Hloc).
  unfold bind at 1, print at 1.
  apply prepare_throws.
  exact (prepare_refused (CtbpR.backupFile p) _ p text
           (add_cout ("Targeting storage file: " +:+ quoted p +:+ endl) w)
           (CtbpR_backupFile_refused p text) Hrefused).
Qed.

Lemma CtbpR2_body_early_refusal (p text : string) (w : World) :
  (CtbpR2.get_storage_file platform w).1 = Ret p →
  refused w MkDirs = true ∨ (files w !! p = Some text ∧ refused w BackupCopy = true) →
  CtbpR2.reset_cursor_id_body platform w = (Throw (early_refusal w), w).
Proof.
  intros Hloc Hrefused.
  apply (locator_returns _ _ _ (CtbpR2_get_storage_file_reads_env_only platform)) in Hloc.
  unfold CtbpR2.reset_cursor_id_body.
  rewrite (bind_ret_eq _ _ _ _ _ Hloc).
  apply prepare_throws.
  exact (prepare_refused (CtbpR2.backup_file p) _ p text _
           (CtbpR2_backup_file_refused p text) Hrefused).
Qed.

Lemma CtbpR3_body_early_refusal (p text : string) (w : World) :
  (CtbpR3.getStorageFile platform w).1 = Ret p →
  refused w MkDirs = true ∨ (files w !! p = Some text ∧ refused w BackupCopy = true) →
  CtbpR3.resetCursorID_body platform w = (Throw (early_refusal w), w).
Proof.
  intros Hloc Hrefused.
  apply (locator_returns _ _ _ (CtbpR3_getStorageFile_reads_env_only platform)) in Hloc.
  unfold CtbpR3.resetCursorID_body.
  rewrite (bind_ret_eq _ _ _ _ _ Hloc).
  apply prepare_throws.
  exact (prepare_refused (CtbpR3.backupFile platform p) _ p text _
           (CtbpR3_backupFile_refused p text) Hrefused).
Qed.

Lemma CtbpR4_reset_early_refusal (p text : string) (w : World) :
  (CtbpR4.get_storage_file platform w).1 = Ret p →
  refused w MkDirs = true ∨ (files w !! p = Some text ∧ refused w BackupCopy = true) →
  CtbpR4.reset_cursor_id platform w = (Throw (early_refusal w), w).
Proof.
  intros Hloc Hrefused.
  apply (locator_returns _ _ _ (CtbpR4_get_storage_file_reads_env_only platform)) in Hloc.
  unfold CtbpR4.reset_cursor_id.
  rewrite (bind_ret_eq _ _ _ _ _ Hloc).
  apply prepare_throws.
  exact (prepare_refused (CtbpR4.backup_file p) _ p text _
           (CtbpR4_backup_file_refused p text) Hrefused).
Qed.

End EarlyRefusal.

(** X14.  When the system refuses to create the directories, or, with a
    storage file in place, refuses the backup copy, every variant stops
    before it has read or written anything: the files are all as they were,
    the filesystem error is reported on [std::cerr], and the exit status is
    1 in [ctbpR.cpp] and [ctbpR-4.cpp] and 0 in [ctbpR-2.cpp] and
    [ctbpR-3.cpp].  No variant goes on without its backup. *)
Theorem X14_no_backup_no_reset (platform : Platform) {json_text : JsonText}
    (p text : string) (w : World) :
  refused w MkDirs = true ∨ (files w !! p = Some text ∧ refused w BackupCopy = true) →
  ((CtbpR.getStorageFile platform w).1 = Ret p →
   (CtbpR.main platform w).1 = Ret 1 ∧
   files (CtbpR.main platform w).2 = files w ∧
   cerr (CtbpR.main platform w).2 = cerr w ++ CtbpR_error_report (early_refusal w)) ∧
  ((CtbpR4.get_storage_file platform w).1 = Ret p →
   (CtbpR4.main platform w).1 = Ret 1 ∧
   files (CtbpR4.main platform w).2 = files w ∧
   cerr (CtbpR4.main platform w).2
   = cerr w ++ ["Error: " +:+ what (early_refusal w) +:+ endl]) ∧
  ((CtbpR2.get_storage_file platform w).1 = Ret p →
   (CtbpR2.main platform w).1 = Ret 0 ∧
   files (CtbpR2.main platform w).2 = files w ∧
   cerr (CtbpR2.main platform w).2 = cerr w ++ CtbpR2_error_report (early_refusal w)) ∧
  ((CtbpR3.getStorageFile platform w).1 = Ret p →
   (CtbpR3.main platform w).1 = Ret 0 ∧
   files (CtbpR3.main platform w).2 = files w ∧
   cerr (CtbpR3.main platform w).2
   = cerr w ++ ["❌ An error occurred: " +:+ what (early_refusal w) +:+ endl]).
Proof.
  intros Hrefused. split; [|split; [|split]]; intros Hloc.
  - apply CtbpR_locator_after_banner in Hloc.
    pose proof (CtbpR_body_early_refusal platform p text (after_banner w) Hloc Hrefused)
      as Hbody.
    destruct (CtbpR_main_throw platform w _ _ Hbody) as (w' & -> & Hfiles & _ & Herr).
    cbn [fst snd]. rewrite Hfiles, Herr. done.
  - rewrite (CtbpR4_main_throw platform w w _
               (CtbpR4_reset_early_refusal platform p text w Hloc Hrefused)).
    done.
  - destruct (CtbpR2_main_throw platform w w _
                (CtbpR2_body_early_refusal platform p text w Hloc Hrefused))
      as (w' & -> & Hfiles & Herr).
    cbn [fst snd]. rewrite Hfiles, Herr. done.
  - rewrite (CtbpR3_main_throw platform w w _
               (CtbpR3_body_early_refusal platform p text w Hloc Hrefused)).
    done.
Qed.

Lemma X14_no_backup_no_reset_witness :
  let w := refusing BackupCopy (with_file linux_storage "{}" linux_world) in
  (CtbpR.main (json_text := reference_json) Linux w).1 = Ret 1 ∧
  files (CtbpR.main (json_text := reference_json) Linux w).2 = files w ∧
  cerr (CtbpR.main (json_text := reference_json) Linux w).2
  = cerr w ++ CtbpR_error_report (early_refusal w).
Proof.
  apply (X14_no_backup_no_reset (json_text := reference_json) Linux linux_storage "{}"
           (refusing BackupCopy (with_file linux_storage "{}" linux_world))).
  - right. split; reflexivity.
  - reflexivity.
Defined.

(* ===================================================================== *)
(** * Further properties: the reset of an existing storage file *)
(* ===================================================================== *)

(** The files after a backup under [name] and a rewrite of [p]. *)
Lemma files_after_reset (p name text new : string) (fs fs' : gmap string string) :
  fs' !! p = Some new →
  (∀ q, q ≠ p → fs' !! q = (<[ name := text ]> fs) !! q) →
  fs' = <[ p := new ]> (<[ name := text ]> fs).
Proof.
  intros Hp Hother. apply map_eq. intros q.
  destruct (decide (q = p)) as [->|Hne].
  - by rewrite lookup_insert_eq.
  - rewrite lookup_insert_ne by done. by apply Hother.
Qed.

(** X15.  [ctbpR.cpp] on a storage file that holds a JSON document, with
    nothing refused and the backup name free: the run ends with status 0 and
    without a word on [std::cerr]; the backup holds the old text; the storage
    file holds the serialisation, followed by a newline, of the old document
    with the three fresh identifiers under ["telemetry"]; no other file has
    changed; and the last thing on [std::cout] is the object of the new
    identifiers. *)
Theorem X15_ctbpR_resets_existing_file (platform : Platform) {json_text : JsonText}
    (p text a b c : string) (data out : json) (g : Rng) (w : World) :
  (CtbpR.getStorageFile platform w).1 = Ret p →
  files w !! p = Some text →
  parse text = Some data →
  files w !! (p +:+ ".backup_" +:+ timestamp w) = None →
  (∀ site, refused w site = false) →
  fresh_ids (CtbpR.generateRandomHex 32) CtbpR.generateUUID (entropy w) = (a, b, c, g) →
  CtbpR.update_ids (nested_ids a b c) data = Ret out →
  (CtbpR.main platform w).1 = Ret 0 ∧
  files (CtbpR.main platform w).2
  = <[ p := dump 2 out +:+ endl ]>
      (<[ p +:+ ".backup_" +:+ timestamp w := text ]> (files w)) ∧
  cerr (CtbpR.main platform w).2 = cerr w ∧
  last (cout (CtbpR.main platform w).2) = Some (dump 2 (nested_ids a b c) +:+ endl).
Proof.
  intros Hloc Hfile Hparse Hfree Hok Hids Hup.
  apply CtbpR_locator_after_banner in Hloc.
  set (w0 := add_cout ("Targeting storage file: " +:+ quoted p +:+ endl) (after_banner w)).
  set (bp := p +:+ ".backup_" +:+ timestamp w) in *.
  set (w1 := add_cout ("Created backup at: " +:+ quoted bp +:+ endl)
               (set_files <[ bp := text ]> w0)).
  assert (bp ≠ p) as Hne by (intros Heq; rewrite Heq in Hfree; congruence).
  assert (files w1 !! p = Some text) as Hfile1.
  { subst w1 w0. cbn [files set_files add_cout after_banner].
    by rewrite lookup_insert_ne. }
  destruct (CtbpR_body_writes platform p bp a b c data out g
              (after_banner w) w1 w1 Hloc (Hok _)
              (CtbpR_backupFile_fresh p text w0 Hfile Hfree (Hok _))
              (CtbpR_load_parsed p text data w1 Hfile1 (Hok _) Hparse)
              Hids Hup (Hok _) (Hok _))
    as (w' & Hbody & Hfile' & Hother & Herr & Hout).
  rewrite (CtbpR_main_ret platform w w' Hbody). cbn [fst snd].
  split; [reflexivity|]. split; [|split; [exact Herr | exact Hout]].
  apply files_after_reset; [exact Hfile'|]. intros q Hq. exact (Hother q Hq).
Qed.

Lemma X15_ctbpR_resets_existing_file_witness :
  ∃ a b c out,
    CtbpR.update_ids (nested_ids a b c) (JObj ∅) = Ret out ∧
    files (CtbpR.main (json_text := reference_json) Linux
             (with_file linux_storage "{}" linux_world)).2
    = <[ linux_storage := dump (JsonText := reference_json) 2 out +:+ endl ]>
        (<[ linux_backup := "{}" ]> (files (with_file linux_storage "{}" linux_world))).
Proof.
  eexists _, _, _, _. split; [vm_compute; reflexivity|].
  eapply (X15_ctbpR_resets_existing_file (json_text := reference_json) Linux
            linux_storage "{}" _ _ _ (JObj ∅) _ _
            (with_file linux_storage "{}" linux_world)).
  - vm_compute. reflexivity.
  - vm_compute. reflexivity.
  - vm_compute. reflexivity.
  - vm_compute. reflexivity.
  - intros []; reflexivity.
  - vm_compute. reflexivity.
  - vm_compute. reflexivity.
Defined.

(** X16.  [ctbpR-4.cpp] on a storage file that holds a JSON document, with
    nothing refused: the run ends with status 0 and without a word on
    [std::cerr]; the backup holds the old text; the storage file holds the
    serialisation, followed by a newline, of the old document with the three
    fresh identifiers; no other file has changed; and the last thing on
    [std::cout] is the object of the new identifiers. *)
Theorem X16_ctbpR4_resets_existing_file (platform : Platform) {json_text : JsonText}
    (p text a b c : string) (data out : json) (g : Rng) (w : World) :
  (CtbpR4.get_storage_file platform w).1 = Ret p →
  files w !! p = Some text →
  parse text = Some data →
  (∀ site, refused w site = false) →
  fresh_ids (CtbpR4.generate_random_hex 64) CtbpR4.generate_uuid (entropy w)
    = (a, b, c, g) →
  CtbpR4.update_ids a b c data = Ret out →
  (CtbpR4.main platform w).1 = Ret 0 ∧
  files (CtbpR4.main platform w).2
  = <[ p := dump 2 out +:+ endl ]>
      (<[ p +:+ ".backup_" +:+ timestamp w := text ]> (files w)) ∧
  cerr (CtbpR4.main platform w).2 = cerr w ∧
  last (cout (CtbpR4.main platform w).2) = Some (dump 2 (nested_ids a b c) +:+ endl).
Proof.
  intros Hloc Hfile Hparse Hok Hids Hup.
  set (bp := p +:+ ".backup_" +:+ timestamp w).
  set (w1 := set_files <[ bp := text ]> w).
  pose proof (backup_name_differs p (timestamp w)) as Hne. fold bp in Hne.
  assert (files w1 !! p = Some text) as Hfile1.
  { subst w1. cbn [files set_files]. by rewrite lookup_insert_ne. }
  destruct (CtbpR4_reset_writes platform p a b c data out g w w1 w1
              Hloc (Hok _) (CtbpR4_backup_file_existing p text w (Hok _) Hfile)
              (CtbpR_load_parsed p text data w1 Hfile1 (Hok _) Hparse) Hids
              Hup (Hok _) (Hok _))
    as (w' & Hrun & Hfile' & Hother & Herr & Hout).
  rewrite (CtbpR4_main_ret platform w w' Hrun). cbn [fst snd].
  split; [reflexivity|]. split; [|split; [exact Herr | exact Hout]].
  apply files_after_reset; [exact Hfile'|]. intros q Hq. exact (Hother q Hq).
Qed.

Lemma X16_ctbpR4_resets_existing_file_witness :
  ∃ a b c out,
    CtbpR4.update_ids a b c (JObj ∅) = Ret out ∧
    files (CtbpR4.main (json_text := reference_json) Linux
             (with_file linux_storage "{}" linux_world)).2
    = <[ linux_storage := dump (JsonText := reference_json) 2 out +:+ endl ]>
        (<[ linux_backup := "{}" ]> (files (with_file linux_storage "{}" linux_world))).
Proof.
  eexists _, _, _, _. split; [vm_compute; reflexivity|].
  eapply (X16_ctbpR4_resets_existing_file (json_text := reference_json) Linux
            linux_storage "{}" _ _ _ (JObj ∅) _ _
            (with_file linux_storage "{}" linux_world)).
  - vm_compute. reflexivity.
  - vm_compute. reflexivity.
  - vm_compute. reflexivity.
  - intros []; reflexivity.
  - vm_compute. reflexivity.
  - vm_compute. reflexivity.
Defined.

(* ===================================================================== *)
(** * Further properties: runs of ctbpR-3.cpp *)
(* ===================================================================== *)

Section MoreRunsCtbpR3.
Context (platform : Platform) {json_text : JsonText}.

(** The [try] block once the storage file is located, backed up and
    loaded: what is left is to generate, assign, write and report. *)
Lemma CtbpR3_body_after_load (p : string) (data : json) (w w1 w2 : World) :
  (CtbpR3.getStorageFile platform w).1 = Ret p →
  refused w MkDirs = false →
  CtbpR3.backupFile platform p w = (Ret tt, w1) →
  CtbpR3.load p w1 = (Ret data, w2) →
  CtbpR3.resetCursorID_body platform w
  = (do id <- draw (CtbpR3.generateRandomHex 32);
     do data <- lift (subscript_assign "telemetry.machineId" (JStr id) data);
     do id <- draw (CtbpR3.generateRandomHex 32);
     do data <- lift (subscript_assign "telemetry.macMachineId" (JStr id) data);
     do id <- draw CtbpR3.generateUUID;
     do data <- lift (subscript_assign "telemetry.devDeviceId" (JStr id) data);
     do outFile <- ofstream p;
     insert_text p outFile (dump 2 data);;
     print ("🎉 Device IDs have been successfully reset. The new device IDs are:"
            +:+ endl);;
     print (dump 2 data +:+ endl)) w2.
Proof.
  intros Hloc Hmk Hbk Hld.
  apply (locator_returns _ _ _ (CtbpR3_getStorageFile_reads_env_only platform)) in Hloc.
  unfold CtbpR3.resetCursorID_body.
  rewrite (bind_ret_eq _ _ _ _ _ Hloc).
  rewrite (bind_ret_eq _ _ _ _ _ (create_directories_ok _ w Hmk)).
  rewrite (bind_ret_eq _ _ _ _ _ Hbk).
  rewrite (bind_ret_eq _ _ _ _ _ Hld).
  reflexivity.
Qed.

Lemma CtbpR3_load_parsed (p text : string) (data : json) (w : World) :
  files w !! p = Some text →
  refused w OpenRead = false →
  parse text = Some data →
  CtbpR3.load p w = (Ret data, w).
Proof.
  intros Hp Hr Hparse. unfold CtbpR3.load.
  rewrite (bind_ret_eq _ _ _ _ _ (exists_present p text w Hp)).
  rewrite (bind_ret_eq _ _ _ _ _ (ifstream_ok p w Hr)). rewrite Hp.
  apply try_catch_ret. by apply read_json_ok.
Qed.


(** The rest of the [try] block when the output stream cannot be opened:
    the insertion into the closed stream does nothing, nobody looks at the
    stream, and the success lines are printed. *)
Lemma CtbpR3_generate_open_refused (p : string) (data out : json) (a b c : string)
    (g : Rng) (w : World) :
  fresh_ids (CtbpR3.generateRandomHex 32) CtbpR3.generateUUID (entropy w) = (a, b, c, g) →
  CtbpR3.update_ids a b c data = Ret out →
  refused w OpenWrite = true →
  (do id <- draw (CtbpR3.generateRandomHex 32);
   do data <- lift (subscript_assign "telemetry.machineId" (JStr id) data);
   do id <- draw (CtbpR3.generateRandomHex 32);
   do data <- lift (subscript_assign "telemetry.macMachineId" (JStr id) data);
   do id <- draw CtbpR3.generateUUID;
   do data <- lift (subscript_assign "telemetry.devDeviceId" (JStr id) data);
   do outFile <- ofstream p;
   insert_text p outFile (dump 2 data);;
   print ("🎉 Device IDs have been successfully reset. The new device IDs are:"
          +:+ endl);;
   print (dump 2 data +:+ endl)) w
  = (Ret tt,
     add_cout (dump 2 out +:+ endl)
       (add_cout ("🎉 Device IDs have been successfully reset. The new device IDs are:"
                  +:+ endl) (set_entropy g w))).
Proof.
  intros (g1 & g2 & E1 & E2 & E3)%fresh_ids_inv Hup Hopen.
  unfold CtbpR3.update_ids in Hup.
  apply and_then_ret in Hup as (d1 & U1 & (d2 & U2 & U3)%and_then_ret).
  rewrite (bind_ret_eq _ _ _ _ _ (draw_eq _ w a g1 E1)).
  rewrite (bind_ret_eq _ _ _ (set_entropy g1 w) d1) by (by unfold lift; rewrite U1).
  rewrite (bind_ret_eq _ _ _ _ _ (draw_eq _ (set_entropy g1 w) b g2 E2)).
  rewrite (bind_ret_eq _ _ _ (set_entropy g2 (set_entropy g1 w)) d2)
    by (by unfold lift; rewrite U2).
  rewrite (bind_ret_eq _ _ _ _ _ (draw_eq _ (set_entropy g2 (set_entropy g1 w)) c g E3)).
  set (w3 := set_entropy g (set_entropy g2 (set_entropy g1 w))).
  rewrite (bind_ret_eq _ _ _ w3 out) by (by unfold lift; rewrite U3).
  rewrite (bind_ret_eq _ _ _ _ _ (ofstream_refused p w3 Hopen)).
  reflexivity.
Qed.

(** The rest of the [try] block when the document loaded is neither an
    object nor [null]: the first assignment throws. *)
Lemma CtbpR3_generate_type_error (p : string) (data : json) (w : World) :
  null_or_object data = false →
  ∃ g,
  (do id <- draw (CtbpR3.generateRandomHex 32);
   do data <- lift (subscript_assign "telemetry.machineId" (JStr id) data);
   do id <- draw (CtbpR3.generateRandomHex 32);
   do data <- lift (subscript_assign "telemetry.macMachineId" (JStr id) data);
   do id <- draw CtbpR3.generateUUID;
   do data <- lift (subscript_assign "telemetry.devDeviceId" (JStr id) data);
   do outFile <- ofstream p;
   insert_text p outFile (dump 2 data);;
   print ("🎉 Device IDs have been successfully reset. The new device IDs are:"
          +:+ endl);;
   print (dump 2 data +:+ endl)) w
  = (Throw (json_type_error 305), set_entropy g w).
Proof.
  intros Hdata.
  destruct (CtbpR3.generateRandomHex 32 (entropy w)) as [a g1] eqn:E1.
  exists g1.
  rewrite (bind_ret_eq _ _ _ _ _ (draw_eq _ w a g1 E1)).
  apply bind_throw_eq. unfold lift.
  destruct data; try discriminate Hdata; reflexivity.
Qed.

End MoreRunsCtbpR3.

(** X17.  [ctbpR-3.cpp] on a storage file that holds a JSON document, with
    nothing refused and the backup name free: the run ends with status 0 and
    without a word on [std::cerr]; the backup, named [storage.json.backup_]
    and the time stamp in the directory of the storage file, holds the old
    text; the storage file holds the serialisation of the old document with
    the three fresh identifiers (no newline after it); no other file has
    changed. *)
Theorem X17_ctbpR3_resets_existing_file (platform : Platform) {json_text : JsonText}
    (p text a b c : string) (data out : json) (g : Rng) (w : World) :
  (CtbpR3.getStorageFile platform w).1 = Ret p →
  files w !! p = Some text →
  parse text = Some data →
  files w !! (path_append platform (parent_path platform p)
                ("storage.json.backup_" +:+ timestamp w)) = None →
  (∀ site, refused w site = false) →
  fresh_ids (CtbpR3.generateRandomHex 32) CtbpR3.generateUUID (entropy w) = (a, b, c, g) →
  CtbpR3.update_ids a b c data = Ret out →
  (CtbpR3.main platform w).1 = Ret 0 ∧
  files (CtbpR3.main platform w).2
  = <[ p := dump 2 out ]>
      (<[ path_append platform (parent_path platform p)
            ("storage.json.backup_" +:+ timestamp w) := text ]> (files w)) ∧
  cerr (CtbpR3.main platform w).2 = cerr w.
Proof.
  intros Hloc Hfile Hparse Hfree Hok Hids Hup.
  set (bp := path_append platform (parent_path platform p)
               ("storage.json.backup_" +:+ timestamp w)) in *.
  set (w1 := set_files <[ bp := text ]> w).
  assert (files w1 !! p = Some text) as Hfile1.
  { subst w1. cbn [files set_files]. rewrite lookup_insert_ne; [exact Hfile|].
    intros Heq. rewrite Heq in Hfree. congruence. }
  destruct (CtbpR3_generate_and_write p data out a b c g w1 Hids Hup (Hok _) (Hok _))
    as (w' & Hrun & Hfile' & Hother & Herr).
  rewrite <- (CtbpR3_body_after_load platform p data w w1 w1 Hloc (Hok _)
                (CtbpR3_backupFile_fresh platform p text w Hfile Hfree (Hok _))
                (CtbpR3_load_parsed p text data w1 Hfile1 (Hok _) Hparse)) in Hrun.
  rewrite (CtbpR3_main_ret platform w w' Hrun). cbn [fst snd].
  split; [reflexivity|]. split; [|exact Herr].
  apply files_after_reset; [exact Hfile'|]. intros q Hq. exact (Hother q Hq).
Qed.

Lemma X17_ctbpR3_resets_existing_file_witness :
  ∃ a b c out,
    CtbpR3.update_ids a b c (JObj ∅) = Ret out ∧
    files (CtbpR3.main (json_text := reference_json) Linux
             (with_file linux_storage "{}" linux_world)).2
    = <[ linux_storage := dump (JsonText := reference_json) 2 out ]>
        (<[ "/home/u/.config/Cursor/User/globalStorage/storage.json.backup_20250324_120000"
            := "{}" ]> (files (with_file linux_storage "{}" linux_world))).
Proof.
  eexists _, _, _, _. split; [vm_compute; reflexivity|].
  eapply (X17_ctbpR3_resets_existing_file (json_text := reference_json) Linux
            linux_storage "{}" _ _ _ (JObj ∅) _ _
            (with_file linux_storage "{}" linux_world)).
  - vm_compute. reflexivity.
  - vm_compute. reflexivity.
  - vm_compute. reflexivity.
  - vm_compute. reflexivity.
  - intros []; reflexivity.
  - vm_compute. reflexivity.
  - vm_compute. reflexivity.
Defined.

(* ===================================================================== *)
(** * Further properties: runs of ctbpR-2.cpp *)
(* ===================================================================== *)

Section MoreRunsCtbpR2.
Context (platform : Platform) {json_text : JsonText}.

Lemma CtbpR2_load_parsed (p text : string) (data : json) (w : World) :
  files w !! p = Some text →
  refused w OpenRead = false →
  parse text = Some data →
  CtbpR2.load p w
  = (Ret data, add_cout ("Loading configuration from " +:+ quoted p +:+ endl) w).
Proof.
  intros Hp Hr Hparse. unfold CtbpR2.load.
  rewrite (bind_ret_eq _ _ _ _ _ (exists_present p text w Hp)).
  rewrite (bind_ret_eq _ _ _ _ _ (ifstream_ok p w Hr)). rewrite Hp.
  rewrite (bind_ret_eq _ _ _ _ _ (read_json_ok text data w Hparse)).
  reflexivity.
Qed.


(** The [try] block up to the point where the three values are drawn, on a
    storage file that holds a document. *)
Lemma CtbpR2_body_after_draws (p text a b c : string) (data : json) (g : Rng)
    (w : World) :
  (CtbpR2.get_storage_file platform w).1 = Ret p →
  files w !! p = Some text →
  parse text = Some data →
  refused w MkDirs = false →
  refused w BackupCopy = false →
  refused w OpenRead = false →
  fresh_ids (CtbpR2.generate_random_hex 32) CtbpR2.generate_uuid (entropy w)
    = (a, b, c, g) →
  CtbpR2.reset_cursor_id_body platform w
  = (do original <- lift (CtbpR2.original_ids data);
     do data <- lift (CtbpR2.update_ids a b c data);
     do out_file <- ofstream p;
     insert_text p out_file (dump 2 data);;
     print ("Device IDs successfully reset" +:+ endl);;
     print (endl +:+ "🎉 Cursor v0.47.8 trial successfully reset!" +:+ endl +:+ endl);;
     print ("Original device IDs were:" +:+ endl);;
     print (dump 2 (JObj (list_to_map (prod_map id JStr <$> original))) +:+ endl);;
     print (endl +:+ "New device IDs are:" +:+ endl);;
     print (dump 2 (CtbpR2.ids_object a b c) +:+ endl);;
     print (endl +:+ "✅ Additional trial parameters have been cleared" +:+ endl);;
     print ("✅ Restart Cursor to apply changes" +:+ endl))
      (set_entropy g
         (add_cout ("Loading configuration from " +:+ quoted p +:+ endl)
            (add_cout ("Backup created at: "
                       +:+ quoted (p +:+ ".backup_" +:+ timestamp w) +:+ endl)
               (set_files <[ p +:+ ".backup_" +:+ timestamp w := text ]> w)))).
Proof.
  intros Hloc Hfile Hparse Hmk Hcopy Hread (g1 & g2 & E1 & E2 & E3)%fresh_ids_inv.
  apply (locator_returns _ _ _ (CtbpR2_get_storage_file_reads_env_only platform)) in Hloc.
  set (bp := p +:+ ".backup_" +:+ timestamp w).
  set (w1 := add_cout ("Backup created at: " +:+ quoted bp +:+ endl)
               (set_files <[ bp := text ]> w)).
  set (w2 := add_cout ("Loading configuration from " +:+ quoted p +:+ endl) w1).
  assert (files w1 !! p = Some text) as Hfile1.
  { subst w1. cbn [files set_files add_cout]. rewrite lookup_insert_ne; [exact Hfile|].
    apply backup_name_differs. }
  unfold CtbpR2.reset_cursor_id_body.
  rewrite (bind_ret_eq _ _ _ _ _ Hloc).
  rewrite (bind_ret_eq _ _ _ _ tt (create_directories_ok _ w Hmk)).
  rewrite (bind_ret_eq _ _ _ _ _ (CtbpR2_backup_file_copies p text w Hfile Hcopy)).
  fold bp. fold w1.
  rewrite (bind_ret_eq _ _ _ _ _ (CtbpR2_load_parsed p text data w1 Hfile1 Hread Hparse)).
  fold w2.
  rewrite (bind_ret_eq _ _ _ _ _ (draw_eq _ w2 a g1 E1)).
  rewrite (bind_ret_eq _ _ _ _ _ (draw_eq _ (set_entropy g1 w2) b g2 E2)).
  rewrite (bind_ret_eq _ _ _ _ _ (draw_eq _ (set_entropy g2 (set_entropy g1 w2)) c g E3)).
  reflexivity.
Qed.

Lemma add_couts_fields (lines : list string) (w : World) :
  env (add_couts lines w) = env w ∧
  files (add_couts lines w) = files w ∧
  cerr (add_couts lines w) = cerr w ∧
  cout (add_couts lines w) = cout w ++ lines.
Proof.
  unfold add_couts. revert w. induction lines as [|line lines IH]; intros w.
  - cbn [foldl]. by rewrite app_nil_r.
  - cbn [foldl]. destruct (IH (add_cout line w)) as (-> & -> & -> & ->).
    cbn [env files cerr cout add_cout]. by rewrite <- app_assoc.
Qed.

(** A run of [print]s. *)
Lemma prints_eq (lines : list string) (w : World) :
  foldr (λ line k, print line;; k) (ret tt) lines w = (Ret tt, add_couts lines w).
Proof.
  unfold add_couts. revert w. induction lines as [|line lines IH]; intros w;
    [reflexivity|].
  cbn [foldr foldl]. unfold bind at 1, print at 1. apply IH.
Qed.

Lemma CtbpR2_original_ids_strings (m : gmap string json) :
  ids_absent_or_strings m = true →
  CtbpR2.original_ids (JObj m) = Ret (reported_ids m).
Proof.
  unfold ids_absent_or_strings. intros [[H1 H2]%andb_prop H3]%andb_prop.
  unfold CtbpR2.original_ids. rewrite !value_object, H1, H2, H3. reflexivity.
Qed.

Lemma CtbpR2_original_ids_not_string (m : gmap string json) :
  ids_absent_or_strings m = false →
  CtbpR2.original_ids (JObj m) = Throw (json_type_error 302).
Proof.
  unfold ids_absent_or_strings. intros H.
  unfold CtbpR2.original_ids. rewrite !value_object.
  destruct (absent_or_string "telemetry.machineId" m); [|reflexivity].
  destruct (absent_or_string "telemetry.macMachineId" m); [|reflexivity].
  destruct (absent_or_string "telemetry.devDeviceId" m); [discriminate H|reflexivity].
Qed.

(** The rest of the [try] block on an object whose identifier fields are
    strings or absent. *)
Lemma CtbpR2_tail_writes (p a b c : string) (m : gmap string json) (w : World) :
  ids_absent_or_strings m = true →
  refused w OpenWrite = false →
  refused w WriteData = false →
  (do original <- lift (CtbpR2.original_ids (JObj m));
   do data <- lift (CtbpR2.update_ids a b c (JObj m));
   do out_file <- ofstream p;
   insert_text p out_file (dump 2 data);;
   print ("Device IDs successfully reset" +:+ endl);;
   print (endl +:+ "🎉 Cursor v0.47.8 trial successfully reset!" +:+ endl +:+ endl);;
   print ("Original device IDs were:" +:+ endl);;
   print (dump 2 (JObj (list_to_map (prod_map id JStr <$> original))) +:+ endl);;
   print (endl +:+ "New device IDs are:" +:+ endl);;
   print (dump 2 (CtbpR2.ids_object a b c) +:+ endl);;
   print (endl +:+ "✅ Additional trial parameters have been cleared" +:+ endl);;
   print ("✅ Restart Cursor to apply changes" +:+ endl)) w
  = (Ret tt,
     add_couts (CtbpR2_success_report m a b c)
       (written p (dump 2 (CtbpR2_reset_document a b c m)) w)).
Proof.
  intros Hids Hopen Hwrite.
  rewrite (bind_ret_eq _ _ w w (reported_ids m))
    by (unfold lift; rewrite (CtbpR2_original_ids_strings m Hids); reflexivity).
  rewrite (bind_ret_eq _ _ w w (CtbpR2_reset_document a b c m))
    by (unfold lift; rewrite CtbpR2_update_ids_object; reflexivity).
  rewrite (bind_ret_eq _ _ _ _ _ (ofstream_ok p w Hopen)).
  rewrite (bind_ret_eq _ _ _ _ _ (insert_text_ok p _ w Hwrite)).
  rewrite <- prints_eq. unfold CtbpR2_success_report. cbn [foldr].
  unfold bind, print, ret. reflexivity.
Qed.

(** The same when the output stream cannot be opened: nothing is written,
    nobody looks at the stream, and the same lines are printed. *)
Lemma CtbpR2_tail_open_refused (p a b c : string) (m : gmap string json) (w : World) :
  ids_absent_or_strings m = true →
  refused w OpenWrite = true →
  (do original <- lift (CtbpR2.original_ids (JObj m));
   do data <- lift (CtbpR2.update_ids a b c (JObj m));
   do out_file <- ofstream p;
   insert_text p out_file (dump 2 data);;
   print ("Device IDs successfully reset" +:+ endl);;
   print (endl +:+ "🎉 Cursor v0.47.8 trial successfully reset!" +:+ endl +:+ endl);;
   print ("Original device IDs were:" +:+ endl);;
   print (dump 2 (JObj (list_to_map (prod_map id JStr <$> original))) +:+ endl);;
   print (endl +:+ "New device IDs are:" +:+ endl);;
   print (dump 2 (CtbpR2.ids_object a b c) +:+ endl);;
   print (endl +:+ "✅ Additional trial parameters have been cleared" +:+ endl);;
   print ("✅ Restart Cursor to apply changes" +:+ endl)) w
  = (Ret tt, add_couts (CtbpR2_success_report m a b c) w).
Proof.
  intros Hids Hopen.
  rewrite (bind_ret_eq _ _ w w (reported_ids m))
    by (unfold lift; rewrite (CtbpR2_original_ids_strings m Hids); reflexivity).
  rewrite (bind_ret_eq _ _ w w (CtbpR2_reset_document a b c m))
    by (unfold lift; rewrite CtbpR2_update_ids_object; reflexivity).
  rewrite (bind_ret_eq _ _ _ _ _ (ofstream_refused p w Hopen)).
  rewrite (bind_ret_eq _ _ w w tt) by reflexivity.
  rewrite <- prints_eq. unfold CtbpR2_success_report. cbn [foldr].
  unfold bind, print, ret. reflexivity.
Qed.

End MoreRunsCtbpR2.

(** X18.  [ctbpR-2.cpp] on a storage file that holds a JSON object whose
    three identifier fields are strings or absent, with nothing refused: the
    run ends with status 0 and without a word on [std::cerr]; the backup
    holds the old text; the storage file holds the serialisation of the old
    object with the three fresh identifiers set and the three trial keys
    removed; no other file has changed; and [std::cout] receives, after the
    notices of the backup and of the load, the report with the old values
    ("Not set" for a field that was absent) and the new ones. *)
Theorem X18_ctbpR2_resets_existing_file (platform : Platform) {json_text : JsonText}
    (p text a b c : string) (m : gmap string json) (g : Rng) (w : World) :
  (CtbpR2.get_storage_file platform w).1 = Ret p →
  files w !! p = Some text →
  parse text = Some (JObj m) →
  ids_absent_or_strings m = true →
  (∀ site, refused w site = false) →
  fresh_ids (CtbpR2.generate_random_hex 32) CtbpR2.generate_uuid (entropy w)
    = (a, b, c, g) →
  (CtbpR2.main platform w).1 = Ret 0 ∧
  files (CtbpR2.main platform w).2
  = <[ p := dump 2 (CtbpR2_reset_document a b c m) ]>
      (<[ p +:+ ".backup_" +:+ timestamp w := text ]> (files w)) ∧
  cerr (CtbpR2.main platform w).2 = cerr w ∧
  cout (CtbpR2.main platform w).2
  = cout w
    ++ [ "Backup created at: " +:+ quoted (p +:+ ".backup_" +:+ timestamp w) +:+ endl;
         "Loading configuration from " +:+ quoted p +:+ endl ]
    ++ CtbpR2_success_report m a b c.
Proof.
  intros Hloc Hfile Hparse Hids Hok Hfresh.
  pose proof (CtbpR2_body_after_draws platform p text a b c (JObj m) g w
                Hloc Hfile Hparse (Hok _) (Hok _) (Hok _) Hfresh) as Hbody.
  set (w3 := set_entropy g
               (add_cout ("Loading configuration from " +:+ quoted p +:+ endl)
                  (add_cout ("Backup created at: "
                             +:+ quoted (p +:+ ".backup_" +:+ timestamp w) +:+ endl)
                     (set_files <[ p +:+ ".backup_" +:+ timestamp w := text ]> w))))
    in *.
  rewrite (CtbpR2_tail_writes p a b c m w3 Hids (Hok _) (Hok _)) in Hbody.
  rewrite (CtbpR2_main_ret platform w _ Hbody). cbn [fst snd].
  destruct (add_couts_fields (CtbpR2_success_report m a b c)
              (written p (dump 2 (CtbpR2_reset_document a b c m)) w3))
    as (_ & -> & -> & ->).
  subst w3.
  split; [reflexivity|]. split; [|split; [reflexivity|]].
  - apply files_after_reset.
    + apply files_written.
    + intros q Hq. rewrite files_written_ne by done. reflexivity.
  - cbn [cout written set_entropy add_cout set_files]. rewrite <- !app_assoc.
    reflexivity.
Qed.

Lemma X18_ctbpR2_resets_existing_file_witness :
  ∃ a b c,
    files (CtbpR2.main (json_text := reference_json) Linux
             (with_file linux_storage "{}" linux_world)).2
    = <[ linux_storage
         := dump (JsonText := reference_json) 2 (CtbpR2_reset_document a b c ∅) ]>
        (<[ linux_backup := "{}" ]> (files (with_file linux_storage "{}" linux_world))).
Proof.
  eexists _, _, _.
  eapply (X18_ctbpR2_resets_existing_file (json_text := reference_json) Linux
            linux_storage "{}" _ _ _ ∅ _ (with_file linux_storage "{}" linux_world)).
  - vm_compute. reflexivity.
  - vm_compute. reflexivity.
  - vm_compute. reflexivity.
  - vm_compute. reflexivity.
  - intros []; reflexivity.
  - vm_compute. reflexivity.
Defined.

(* ===================================================================== *)
(** * Further properties: an output stream that does not open *)
(* ===================================================================== *)

(** X19.  [ctbpR-2.cpp] and [ctbpR-3.cpp] never look at the stream they
    write to.  When the storage file holds a JSON object and cannot be opened
    for writing, the run makes its backup, writes nothing, and still ends
    with status 0, an empty [std::cerr] and the success report with the new
    identifiers on [std::cout]; the storage file is as it was. *)
Theorem X19_unopened_stream_goes_unnoticed (platform : Platform) {json_text : JsonText}
    (p text a b c : string) (m : gmap string json) (g : Rng) (w : World) :
  files w !! p = Some text →
  parse text = Some (JObj m) →
  refused w MkDirs = false →
  refused w BackupCopy = false →
  refused w OpenRead = false →
  refused w OpenWrite = true →
  ((CtbpR3.getStorageFile platform w).1 = Ret p →
   files w !! (path_append platform (parent_path platform p)
                 ("storage.json.backup_" +:+ timestamp w)) = None →
   fresh_ids (CtbpR3.generateRandomHex 32) CtbpR3.generateUUID (entropy w)
     = (a, b, c, g) →
   (CtbpR3.main platform w).1 = Ret 0 ∧
   cerr (CtbpR3.main platform w).2 = cerr w ∧
   files (CtbpR3.main platform w).2
   = <[ path_append platform (parent_path platform p)
          ("storage.json.backup_" +:+ timestamp w) := text ]> (files w) ∧
   files (CtbpR3.main platform w).2 !! p = Some text ∧
   last (cout (CtbpR3.main platform w).2)
   = Some (dump 2 (JObj (<[ "telemetry.devDeviceId" := JStr c ]>
                        (<[ "telemetry.macMachineId" := JStr b ]>
                        (<[ "telemetry.machineId" := JStr a ]> m)))) +:+ endl)) ∧
  ((CtbpR2.get_storage_file platform w).1 = Ret p →
   ids_absent_or_strings m = true →
   fresh_ids (CtbpR2.generate_random_hex 32) CtbpR2.generate_uuid (entropy w)
     = (a, b, c, g) →
   (CtbpR2.main platform w).1 = Ret 0 ∧
   cerr (CtbpR2.main platform w).2 = cerr w ∧
   files (CtbpR2.main platform w).2
   = <[ p +:+ ".backup_" +:+ timestamp w := text ]> (files w) ∧
   files (CtbpR2.main platform w).2 !! p = Some text ∧
   cout (CtbpR2.main platform w).2
   = cout w
     ++ [ "Backup created at: " +:+ quoted (p +:+ ".backup_" +:+ timestamp w) +:+ endl;
          "Loading configuration from " +:+ quoted p +:+ endl ]
     ++ CtbpR2_success_report m a b c).
Proof.
  intros Hfile Hparse Hmk Hcopy Hread Hopen. split.
  - intros Hloc Hfree Hids.
    set (bp := path_append platform (parent_path platform p)
                 ("storage.json.backup_" +:+ timestamp w)) in *.
    set (w1 := set_files <[ bp := text ]> w).
    assert (files w1 !! p = Some text) as Hfile1.
    { subst w1. cbn [files set_files]. rewrite lookup_insert_ne; [exact Hfile|].
      intros Heq. rewrite Heq in Hfree. congruence. }
    pose proof (CtbpR3_body_after_load platform p (JObj m) w w1 w1 Hloc Hmk
                  (CtbpR3_backupFile_fresh platform p text w Hfile Hfree Hcopy)
                  (CtbpR3_load_parsed p text (JObj m) w1 Hfile1 Hread Hparse)) as Hbody.
    rewrite (CtbpR3_generate_open_refused p (JObj m) _ a b c g w1 Hids
               (CtbpR3_update_ids_object a b c m) Hopen) in Hbody.
    rewrite (CtbpR3_main_ret platform w _ Hbody). cbn [fst snd].
    split; [reflexivity|]. split; [reflexivity|]. split; [reflexivity|].
    split; [exact Hfile1|].
    cbn [cout add_cout]. apply last_snoc.
  - intros Hloc Hids Hfresh.
    pose proof (CtbpR2_body_after_draws platform p text a b c (JObj m) g w
                  Hloc Hfile Hparse Hmk Hcopy Hread Hfresh) as Hbody.
    set (w3 := set_entropy g
                 (add_cout ("Loading configuration from " +:+ quoted p +:+ endl)
                    (add_cout ("Backup created at: "
                               +:+ quoted (p +:+ ".backup_" +:+ timestamp w) +:+ endl)
                       (set_files <[ p +:+ ".backup_" +:+ timestamp w := text ]> w))))
      in *.
    rewrite (CtbpR2_tail_open_refused p a b c m w3 Hids Hopen) in Hbody.
    rewrite (CtbpR2_main_ret platform w _ Hbody). cbn [fst snd].
    destruct (add_couts_fields (CtbpR2_success_report m a b c) w3)
      as (_ & -> & -> & ->).
    subst w3.
    split; [reflexivity|]. split; [reflexivity|]. split; [reflexivity|].
    split.
    + cbn [files set_entropy add_cout set_files].
      rewrite lookup_insert_ne; [exact Hfile|]. apply backup_name_differs.
    + cbn [cout set_entropy add_cout set_files]. rewrite <- !app_assoc. reflexivity.
Qed.

Lemma X19_unopened_stream_goes_unnoticed_witness :
  let w := refusing OpenWrite (with_file linux_storage "{}" linux_world) in
  (CtbpR3.main (json_text := reference_json) Linux w).1 = Ret 0 ∧
  cerr (CtbpR3.main (json_text := reference_json) Linux w).2 = cerr w ∧
  files (CtbpR3.main (json_text := reference_json) Linux w).2 !! linux_storage
  = Some "{}".
Proof.
  intros w.
  destruct (X19_unopened_stream_goes_unnoticed (json_text := reference_json) Linux
              linux_storage "{}"
              (fresh_ids (CtbpR3.generateRandomHex 32) CtbpR3.generateUUID (entropy w)).1.1.1
              (fresh_ids (CtbpR3.generateRandomHex 32) CtbpR3.generateUUID (entropy w)).1.1.2
              (fresh_ids (CtbpR3.generateRandomHex 32) CtbpR3.generateUUID (entropy w)).1.2
              ∅
              (fresh_ids (CtbpR3.generateRandomHex 32) CtbpR3.generateUUID (entropy w)).2
              w)
    as [H3 _]; try (vm_compute; reflexivity).
  destruct H3 as (Hexit & Herr & _ & Hfile & _); try (vm_compute; reflexivity).
  exact (conj Hexit (conj Herr Hfile)).
Defined.

Section OpenRefusedLoud.
Context (platform : Platform) {json_text : JsonText}.

(** [ctbpR-4.cpp] tests the stream and throws. *)
Lemma CtbpR4_reset_open_refused (p a b c : string) (data out : json) (g : Rng)
    (w w1 w2 : World) :
  (CtbpR4.get_storage_file platform w).1 = Ret p →
  refused w MkDirs = false →
  CtbpR4.backup_file p w = (Ret tt, w1) →
  CtbpR4.load p w1 = (Ret data, w2) →
  fresh_ids (CtbpR4.generate_random_hex 64) CtbpR4.generate_uuid (entropy w2)
    = (a, b, c, g) →
  CtbpR4.update_ids a b c data = Ret out →
  refused w2 OpenWrite = true →
  CtbpR4.reset_cursor_id platform w
  = (Throw (runtime_error "Failed to open storage file for writing"),
     set_entropy g w2).
Proof.
  intros Hloc Hmk Hbk Hld (g1 & g2 & E1 & E2 & E3)%fresh_ids_inv Hup Hopen.
  apply (locator_returns _ _ _ (CtbpR4_get_storage_file_reads_env_only platform)) in Hloc.
  unfold CtbpR4.reset_cursor_id.
  rewrite (bind_ret_eq _ _ _ _ _ Hloc).
  rewrite (bind_ret_eq _ _ _ _ tt (create_directories_ok _ w Hmk)).
  rewrite (bind_ret_eq _ _ _ _ _ Hbk).
  rewrite (bind_ret_eq _ _ _ _ _ Hld).
  rewrite (bind_ret_eq _ _ _ _ _ (draw_eq _ w2 a g1 E1)).
  rewrite (bind_ret_eq _ _ _ _ _ (draw_eq _ (set_entropy g1 w2) b g2 E2)).
  rewrite (bind_ret_eq _ _ _ _ _ (draw_eq _ (set_entropy g2 (set_entropy g1 w2)) c g E3)).
  set (w3 := set_entropy g (set_entropy g2 (set_entropy g1 w2))).
  rewrite (bind_ret_eq _ _ _ w3 out) by (by unfold lift; rewrite Hup).
  rewrite (bind_ret_eq _ _ _ _ _ (ofstream_refused p w3 Hopen)).
  reflexivity.
Qed.

End OpenRefusedLoud.

(** X20.  [ctbpR-4.cpp] tests the stream: when the storage file holds a
    JSON document and cannot be opened for writing, the run reports "Failed
    to open storage file for writing" on [std::cerr] and ends with status 1;
    the backup has been made and the storage file is as it was.  So does
    [ctbpR.cpp] when there was no storage file, hence no backup to restore:
    it reports "Failed to write storage file", ends with status 1 and has
    created no file. *)
Theorem X20_unopened_stream_is_reported (platform : Platform) {json_text : JsonText}
    (p text a b c : string) (data out : json) (g : Rng) (w : World) :
  refused w MkDirs = false →
  refused w OpenWrite = true →
  ((CtbpR4.get_storage_file platform w).1 = Ret p →
   files w !! p = Some text →
   parse text = Some data →
   refused w BackupCopy = false →
   refused w OpenRead = false →
   fresh_ids (CtbpR4.generate_random_hex 64) CtbpR4.generate_uuid (entropy w)
     = (a, b, c, g) →
   CtbpR4.update_ids a b c data = Ret out →
   (CtbpR4.main platform w).1 = Ret 1 ∧
   files (CtbpR4.main platform w).2
   = <[ p +:+ ".backup_" +:+ timestamp w := text ]> (files w) ∧
   files (CtbpR4.main platform w).2 !! p = Some text ∧
   cerr (CtbpR4.main platform w).2
   = cerr w ++ ["Error: Failed to open storage file for writing" +:+ endl]) ∧
  ((CtbpR.getStorageFile platform w).1 = Ret p →
   files w !! p = None →
   (CtbpR.main platform w).1 = Ret 1 ∧
   files (CtbpR.main platform w).2 = files w ∧
   cerr (CtbpR.main platform w).2
   = cerr w ++ CtbpR_error_report (CursorResetError "Failed to write storage file")).
Proof.
  intros Hmk Hopen. split.
  - intros Hloc Hfile Hparse Hcopy Hread Hids Hup.
    set (bp := p +:+ ".backup_" +:+ timestamp w).
    set (w1 := set_files <[ bp := text ]> w).
    pose proof (backup_name_differs p (timestamp w)) as Hne. fold bp in Hne.
    assert (files w1 !! p = Some text) as Hfile1.
    { subst w1. cbn [files set_files]. by rewrite lookup_insert_ne. }
    rewrite (CtbpR4_main_throw platform w _ _
               (CtbpR4_reset_open_refused platform p a b c data out g w w1 w1
                  Hloc Hmk (CtbpR4_backup_file_existing p text w Hcopy Hfile)
                  (CtbpR_load_parsed p text data w1 Hfile1 Hread Hparse) Hids Hup Hopen)).
    cbn [fst snd]. split; [reflexivity|]. split; [reflexivity|].
    split; [exact Hfile1 | reflexivity].
  - intros Hloc Hmiss.
    apply CtbpR_locator_after_banner in Hloc.
    set (w0 := add_cout ("Targeting storage file: " +:+ quoted p +:+ endl)
                 (after_banner w)).
    destruct (fresh_ids (CtbpR.generateRandomHex 32) CtbpR.generateUUID (entropy w0))
      as [[[a' b'] c'] g'] eqn:Hids.
    pose proof (CtbpR_body_open_refused_no_backup platform p a' b' c' JNull
                  (nested_ids_document a' b' c') g' (after_banner w) w0 w0 Hloc Hmk
                  (CtbpR_backupFile_missing p w0 Hmiss) (CtbpR_load_missing p w0 Hmiss)
                  Hids (CtbpR_update_ids_null a' b' c') Hopen) as Hbody.
    destruct (CtbpR_main_throw platform w _ _ Hbody) as (w' & -> & Hfiles & _ & Herr).
    cbn [fst snd]. rewrite Hfiles, Herr. split; [reflexivity|].
    split; reflexivity.
Qed.

Lemma X20_unopened_stream_is_reported_witness :
  let w := refusing OpenWrite linux_world in
  (CtbpR.main (json_text := reference_json) Linux w).1 = Ret 1 ∧
  files (CtbpR.main (json_text := reference_json) Linux w).2 = files w ∧
  cerr (CtbpR.main (json_text := reference_json) Linux w).2
  = cerr w ++ CtbpR_error_report (CursorResetError "Failed to write storage file").
Proof.
  intros w.
  apply (X20_unopened_stream_is_reported (json_text := reference_json) Linux
           linux_storage "" "" "" "" JNull JNull counting_rng w);
    reflexivity.
Defined.

(* ===================================================================== *)
(** * Further properties: a write that comes up short *)
(* ===================================================================== *)

Section ShortWrite.
Context (platform : Platform) {json_text : JsonText}.

Lemma CtbpR4_reset_short_write (p a b c : string) (data out : json) (g : Rng)
    (w w1 w2 : World) :
  (CtbpR4.get_storage_file platform w).1 = Ret p →
  refused w MkDirs = false →
  CtbpR4.backup_file p w = (Ret tt, w1) →
  CtbpR4.load p w1 = (Ret data, w2) →
  fresh_ids (CtbpR4.generate_random_hex 64) CtbpR4.generate_uuid (entropy w2)
    = (a, b, c, g) →
  CtbpR4.update_ids a b c data = Ret out →
  refused w2 OpenWrite = false →
  refused w2 WriteData = true →
  ∃ w', CtbpR4.reset_cursor_id platform w = (Ret tt, w') ∧
        files w' !! p
        = Some (str (take (short_write w2) (chars (dump 2 out +:+ endl)))) ∧
        cerr w' = cerr w2.
Proof.
  intros Hloc Hmk Hbk Hld (g1 & g2 & E1 & E2 & E3)%fresh_ids_inv Hup Hopen Hwrite.
  apply (locator_returns _ _ _ (CtbpR4_get_storage_file_reads_env_only platform)) in Hloc.
  unfold CtbpR4.reset_cursor_id.
  rewrite (bind_ret_eq _ _ _ _ _ Hloc).
  rewrite (bind_ret_eq _ _ _ _ tt (create_directories_ok _ w Hmk)).
  rewrite (bind_ret_eq _ _ _ _ _ Hbk).
  rewrite (bind_ret_eq _ _ _ _ _ Hld).
  rewrite (bind_ret_eq _ _ _ _ _ (draw_eq _ w2 a g1 E1)).
  rewrite (bind_ret_eq _ _ _ _ _ (draw_eq _ (set_entropy g1 w2) b g2 E2)).
  rewrite (bind_ret_eq _ _ _ _ _ (draw_eq _ (set_entropy g2 (set_entropy g1 w2)) c g E3)).
  set (w3 := set_entropy g (set_entropy g2 (set_entropy g1 w2))).
  rewrite (bind_ret_eq _ _ _ w3 out) by (by unfold lift; rewrite Hup).
  rewrite (bind_ret_eq _ _ _ _ _ (ofstream_ok p w3 Hopen)).
  rewrite (bind_ret_eq _ _ (set_files <[ p := "" ]> w3)
             (set_files (λ fs, <[ p := default "" (fs !! p)
                                   +:+ str (take (short_write w2)
                                                 (chars (dump 2 out +:+ endl))) ]> fs)
                (set_files <[ p := "" ]> w3)) tt).
  2:{ unfold insert_text. cbn [refused set_files set_entropy short_write w3].
      subst w3. cbn [refused set_entropy]. rewrite Hwrite. reflexivity. }
  unfold bind at 1, print at 1.
  rewrite (bind_ret_eq _ _ _ _ (nested_ids a b c) eq_refl).
  eexists. split; [reflexivity|].
  cbn [print add_cout files cerr snd set_files set_entropy w3].
  split; [|reflexivity].
  rewrite lookup_insert_eq, lookup_insert_eq. reflexivity.
Qed.

End ShortWrite.

(** X21.  No variant looks at the stream after the insertion.  In
    [ctbpR.cpp] and [ctbpR-4.cpp], which do test that the stream opened, a
    write of which only the first bytes arrive (a full disk) goes unnoticed:
    the run ends with status 0 and nothing on [std::cerr], and the storage
    file holds a prefix of the serialised document, the empty text when
    nothing arrived. *)
Theorem X21_short_write_goes_unnoticed (platform : Platform) {json_text : JsonText}
    (p text a b c : string) (data out : json) (g : Rng) (w : World) :
  files w !! p = Some text →
  parse text = Some data →
  refused w MkDirs = false →
  refused w BackupCopy = false →
  refused w OpenRead = false →
  refused w OpenWrite = false →
  refused w WriteData = true →
  ((CtbpR.getStorageFile platform w).1 = Ret p →
   files w !! (p +:+ ".backup_" +:+ timestamp w) = None →
   fresh_ids (CtbpR.generateRandomHex 32) CtbpR.generateUUID (entropy w) = (a, b, c, g) →
   CtbpR.update_ids (nested_ids a b c) data = Ret out →
   (CtbpR.main platform w).1 = Ret 0 ∧
   cerr (CtbpR.main platform w).2 = cerr w ∧
   files (CtbpR.main platform w).2 !! p
   = Some (str (take (short_write w) (chars (dump 2 out +:+ endl))))) ∧
  ((CtbpR4.get_storage_file platform w).1 = Ret p →
   fresh_ids (CtbpR4.generate_random_hex 64) CtbpR4.generate_uuid (entropy w)
     = (a, b, c, g) →
   CtbpR4.update_ids a b c data = Ret out →
   (CtbpR4.main platform w).1 = Ret 0 ∧
   cerr (CtbpR4.main platform w).2 = cerr w ∧
   files (CtbpR4.main platform w).2 !! p
   = Some (str (take (short_write w) (chars (dump 2 out +:+ endl))))).
Proof.
  intros Hfile Hparse Hmk Hcopy Hread Hopen Hwrite. split.
  - intros Hloc Hfree Hids Hup.
    destruct (CtbpR_short_write_run platform p text a b c data out g w Hloc Hfile Hparse
                Hfree Hread Hmk Hcopy Hopen Hwrite Hids Hup)
      as (w' & -> & Hfile' & Herr).
    cbn [fst snd]. split; [reflexivity|]. split; [exact Herr | exact Hfile'].
  - intros Hloc Hids Hup.
    set (bp := p +:+ ".backup_" +:+ timestamp w).
    set (w1 := set_files <[ bp := text ]> w).
    pose proof (backup_name_differs p (timestamp w)) as Hne. fold bp in Hne.
    assert (files w1 !! p = Some text) as Hfile1.
    { subst w1. cbn [files set_files]. by rewrite lookup_insert_ne. }
    destruct (CtbpR4_reset_short_write platform p a b c data out g w w1 w1
                Hloc Hmk (CtbpR4_backup_file_existing p text w Hcopy Hfile)
                (CtbpR_load_parsed p text data w1 Hfile1 Hread Hparse) Hids Hup
                Hopen Hwrite)
      as (w' & Hrun & Hfile' & Herr).
    rewrite (CtbpR4_main_ret platform w w' Hrun). cbn [fst snd].
    split; [reflexivity|]. split; [exact Herr | exact Hfile'].
Qed.

Lemma X21_short_write_goes_unnoticed_witness :
  (CtbpR4.main (json_text := reference_json) Linux full_disk_world).1 = Ret 0 ∧
  cerr (CtbpR4.main (json_text := reference_json) Linux full_disk_world).2 = [] ∧
  files (CtbpR4.main (json_text := reference_json) Linux full_disk_world).2
    !! linux_storage = Some "".
Proof.
  destruct (X21_short_write_goes_unnoticed (json_text := reference_json) Linux
              linux_storage "{}"
              (fresh_ids (CtbpR4.generate_random_hex 64) CtbpR4.generate_uuid
                 (entropy full_disk_world)).1.1.1
              (fresh_ids (CtbpR4.generate_random_hex 64) CtbpR4.generate_uuid
                 (entropy full_disk_world)).1.1.2
              (fresh_ids (CtbpR4.generate_random_hex 64) CtbpR4.generate_uuid
                 (entropy full_disk_world)).1.2
              (JObj ∅)
              (JObj (<[ "telemetry.devDeviceId" := JStr
                          (fresh_ids (CtbpR4.generate_random_hex 64) CtbpR4.generate_uuid
                             (entropy full_disk_world)).1.2 ]>
                    (<[ "telemetry.macMachineId" := JStr
                          (fresh_ids (CtbpR4.generate_random_hex 64) CtbpR4.generate_uuid
                             (entropy full_disk_world)).1.1.2 ]>
                    (<[ "telemetry.machineId" := JStr
                          (fresh_ids (CtbpR4.generate_random_hex 64) CtbpR4.generate_uuid
                             (entropy full_disk_world)).1.1.1 ]> ∅))))
              (fresh_ids (CtbpR4.generate_random_hex 64) CtbpR4.generate_uuid
                 (entropy full_disk_world)).2
              full_disk_world)
    as [_ H4]; try (vm_compute; reflexivity).
  destruct H4 as (Hexit & Herr & Hfile); try (vm_compute; reflexivity).
  exact (conj Hexit (conj Herr Hfile)).
Defined.

(* ===================================================================== *)
(** * Further properties: a storage file the update cannot use *)
(* ===================================================================== *)

Section UpdateThrows.
Context (platform : Platform) {json_text : JsonText}.

(** The [try] block of [ctbpR.cpp] when the update throws. *)
Lemma CtbpR_body_update_throws (p bpath : string) (e : exn) (data : json)
    (w w1 w2 : World) :
  (CtbpR.getStorageFile platform w).1 = Ret p →
  refused w MkDirs = false →
  CtbpR.backupFile p (add_cout ("Targeting storage file: " +:+ quoted p +:+ endl) w)
    = (Ret bpath, w1) →
  CtbpR.load p w1 = (Ret data, w2) →
  (∀ a b c, CtbpR.update_ids (nested_ids a b c) data = Throw e) →
  ∃ g, CtbpR.resetCursorId_body platform w = (Throw e, set_entropy g w2).
Proof.
  intros Hloc Hmk Hbk Hld Hup.
  apply (locator_returns _ _ _ (CtbpR_getStorageFile_reads_env_only platform)) in Hloc.
  destruct (CtbpR_generateNewIds_total w2) as (a & b & c & g & Hgen).
  exists g. unfold CtbpR.resetCursorId_body.
  rewrite (bind_ret_eq _ _ _ _ _ Hloc).
  unfold bind at 1, print at 1.
  set (w0 := add_cout ("Targeting storage file: " +:+ quoted p +:+ endl) w) in *.
  rewrite (bind_ret_eq _ _ _ _ tt (create_directories_ok _ w0 Hmk)).
  rewrite (bind_ret_eq _ _ _ _ _ Hbk).
  rewrite (bind_ret_eq _ _ _ _ _ Hld).
  rewrite (bind_ret_eq _ _ _ _ _ Hgen).
  apply bind_throw_eq. unfold lift. by rewrite Hup.
Qed.

(** [reset_cursor_id] of [ctbpR-4.cpp] when the update throws. *)
Lemma CtbpR4_reset_update_throws (p : string) (e : exn) (data : json)
    (w w1 w2 : World) :
  (CtbpR4.get_storage_file platform w).1 = Ret p →
  refused w MkDirs = false →
  CtbpR4.backup_file p w = (Ret tt, w1) →
  CtbpR4.load p w1 = (Ret data, w2) →
  (∀ a b c, CtbpR4.update_ids a b c data = Throw e) →
  ∃ g, CtbpR4.reset_cursor_id platform w = (Throw e, set_entropy g w2).
Proof.
  intros Hloc Hmk Hbk Hld Hup.
  apply (locator_returns _ _ _ (CtbpR4_get_storage_file_reads_env_only platform)) in Hloc.
  destruct (fresh_ids (CtbpR4.generate_random_hex 64) CtbpR4.generate_uuid (entropy w2))
    as [[[a b] c] g] eqn:Hids.
  apply fresh_ids_inv in Hids as (g1 & g2 & E1 & E2 & E3).
  exists g. unfold CtbpR4.reset_cursor_id.
  rewrite (bind_ret_eq _ _ _ _ _ Hloc).
  rewrite (bind_ret_eq _ _ _ _ tt (create_directories_ok _ w Hmk)).
  rewrite (bind_ret_eq _ _ _ _ _ Hbk).
  rewrite (bind_ret_eq _ _ _ _ _ Hld).
  rewrite (bind_ret_eq _ _ _ _ _ (draw_eq _ w2 a g1 E1)).
  rewrite (bind_ret_eq _ _ _ _ _ (draw_eq _ (set_entropy g1 w2) b g2 E2)).
  rewrite (bind_ret_eq _ _ _ _ _ (draw_eq _ (set_entropy g2 (set_entropy g1 w2)) c g E3)).
  apply bind_throw_eq. unfold lift. by rewrite Hup.
Qed.

(** The [try] block of [ctbpR-2.cpp] when the old values cannot be read. *)
Lemma CtbpR2_body_original_throws (p text : string) (e : exn) (data : json) (w : World) :
  (CtbpR2.get_storage_file platform w).1 = Ret p →
  files w !! p = Some text →
  parse text = Some data →
  refused w MkDirs = false →
  refused w BackupCopy = false →
  refused w OpenRead = false →
  CtbpR2.original_ids data = Throw e →
  ∃ w', CtbpR2.reset_cursor_id_body platform w = (Throw e, w') ∧
        files w' = <[ p +:+ ".backup_" +:+ timestamp w := text ]> (files w) ∧
        cerr w' = cerr w.
Proof.
  intros Hloc Hfile Hparse Hmk Hcopy Hread Horig.
  destruct (fresh_ids (CtbpR2.generate_random_hex 32) CtbpR2.generate_uuid (entropy w))
    as [[[a b] c] g] eqn:Hids.
  rewrite (CtbpR2_body_after_draws platform p text a b c data g w
             Hloc Hfile Hparse Hmk Hcopy Hread Hids).
  eexists. split.
  - apply bind_throw_eq. unfold lift. by rewrite Horig.
  - split; reflexivity.
Qed.

Lemma flat_update_type_error (a b c : string) (data : json) :
  null_or_object data = false →
  CtbpR3.update_ids a b c data = Throw (json_type_error 305) ∧
  CtbpR4.update_ids a b c data = Throw (json_type_error 305).
Proof. destruct data; try discriminate; split; reflexivity. Qed.

Lemma nested_update_type_error (a b c : string) (data : json) :
  null_or_object data = false →
  CtbpR.update_ids (nested_ids a b c) data = Throw (json_type_error 305).
Proof. destruct data; try discriminate; reflexivity. Qed.

Lemma CtbpR2_original_ids_not_object (data : json) :
  null_or_object data = false →
  CtbpR2.original_ids data = Throw (json_type_error 306).
Proof. destruct data; try discriminate; reflexivity. Qed.

End UpdateThrows.

(** X22.  A storage file that holds valid JSON which is not an object (an
    array, a number, a string, a boolean) stops every variant after the
    backup and before the write: the file is as it was, the backup holds a
    copy, and the exception is reported on [std::cerr].  In [ctbpR.cpp],
    [ctbpR-3.cpp] and [ctbpR-4.cpp] it is the [type_error.305] of
    [operator[]]; in [ctbpR-2.cpp] it is the [type_error.306] of [value()],
    met when the old values are read.  The exit status is 1 in [ctbpR.cpp]
    and [ctbpR-4.cpp] and 0 in the other two. *)
Theorem X22_document_not_an_object (platform : Platform) {json_text : JsonText}
    (p text : string) (data : json) (w : World) :
  files w !! p = Some text →
  parse text = Some data →
  null_or_object data = false →
  refused w MkDirs = false →
  refused w BackupCopy = false →
  refused w OpenRead = false →
  ((CtbpR.getStorageFile platform w).1 = Ret p →
   files w !! (p +:+ ".backup_" +:+ timestamp w) = None →
   (CtbpR.main platform w).1 = Ret 1 ∧
   files (CtbpR.main platform w).2
   = <[ p +:+ ".backup_" +:+ timestamp w := text ]> (files w) ∧
   cerr (CtbpR.main platform w).2
   = cerr w ++ CtbpR_error_report (json_type_error 305)) ∧
  ((CtbpR4.get_storage_file platform w).1 = Ret p →
   (CtbpR4.main platform w).1 = Ret 1 ∧
   files (CtbpR4.main platform w).2
   = <[ p +:+ ".backup_" +:+ timestamp w := text ]> (files w) ∧
   cerr (CtbpR4.main platform w).2
   = cerr w ++ ["Error: " +:+ what (json_type_error 305) +:+ endl]) ∧
  ((CtbpR3.getStorageFile platform w).1 = Ret p →
   files w !! (path_append platform (parent_path platform p)
                 ("storage.json.backup_" +:+ timestamp w)) = None →
   (CtbpR3.main platform w).1 = Ret 0 ∧
   files (CtbpR3.main platform w).2
   = <[ path_append platform (parent_path platform p)
          ("storage.json.backup_" +:+ timestamp w) := text ]> (files w) ∧
   cerr (CtbpR3.main platform w).2
   = cerr w ++ ["❌ An error occurred: " +:+ what (json_type_error 305) +:+ endl]) ∧
  ((CtbpR2.get_storage_file platform w).1 = Ret p →
   (CtbpR2.main platform w).1 = Ret 0 ∧
   files (CtbpR2.main platform w).2
   = <[ p +:+ ".backup_" +:+ timestamp w := text ]> (files w) ∧
   cerr (CtbpR2.main platform w).2
   = cerr w ++ CtbpR2_error_report (json_type_error 306)).
Proof.
  intros Hfile Hparse Hdata Hmk Hcopy Hread.
  split; [|split; [|split]].
  - intros Hloc Hfree.
    apply CtbpR_locator_after_banner in Hloc.
    set (w0 := add_cout ("Targeting storage file: " +:+ quoted p +:+ endl)
                 (after_banner w)).
    set (bp := p +:+ ".backup_" +:+ timestamp w) in *.
    set (w1 := add_cout ("Created backup at: " +:+ quoted bp +:+ endl)
                 (set_files <[ bp := text ]> w0)).
    assert (files w1 !! p = Some text) as Hfile1.
    { subst w1 w0. cbn [files set_files add_cout after_banner].
      rewrite lookup_insert_ne; [exact Hfile|]. apply backup_name_differs. }
    destruct (CtbpR_body_update_throws platform p bp (json_type_error 305) data
                (after_banner w) w1 w1 Hloc Hmk
                (CtbpR_backupFile_fresh p text w0 Hfile Hfree Hcopy)
                (CtbpR_load_parsed p text data w1 Hfile1 Hread Hparse)
                (λ a b c, nested_update_type_error a b c data Hdata)) as (g & Hbody).
    destruct (CtbpR_main_throw platform w _ _ Hbody) as (w' & -> & Hfiles & _ & Herr).
    cbn [fst snd]. rewrite Hfiles, Herr. split; [reflexivity|].
    split; reflexivity.
  - intros Hloc.
    set (bp := p +:+ ".backup_" +:+ timestamp w).
    set (w1 := set_files <[ bp := text ]> w).
    assert (files w1 !! p = Some text) as Hfile1.
    { subst w1. cbn [files set_files].
      rewrite lookup_insert_ne; [exact Hfile|]. apply backup_name_differs. }
    destruct (CtbpR4_reset_update_throws platform p (json_type_error 305) data w w1 w1
                Hloc Hmk (CtbpR4_backup_file_existing p text w Hcopy Hfile)
                (CtbpR_load_parsed p text data w1 Hfile1 Hread Hparse)
                (λ a b c, proj2 (flat_update_type_error a b c data Hdata)))
      as (g & Hrun).
    rewrite (CtbpR4_main_throw platform w _ _ Hrun). cbn [fst snd].
    split; [reflexivity|]. split; reflexivity.
  - intros Hloc Hfree.
    set (bp := path_append platform (parent_path platform p)
                 ("storage.json.backup_" +:+ timestamp w)) in *.
    set (w1 := set_files <[ bp := text ]> w).
    assert (files w1 !! p = Some text) as Hfile1.
    { subst w1. cbn [files set_files]. rewrite lookup_insert_ne; [exact Hfile|].
      intros Heq. rewrite Heq in Hfree. congruence. }
    pose proof (CtbpR3_body_after_load platform p data w w1 w1 Hloc Hmk
                  (CtbpR3_backupFile_fresh platform p text w Hfile Hfree Hcopy)
                  (CtbpR3_load_parsed p text data w1 Hfile1 Hread Hparse)) as Hbody.
    destruct (CtbpR3_generate_type_error p data w1 Hdata) as (g & Htail).
    rewrite Htail in Hbody.
    rewrite (CtbpR3_main_throw platform w _ _ Hbody). cbn [fst snd].
    split; [reflexivity|]. split; reflexivity.
  - intros Hloc.
    destruct (CtbpR2_body_original_throws platform p text (json_type_error 306) data w
                Hloc Hfile Hparse Hmk Hcopy Hread
                (CtbpR2_original_ids_not_object data Hdata))
      as (w1 & Hbody & Hfiles1 & Herr1).
    destruct (CtbpR2_main_throw platform w w1 _ Hbody) as (w' & -> & Hfiles & Herr).
    cbn [fst snd]. rewrite Hfiles, Herr, Hfiles1, Herr1. split; [reflexivity|].
    split; reflexivity.
Qed.

Lemma X22_document_not_an_object_witness :
  let w := with_file linux_storage "[]" linux_world in
  (CtbpR4.main (json_text := reference_json) Linux w).1 = Ret 1 ∧
  files (CtbpR4.main (json_text := reference_json) Linux w).2
  = <[ linux_backup := "[]" ]> (files w) ∧
  cerr (CtbpR4.main (json_text := reference_json) Linux w).2
  = cerr w ++ ["Error: " +:+ what (json_type_error 305) +:+ endl].
Proof.
  intros w.
  apply (X22_document_not_an_object (json_text := reference_json) Linux
           linux_storage "[]" (JArr []) w); vm_compute; reflexivity.
Defined.

(** X23.  [ctbpR-2.cpp] reads the old identifiers with a string default:
    when the storage file holds an object in which one of the three
    identifier fields is not a string (a number or [null], say), [value()]
    throws [type_error.302]; the run reports it on [std::cerr], ends with
    status 0, and has made the backup but not touched the storage file. *)
Theorem X23_ctbpR2_identifier_not_a_string (platform : Platform) {json_text : JsonText}
    (p text : string) (m : gmap string json) (w : World) :
  (CtbpR2.get_storage_file platform w).1 = Ret p →
  files w !! p = Some text →
  parse text = Some (JObj m) →
  ids_absent_or_strings m = false →
  refused w MkDirs = false →
  refused w BackupCopy = false →
  refused w OpenRead = false →
  (CtbpR2.main platform w).1 = Ret 0 ∧
  files (CtbpR2.main platform w).2
  = <[ p +:+ ".backup_" +:+ timestamp w := text ]> (files w) ∧
  files (CtbpR2.main platform w).2 !! p = Some text ∧
  cerr (CtbpR2.main platform w).2
  = cerr w ++ CtbpR2_error_report (json_type_error 302).
Proof.
  intros Hloc Hfile Hparse Hids Hmk Hcopy Hread.
  destruct (CtbpR2_body_original_throws platform p text (json_type_error 302) (JObj m) w
              Hloc Hfile Hparse Hmk Hcopy Hread
              (CtbpR2_original_ids_not_string m Hids))
    as (w1 & Hbody & Hfiles1 & Herr1).
  destruct (CtbpR2_main_throw platform w w1 _ Hbody) as (w' & -> & Hfiles & Herr).
  cbn [fst snd]. rewrite Hfiles, Herr, Hfiles1, Herr1. split; [reflexivity|].
  split; [reflexivity|]. split; [|reflexivity].
  rewrite lookup_insert_ne; [exact Hfile|]. apply backup_name_differs.
Qed.

Lemma X23_ctbpR2_identifier_not_a_string_witness :
  let text := "{" +:+ String (ascii_of_nat 34) "telemetry.machineId"
              +:+ String (ascii_of_nat 34) ":1}" in
  let w := with_file linux_storage text linux_world in
  (CtbpR2.main (json_text := reference_json) Linux w).1 = Ret 0 ∧
  files (CtbpR2.main (json_text := reference_json) Linux w).2
  = <[ linux_backup := text ]> (files w) ∧
  files (CtbpR2.main (json_text := reference_json) Linux w).2 !! linux_storage
  = Some text ∧
  cerr (CtbpR2.main (json_text := reference_json) Linux w).2
  = cerr w ++ CtbpR2_error_report (json_type_error 302).
Proof.
  intros text w.
  apply (X23_ctbpR2_identifier_not_a_string (json_text := reference_json) Linux
           linux_storage text {[ "telemetry.machineId" := JInt 1 ]} w);
    vm_compute; reflexivity.
Defined.

(* ===================================================================== *)
(** * Further properties: the identifiers a run draws *)
(* ===================================================================== *)

(** X24.  The three values a run draws, by variant and whatever the random
    source.  [ctbpR-4.cpp] draws two strings of 64 lowercase hex characters
    and a version-4 UUID; [ctbpR-3.cpp] draws two strings of 32 lowercase hex
    characters, half the length, and a UUID-shaped string without version or
    variant digit; [ctbpR-2.cpp] draws two lowercase hex strings whose
    length lies between 32 and 64. *)
Theorem X24_identifier_sizes (gen : Rng) :
  (let ids := fresh_ids (CtbpR4.generate_random_hex 64) CtbpR4.generate_uuid gen in
   String.length ids.1.1.1 = 64%nat ∧
   forallb is_lower_hex (chars ids.1.1.1) = true ∧
   String.length ids.1.1.2 = 64%nat ∧
   forallb is_lower_hex (chars ids.1.1.2) = true ∧
   matches uuid_v4_pattern (chars ids.1.2) = true) ∧
  (let ids := fresh_ids (CtbpR3.generateRandomHex 32) CtbpR3.generateUUID gen in
   String.length ids.1.1.1 = 32%nat ∧
   forallb is_lower_hex (chars ids.1.1.1) = true ∧
   String.length ids.1.1.2 = 32%nat ∧
   forallb is_lower_hex (chars ids.1.1.2) = true ∧
   matches canonical_uuid_pattern (chars ids.1.2) = true) ∧
  (let ids := fresh_ids (CtbpR2.generate_random_hex 32) CtbpR2.generate_uuid gen in
   (32 ≤ String.length ids.1.1.1 ≤ 64)%nat ∧
   forallb is_lower_hex (chars ids.1.1.1) = true ∧
   (32 ≤ String.length ids.1.1.2 ≤ 64)%nat ∧
   forallb is_lower_hex (chars ids.1.1.2) = true).
Proof.
  split; [|split].
  - destruct (fresh_ids (CtbpR4.generate_random_hex 64) CtbpR4.generate_uuid gen)
      as [[[a b] c] g] eqn:Hids.
    apply fresh_ids_inv in Hids as (g1 & g2 & E1 & E2 & E3).
    pose proof (CtbpR4_generate_random_hex_spec 64 gen) as [La Ha].
    pose proof (CtbpR4_generate_random_hex_spec 64 g1) as [Lb Hb].
    pose proof (CtbpR4_generate_uuid_v4 g2) as Hc.
    rewrite E1 in La, Ha. rewrite E2 in Lb, Hb. rewrite E3 in Hc.
    cbn [fst snd] in *. auto.
  - destruct (fresh_ids (CtbpR3.generateRandomHex 32) CtbpR3.generateUUID gen)
      as [[[a b] c] g] eqn:Hids.
    apply fresh_ids_inv in Hids as (g1 & g2 & E1 & E2 & E3).
    pose proof (CtbpR3_generateRandomHex_spec 32 gen) as [La Ha].
    pose proof (CtbpR3_generateRandomHex_spec 32 g1) as [Lb Hb].
    pose proof (CtbpR3_generateUUID_canonical g2) as Hc.
    rewrite E1 in La, Ha. rewrite E2 in Lb, Hb. rewrite E3 in Hc.
    cbn [fst snd] in *. auto.
  - destruct (fresh_ids (CtbpR2.generate_random_hex 32) CtbpR2.generate_uuid gen)
      as [[[a b] c] g] eqn:Hids.
    apply fresh_ids_inv in Hids as (g1 & g2 & E1 & E2 & E3).
    pose proof (CtbpR2_generate_random_hex_spec 32 gen) as [La Ha].
    pose proof (CtbpR2_generate_random_hex_spec 32 g1) as [Lb Hb].
    rewrite E1 in La, Ha. rewrite E2 in Lb, Hb.
    cbn [fst snd] in *. auto.
Qed.

(* ===================================================================== *)
(** * Further properties: a storage file that cannot be read *)
(* ===================================================================== *)



(* ===================================================================== *)
(** * Further properties: the two ways to name the backup *)
(* ===================================================================== *)

Lemma str_chars (s : string) : str (chars s) = s.
Proof. apply String.string_of_list_ascii_of_string. Qed.

(** The parent of [pre/storage.json] is [pre], when [pre] does not itself
    end with a separator. *)
Lemma parent_of_storage_file (platform : Platform) (pre : string) (c : ascii) :
  last (chars pre) = Some c →
  is_separator platform c = false →
  parent_path platform (pre +:+ String (preferred_separator platform) "storage.json")
  = pre.
Proof.
  intros Hlast Hsep. unfold parent_path.
  rewrite chars_append, reverse_app.
  rewrite <- head_reverse in Hlast.
  destruct (reverse (chars pre)) as [|c' r] eqn:Hrev; [discriminate Hlast|].
  injection Hlast as ->.
  assert (is_separator platform (preferred_separator platform) = true) as Hpref
    by (destruct platform; reflexivity).
  assert (drop_while (λ x, negb (is_separator platform x))
            (reverse (chars (String (preferred_separator platform) "storage.json"))
             ++ c :: r)
          = preferred_separator platform :: c :: r) as ->.
  { destruct platform; reflexivity. }
  cbn [drop_while]. rewrite Hpref. cbn [drop_while]. rewrite Hsep.
  rewrite <- Hrev, reverse_involutive. apply str_chars.
Qed.

(** The path the locators return is [pre/storage.json] for such a [pre]. *)
Lemma storage_path_split (platform : Platform) (dir : string) :
  platform ≠ Unknown →
  ∃ pre c,
    storage_path platform dir
    = pre +:+ String (preferred_separator platform) "storage.json" ∧
    last (chars pre) = Some c ∧ is_separator platform c = false.
Proof.
  intros Hknown. unfold storage_path.
  destruct platform; [| | |done].
  - destruct (needs_separator Windows dir).
    + exists (dir +:+ "\Cursor\User\globalStorage"), "e"%char.
      split; [rewrite append_assoc; reflexivity|].
      split; [apply last_chars_append; reflexivity | reflexivity].
    + exists (dir +:+ "Cursor\User\globalStorage"), "e"%char.
      split; [rewrite append_assoc; reflexivity|].
      split; [apply last_chars_append; reflexivity | reflexivity].
  - destruct (needs_separator Darwin dir).
    + exists (dir +:+ "/Library/Application Support/Cursor/User/globalStorage"), "e"%char.
      split; [rewrite append_assoc; reflexivity|].
      split; [apply last_chars_append; reflexivity | reflexivity].
    + exists (dir +:+ "Library/Application Support/Cursor/User/globalStorage"), "e"%char.
      split; [rewrite append_assoc; reflexivity|].
      split; [apply last_chars_append; reflexivity | reflexivity].
  - destruct (needs_separator Linux dir).
    + exists (dir +:+ "/.config/Cursor/User/globalStorage"), "e"%char.
      split; [rewrite append_assoc; reflexivity|].
      split; [apply last_chars_append; reflexivity | reflexivity].
    + exists (dir +:+ ".config/Cursor/User/globalStorage"), "e"%char.
      split; [rewrite append_assoc; reflexivity|].
      split; [apply last_chars_append; reflexivity | reflexivity].
Qed.

Lemma backup_names_agree (platform : Platform) (dir stamp : string) :
  platform ≠ Unknown →
  path_append platform (parent_path platform (storage_path platform dir))
    ("storage.json.backup_" +:+ stamp)
  = storage_path platform dir +:+ ".backup_" +:+ stamp.
Proof.
  intros Hknown.
  destruct (storage_path_split platform dir Hknown) as (pre & c & -> & Hlast & Hsep).
  rewrite (parent_of_storage_file platform pre c Hlast Hsep).
  rewrite (path_append_separated platform pre _ c Hlast Hsep).
  rewrite !append_assoc. reflexivity.
Qed.

(** X26.  [ctbpR-3.cpp] names its backup from the parent directory and the
    fixed name [storage.json.backup_], the other variants append [.backup_]
    to the storage path.  On macOS and Linux, for the path the locators
    return, whatever the value of [HOME], the two names are the same, and
    the backup function of [ctbpR-3.cpp] leaves the same files as that of
    [ctbpR.cpp] in every world: both copy without the overwrite option, so
    both fail, and change nothing, when that name is taken. *)
Theorem X26_backup_names_agree (platform : Platform) (dir : string) (w : World) :
  platform = Darwin ∨ platform = Linux →
  path_append platform (parent_path platform (storage_path platform dir))
    ("storage.json.backup_" +:+ timestamp w)
  = storage_path platform dir +:+ ".backup_" +:+ timestamp w ∧
  files (CtbpR3.backupFile platform (storage_path platform dir) w).2
  = files (CtbpR.backupFile (storage_path platform dir) w).2 ∧
  ((CtbpR3.backupFile platform (storage_path platform dir) w).1 = Ret tt ↔
   ∃ name, (CtbpR.backupFile (storage_path platform dir) w).1 = Ret name).
Proof.
  intros Hposix.
  assert (platform ≠ Unknown) as Hknown by (destruct Hposix as [-> | ->]; discriminate).
  pose proof (backup_names_agree platform dir (timestamp w) Hknown) as Hname.
  split; [exact Hname|].
  unfold CtbpR3.backupFile, CtbpR.backupFile, bind, exists_, local_timestamp.
  destruct (bool_decide (is_Some (files w !! storage_path platform dir)));
    cbn [negb]; [|split; [reflexivity|split; eauto]].
  rewrite Hname. unfold copy_file, print, ret.
  destruct (refused w BackupCopy);
    [split; [reflexivity|split; [discriminate|intros [? [=]]]]|].
  destruct (files w !! storage_path platform dir);
    [|split; [reflexivity|split; [discriminate|intros [? [=]]]]].
  destruct (bool_decide _ && negb false);
    [split; [reflexivity|split; [discriminate|intros [? [=]]]]|].
  split; [reflexivity|split; eauto].
Qed.

Lemma X26_backup_names_agree_witness :
  path_append Linux (parent_path Linux linux_storage)
    "storage.json.backup_20250324_120000"
  = linux_backup.
Proof.
  apply (X26_backup_names_agree Linux "/home/u" linux_world). by right.
Defined.
